(** * Thunder Bot: the clan approval workflow

    A shallow embedding of the clan handlers of the bot: the loader of
    the configuration (src/utils/config.ts), the handler of the [cr:]
    decision buttons, the handler of the signup buttons
    (src/events/di-clan-signup-button.ts) and the commands
    clan-join-request, clan-grant-access and clan-revoke-access
    (src/commands), with the properties of the approval workflow proved
    about them.

    The chat platform (roles, channels, messages, interaction replies) is
    an explicit world that the handlers thread through a small state and
    exception monad; every call the handlers make on it is recorded in a
    trace, with its outcome. *)

From Stdlib Require Import Ascii String QArith.
From stdpp Require Import gmap strings list pretty.

Open Scope string_scope.

(** ** Strings as the handlers use them *)

(** The line feed of the template strings. *)
Definition nl : string := String (Ascii.ascii_of_nat 10) "".

(** [String.prototype.split] with a one-character separator: the fields
    between the occurrences of the separator, empty ones included; the
    result is never empty. *)
Fixpoint split (sep : ascii) (s : string) : list string :=
  match s with
  | "" => [""]
  | String c s' =>
      if Ascii.eqb c sep then "" :: split sep s'
      else match split sep s' with
           | [] => [String c ""]
           | f :: fs => String c f :: fs
           end
  end.

(** [String.prototype.startsWith]. *)
Fixpoint startsWith (s p : string) {struct p} : bool :=
  match p, s with
  | "", _ => true
  | String a p', String b s' => Ascii.eqb a b && startsWith s' p'
  | String _ _, "" => false
  end.

(** JavaScript truthiness of a destructured array element: [undefined]
    and the empty string are falsy. *)
Definition truthy_field (f : option string) : bool :=
  match f with
  | Some s => negb (String.eqb s "")
  | None => false
  end.

(** ** JSON values and the configuration file (src/utils/config.ts) *)

(** The values [JSON.parse] returns.  A number is the value of the
    parsed literal; of a number the code observes only whether it is
    zero. *)
#[warnings="-register-all"]
Inductive json : Type :=
| JNull
| JBool (b : bool)
| JNum (q : Q)
| JStr (s : string)
| JArr (items : list json)
| JObj (props : list (string * json)).

(** Own property of a parsed object; the last binding of a duplicated
    key wins, as in [JSON.parse]. *)
Fixpoint own_property (props : list (string * json)) (k : string) : option json :=
  match props with
  | [] => None
  | (k', v) :: rest =>
      match own_property rest k with
      | Some v' => Some v'
      | None => if String.eqb k' k then Some v else None
      end
  end.

(** What the JavaScript exceptions of the handlers carry. *)
Inductive exn : Type :=
| Error (message : string)
| TypeError (message : string)
| SyntaxError (message : string)
| PlatformError (message : string).

(** [error.message]. *)
Definition message_of (e : exn) : string :=
  match e with
  | Error m | TypeError m | SyntaxError m | PlatformError m => m
  end.

Inductive Result (A : Type) : Type :=
| Ok (a : A)
| Throw (e : exn).
Arguments Ok {A} a.
Arguments Throw {A} e.

(** Property read [v[k]] for the keys the loader reads ([clans] and the
    required fields): [None] is [undefined]; reading a property of
    [null] throws.  Primitives and arrays have none of these keys. *)
Definition get_property (v : json) (k : string) : Result (option json) :=
  match v with
  | JNull => Throw (TypeError ("Cannot read properties of null (reading '" ++ k ++ "')"))
  | JObj props => Ok (own_property props k)
  | _ => Ok None
  end.

(** JavaScript truthiness of a property value. *)
Definition truthy (v : option json) : bool :=
  match v with
  | None => false
  | Some JNull => false
  | Some (JBool b) => b
  | Some (JNum q) => negb (Z.eqb (Qnum q) 0)
  | Some (JStr s) => negb (String.eqb s "")
  | Some (JArr _) => true
  | Some (JObj _) => true
  end.

(** What the loader finds at config/clans.json: no file
    ([fs.existsSync] is false), a file that cannot be read
    ([fs.readFileSync] throws), or a text, given by what [JSON.parse]
    makes of it (a syntax error with its message, or a value). *)
Inductive file_state : Type :=
| FileMissing
| FileUnreadable (message : string)
| FileText (parsed : string + json).

Definition requiredFields : list string :=
  ["id"; "name"; "roleId"; "approverRoleId"; "approvalChannelId"].

(** The inner [requiredFields.forEach] of one clan: the first falsy
    field throws. *)
Fixpoint validate_fields (clan : json) (index : nat) (fields : list string)
  : Result unit :=
  match fields with
  | [] => Ok tt
  | field :: rest =>
      match get_property clan field with
      | Throw e => Throw e
      | Ok v =>
          if truthy v then validate_fields clan index rest
          else Throw (Error ("Invalid configuration: clan at index "
                               ++ pretty index ++ " is missing " ++ field))
      end
  end.

(** The outer [config.clans.forEach((clan, index) => ...)]. *)
Fixpoint validate_clans (clans : list json) (index : nat) : Result unit :=
  match clans with
  | [] => Ok tt
  | clan :: rest =>
      match validate_fields clan index requiredFields with
      | Throw e => Throw e
      | Ok _ => validate_clans rest (S index)
      end
  end.

(** The body of the [try] block of [loadClanConfig], from what
    [fs.readFileSync] and [JSON.parse] give. *)
Definition load_body (read : Result (string + json)) : Result json :=
  match read with
  | Throw e => Throw e
  | Ok (inl m) => Throw (SyntaxError m)
  | Ok (inr config) =>
      match get_property config "clans" with
      | Throw e => Throw e
      | Ok (Some (JArr clans)) =>
          match validate_clans clans 0 with
          | Throw e => Throw e
          | Ok _ => Ok config
          end
      | Ok _ => Throw (Error "Invalid configuration: clans must be an array")
      end
  end.

(** The [catch] of [loadClanConfig]: each of the exceptions above is an
    [instanceof Error], so its message is wrapped. *)
Definition load_catch (r : Result json) : Result json :=
  match r with
  | Ok config => Ok config
  | Throw e => Throw (Error ("Failed to load clan configuration: " ++ message_of e))
  end.

(** [loadClanConfig]: the existence test, then the [try] block. *)
Definition loadClanConfig (f : file_state) : Result json :=
  match f with
  | FileMissing =>
      Throw (Error "Clan configuration file not found. Please create config/clans.json")
  | FileUnreadable m => load_catch (load_body (Throw (Error m)))
  | FileText parsed => load_catch (load_body (Ok parsed))
  end.

(** ** The configuration as the handlers read it

    [loadClanConfig] returns its value under the type [ClanConfig] of
    src/types/clan.ts; the handlers read the fields below of a clan, each
    as a string.  A value that passed the validation and is not a string
    is read as the empty string, which is the identifier of no clan, role
    or channel. *)
Module Clan.
Record t : Type := {
  id : string;
  name : string;
  roleId : string;
  approverRoleId : string;
  approvalChannelId : string
}.
End Clan.

Definition string_field (clan : json) (k : string) : string :=
  match get_property clan k with
  | Ok (Some (JStr s)) => s
  | _ => ""
  end.

Definition asClan (clan : json) : Clan.t :=
  {| Clan.id := string_field clan "id";
     Clan.name := string_field clan "name";
     Clan.roleId := string_field clan "roleId";
     Clan.approverRoleId := string_field clan "approverRoleId";
     Clan.approvalChannelId := string_field clan "approvalChannelId" |}.

(** [config.clans]. *)
Definition clans_of (config : json) : list Clan.t :=
  match get_property config "clans" with
  | Ok (Some (JArr clans)) => map asClan clans
  | _ => []
  end.

(** [clans.find(c => c.id === clanId)]. *)
Definition find_clan (clans : list Clan.t) (clanId : string) : option Clan.t :=
  List.find (fun c => String.eqb (Clan.id c) clanId) clans.

(** ** The chat platform *)

(** A button of a message: [setCustomId] and [setLabel] (the style is
    left out). *)
Record ButtonBuilder : Type := {
  button_customId : string;
  button_label : string
}.

(** An embed of a message: its title, its fields (name and value) and
    its footer (the colour and the timestamp are left out). *)
Record Embed : Type := {
  embed_title : option string;
  embed_fields : list (string * string);
  embed_footer : option string
}.

(** [String.prototype.length]: the number of UTF-16 code units.  A
    string is held here as the bytes of its UTF-8 encoding: each byte
    that starts a character counts for one unit, the first byte of a
    character outside the basic plane for two, a continuation byte for
    none. *)
Fixpoint js_length (s : string) : nat :=
  match s with
  | "" => 0%nat
  | String c s' =>
      let n := Ascii.nat_of_ascii c in
      ((if (n <? 128)%nat then 1 else if (n <? 192)%nat then 0
        else if (n <? 240)%nat then 1 else 2)
       + js_length s')%nat
  end.

(** The length constraints of the validators of the builders. *)
Definition within (lo hi : nat) (s : string) : bool :=
  (lo <=? js_length s)%nat && (js_length s <=? hi)%nat.

(** What a setter of a builder throws when a validator refuses its
    argument (the handlers do not read the message). *)
Definition ValidationError : exn := Error "Invalid string length".
Definition CombinedError : exn := Error "Received one or more errors".

(** [new ButtonBuilder().setCustomId(..).setLabel(..)], for each button
    in turn: an identifier of 1 to 100 characters and a label of 1 to
    80, or the setter throws. *)
Fixpoint built (buttons : list ButtonBuilder) : Result (list ButtonBuilder) :=
  match buttons with
  | [] => Ok []
  | b :: rest =>
      if negb (within 1 100 (button_customId b)) then Throw ValidationError
      else if negb (within 1 80 (button_label b)) then Throw ValidationError
      else match built rest with
           | Ok bs => Ok (b :: bs)
           | Throw e => Throw e
           end
  end.

(** A field of an embed that [addFields] accepts: a name of 1 to 256
    characters and a value of 1 to 1024. *)
Definition valid_field (field : string * string) : bool :=
  within 1 256 (fst field) && within 1 1024 (snd field).

(** The calls of the handlers on the platform. *)
Inductive call : Type :=
| Reply (content : string) (ephemeral : bool)
| MembersFetch (user : string)
| RolesAdd (user role : string)
| RolesRemove (user role : string)
| ChannelsFetch (channel : string)
| ChannelSend (channel content : string) (components : list ButtonBuilder)
| MessageEdit (message content : string)
| MessageEditEmbeds (message : string) (embeds : list Embed)
| CreateDM (user : string)
| DMSend (user content : string).

(** What a run leaves behind: the calls in the order they were made, each
    with whether the platform accepted it, and the lines written with
    [console.error] and [console.warn] (the first argument; the lines of
    [console.log] are not kept). *)
Inductive event : Type :=
| Called (c : call) (accepted : bool)
| ConsoleError (line : string)
| ConsoleWarn (line : string).

(** The world a handler runs in: the configuration file, the clock, the
    members of the guild with the roles each holds now, the channels of
    the guild (with [isTextBased]), the calls the platform rejects (by
    what the call is: the same call gets the same outcome throughout a
    run), and the trace so far. *)
Record World : Type := {
  configFile : file_state;
  now : N;
  guildMembers : gmap string (gset string);
  channels : gmap string bool;
  refuses : call -> bool;
  trace : list event
}.

Definition record (e : event) (w : World) : World :=
  {| configFile := configFile w; now := now w;
     guildMembers := guildMembers w; channels := channels w;
     refuses := refuses w; trace := trace w ++ [e] |}.

Definition set_members (m : gmap string (gset string)) (w : World) : World :=
  {| configFile := configFile w; now := now w;
     guildMembers := m; channels := channels w;
     refuses := refuses w; trace := trace w |}.

(** ** The monad of the handlers: state and exceptions *)

Definition M (A : Type) : Type := World -> Result A * World.

Definition ret {A} (a : A) : M A := fun w => (Ok a, w).

Definition bind {A B} (m : M A) (k : A -> M B) : M B :=
  fun w =>
    match m w with
    | (Ok a, w') => k a w'
    | (Throw e, w') => (Throw e, w')
    end.

Definition throw {A} (e : exn) : M A := fun w => (Throw e, w).

(** [try { m } catch (error) { h error }]. *)
Definition try_catch {A} (m : M A) (h : exn -> M A) : M A :=
  fun w =>
    match m w with
    | (Ok a, w') => (Ok a, w')
    | (Throw e, w') => h e w'
    end.

(** [let x; try { x = m } catch (error) { h error; return; } k x]: the
    handler of the exception ends the function, the continuation runs
    outside the [try]. *)
Definition try_else {A B} (m : M A) (h : exn -> M B) (k : A -> M B) : M B :=
  fun w =>
    match m w with
    | (Ok a, w') => k a w'
    | (Throw e, w') => h e w'
    end.

Declare Scope handler_scope.
Delimit Scope handler_scope with handler.
Notation "'let*' x ':=' m 'in' k" := (bind m (fun x => k))
  (at level 10, x name, m at level 100, k at level 200) : handler_scope.
Notation "m ';;' k" := (bind m (fun _ => k))
  (at level 100, k at level 200, right associativity) : handler_scope.
Open Scope handler_scope.

Definition console_error (line : string) : M unit :=
  fun w => (Ok tt, record (ConsoleError line) w).

Definition console_warn (line : string) : M unit :=
  fun w => (Ok tt, record (ConsoleWarn line) w).

(** A call on the platform: rejected, it throws and changes nothing;
    accepted, it answers from the state and updates it. *)
Definition platform {A} (c : call) (answer : World -> Result A)
    (update : World -> World) : M A :=
  fun w =>
    if refuses w c then
      (Throw (PlatformError "The platform rejected the call"), record (Called c false) w)
    else
      match answer w with
      | Ok a => (Ok a, update (record (Called c true) w))
      | Throw e => (Throw e, record (Called c false) w)
      end.

(** [interaction.reply({ content, flags })]. *)
Definition reply (content : string) (ephemeral : bool) : M unit :=
  platform (Reply content ephemeral) (fun _ => Ok tt) (fun w => w).

(** [guild.members.fetch({ user, force: true })]: the member as the
    platform has it now, with its roles; an unknown member throws. *)
Definition members_fetch (user : string) : M (gset string) :=
  platform (MembersFetch user)
    (fun w => match guildMembers w !! user with
              | Some roles => Ok roles
              | None => Throw (PlatformError "Unknown Member")
              end)
    (fun w => w).

(** [member.roles.add(role)]. *)
Definition roles_add (user role : string) : M unit :=
  platform (RolesAdd user role)
    (fun w => match guildMembers w !! user with
              | Some _ => Ok tt
              | None => Throw (PlatformError "Unknown Member")
              end)
    (fun w => set_members (alter (fun roles => roles ∪ {[role]}) user (guildMembers w)) w).

(** [member.roles.remove(role)]. *)
Definition roles_remove (user role : string) : M unit :=
  platform (RolesRemove user role)
    (fun w => match guildMembers w !! user with
              | Some _ => Ok tt
              | None => Throw (PlatformError "Unknown Member")
              end)
    (fun w => set_members (alter (fun roles => roles ∖ {[role]}) user (guildMembers w)) w).

(** [guild.channels.fetch(channel)]: whether the channel is text based;
    an unknown channel throws. *)
Definition channels_fetch (channel : string) : M bool :=
  platform (ChannelsFetch channel)
    (fun w => match channels w !! channel with
              | Some textBased => Ok textBased
              | None => Throw (PlatformError "Unknown Channel")
              end)
    (fun w => w).

Definition channel_send (channel content : string)
    (components : list ButtonBuilder) : M unit :=
  platform (ChannelSend channel content components) (fun _ => Ok tt) (fun w => w).

(** [message.edit({ content, components: [] })]. *)
Definition message_edit (message content : string) : M unit :=
  platform (MessageEdit message content) (fun _ => Ok tt) (fun w => w).

(** [message.edit({ embeds })]. *)
Definition message_edit_embeds (message : string) (embeds : list Embed) : M unit :=
  platform (MessageEditEmbeds message embeds) (fun _ => Ok tt) (fun w => w).

Definition create_dm (user : string) : M unit :=
  platform (CreateDM user) (fun _ => Ok tt) (fun w => w).

Definition dm_send (user content : string) : M unit :=
  platform (DMSend user content) (fun _ => Ok tt) (fun w => w).

(** [loadClanConfig().clans] inside a handler. *)
Definition load_clans : M (list Clan.t) :=
  fun w =>
    match loadClanConfig (configFile w) with
    | Ok config => (Ok (clans_of config), w)
    | Throw e => (Throw e, w)
    end.

(** ** Interactions *)

(** A button click: the identifier of the button, the user who clicked,
    whether the click came from a guild, the roles of the member as sent
    with the interaction ([interaction.member.roles.cache]), and the
    message the button is attached to. *)
Record ButtonInteraction : Type := {
  customId : string;
  user_id : string;
  user_tag : string;
  guild : bool;
  member_roles : option (gset string);
  message_id : string;
  message_content : string;
  message_embeds : list Embed
}.

(** A slash command: the user, the member as sent with the interaction,
    the guild, and the options [clan], [ign] and [user]. *)
Record CommandInteraction : Type := {
  cmd_user_id : string;
  cmd_member_roles : option (gset string);
  cmd_guild : bool;
  option_clan : string;
  option_ign : string;
  option_user : string
}.

Inductive Interaction : Type :=
| ButtonClick (i : ButtonInteraction)
| ChatInputCommand (i : CommandInteraction)
| OtherInteraction.

(** [<@id>], the mention of a user ([user.toString()]). *)
Definition mention (user : string) : string := "<@" ++ user ++ ">".

(** ** The decision buttons: the [InteractionCreate] handler of the
    [cr:] buttons *)
Module ClanRequestButton.

(** The answers of the handler. *)
Definition InvalidRequestData : string := "Invalid request data.".
Definition ClanNotFound : string := "Clan configuration not found.".
Definition NotInGuild : string := "This action can only be performed in a server.".
Definition VerifyFailed : string :=
  "Failed to verify your permissions. Please try again.".
Definition Unauthorized : string :=
  "You do not have permission to handle this request.".
Definition UserNotFound : string :=
  "Requesting user not found. They may have left the server.".
Definition RoleMutationFailed : string :=
  "Failed to add clan role. Please check bot permissions and try again.".
Definition UnexpectedError : string :=
  "There was an error processing this request. Please try again later.".

Definition is_accept (action : string) : bool := String.eqb action "a".

(** The confirmation to the responder. *)
Definition confirmation (action userId : string) (clan : Clan.t) : string :=
  "You have " ++ (if is_accept action then "accepted" else "denied")
    ++ " the request for " ++ mention userId ++ " to join " ++ Clan.name clan ++ ".".

(** The content of the approval message after the resolution. *)
Definition resolution (action : string) (i : ButtonInteraction) : string :=
  message_content i ++ nl ++ nl
    ++ (if is_accept action then "✅ Accepted" else "❌ Denied")
    ++ " by " ++ mention (user_id i).

(** The direct notice to the requesting user. *)
Definition notificationContent (action : string) (clan : Clan.t)
    (i : ButtonInteraction) : string :=
  "**Your clan request has been "
    ++ (if is_accept action then "accepted ✅" else "denied ❌") ++ "**" ++ nl ++ nl
    ++ "**Clan:** " ++ Clan.name clan ++ nl
    ++ "**Status:** "
    ++ (if is_accept action then "Accepted - Welcome to the clan!"
        else "Denied - Please contact clan leadership for more information.") ++ nl
    ++ "**Processed by:** " ++ mention (user_id i).

(** From the confirmation on: reply, edit the message, notify. *)
Definition conclude (i : ButtonInteraction) (userId action : string)
    (clan : Clan.t) : M unit :=
  reply (confirmation action userId clan) true ;;
  try_catch
    (message_edit (message_id i) (resolution action i))
    (fun _ => console_error "Failed to update approval message:") ;;
  try_catch
    (create_dm userId ;;
     dm_send userId (notificationContent action clan i))
    (fun _ => console_error "Failed to send DM to user:").

(** From [// Handle the request] on: the role, on an accept, then the
    conclusion. *)
Definition handle_request (i : ButtonInteraction) (userId action : string)
    (clan : Clan.t) : M unit :=
  if is_accept action then
    try_else (roles_add userId (Clan.roleId clan))
      (fun _ =>
         console_error "Failed to add role:" ;;
         reply RoleMutationFailed true)
      (fun _ => conclude i userId action clan)
  else conclude i userId action clan.

(** From [// Get the requesting user] on. *)
Definition get_requesting_user (i : ButtonInteraction) (userId action : string)
    (clan : Clan.t) : M unit :=
  try_else (members_fetch userId)
    (fun _ =>
       console_error "Failed to fetch requesting user:" ;;
       reply UserNotFound true)
    (fun _ => handle_request i userId action clan).

(** From [// Verify approver has permission] on: the member is fetched
    anew, and its roles decide. *)
Definition verify_approver (i : ButtonInteraction) (userId action : string)
    (clan : Clan.t) : M unit :=
  try_else (members_fetch (user_id i))
    (fun _ =>
       console_error "Failed to fetch approver member:" ;;
       reply VerifyFailed true)
    (fun member =>
       if negb (bool_decide (Clan.approverRoleId clan ∈ member)) then
         console_warn ("Unauthorized approval attempt by " ++ user_tag i
                         ++ " for clan " ++ Clan.name clan) ;;
         reply Unauthorized true
       else get_requesting_user i userId action clan).

(** The body of the [try] block of [execute]. *)
Definition handle (i : ButtonInteraction) : M unit :=
  let parts := split ":" (customId i) in
  let userId := parts !! 1%nat in
  let clanId := parts !! 2%nat in
  let action := parts !! 3%nat in
  if negb (truthy_field userId) || negb (truthy_field clanId)
     || negb (truthy_field action) then
    console_error ("Invalid button custom ID format: " ++ customId i) ;;
    reply InvalidRequestData true
  else
    let userId := default "" userId in
    let clanId := default "" clanId in
    let action := default "" action in
    let* clans := load_clans in
    match find_clan clans clanId with
    | None =>
        console_error ("No clan found with ID: " ++ clanId) ;;
        reply ClanNotFound true
    | Some clan =>
        if negb (guild i) then
          console_error "Button interaction was not used in a guild" ;;
          reply NotInGuild true
        else verify_approver i userId action clan
    end.

(** The outer [catch]: the error is logged and answered. *)
Definition unexpected (error : exn) : M unit :=
  console_error "Unexpected error handling clan request button:" ;;
  reply UnexpectedError true.

(** [execute(interaction)]: other interactions and other buttons are
    left alone. *)
Definition execute (interaction : Interaction) : M unit :=
  match interaction with
  | ButtonClick i =>
      if negb (startsWith (customId i) "cr:") then ret tt
      else try_catch (handle i) unexpected
  | _ => ret tt
  end.

End ClanRequestButton.

(** ** The join request (src/commands/clan-join-request.ts) *)
Module ClanJoinRequest.

Definition InvalidClan : string := "❌ Invalid clan selected.".
Definition AlreadyMember (clan : Clan.t) : string :=
  "❌ You are already a member of " ++ Clan.name clan ++ ".".
Definition ChannelUnavailable : string :=
  "❌ Could not find the approval channel. Please contact an administrator.".
Definition Acknowledgment (clan : Clan.t) : string :=
  "✅ Your request to join " ++ Clan.name clan ++ " has been submitted for review.".
Definition Failed : string :=
  "❌ Failed to process your request. Please try again later.".

(** The two decision buttons of a request, as they are when the builder
    accepts them. *)
Definition buttons (i : CommandInteraction) (clan : Clan.t) : list ButtonBuilder :=
  [ {| button_customId := "cr:" ++ cmd_user_id i ++ ":" ++ Clan.id clan ++ ":a";
       button_label := "✅ Approve" |};
    {| button_customId := "cr:" ++ cmd_user_id i ++ ":" ++ Clan.id clan ++ ":d";
       button_label := "❌ Deny" |} ].

(** The approval message; the time is [Math.floor(Date.now() / 1000)]. *)
Definition request (i : CommandInteraction) (clan : Clan.t) (time : N) : string :=
  "**🔔 Clan Join Request**" ++ nl ++ nl
    ++ "**From:** " ++ mention (cmd_user_id i) ++ nl
    ++ "**IGN:** " ++ option_ign i ++ nl
    ++ "**Requested:** <t:" ++ pretty (time `div` 1000)%N ++ ":f>" ++ nl
    ++ "<@&" ++ Clan.approverRoleId clan
    ++ "> Please review this request using the buttons below.".

Definition clock : M N := fun w => (Ok (now w), w).

(** [interaction.guild?.channels.fetch(channel)] followed by
    [approvalChannel?.isTextBased()]: without a guild there is no
    channel. *)
Definition fetch_text_channel (inGuild : bool) (channel : string) : M bool :=
  if inGuild then channels_fetch channel else ret false.

Definition execute (i : CommandInteraction) : M unit :=
  try_catch
    (let clanId := option_clan i in
     let* clans := load_clans in
     match find_clan clans clanId with
     | None => reply InvalidClan false
     | Some clan =>
         match cmd_member_roles i with
         | None => throw (TypeError "Cannot read properties of null (reading 'roles')")
         | Some roles =>
             if bool_decide (Clan.roleId clan ∈ roles) then
               reply (AlreadyMember clan) false
             else
               try_catch
                 (let* textBased :=
                    fetch_text_channel (cmd_guild i) (Clan.approvalChannelId clan) in
                  if negb textBased then reply ChannelUnavailable false
                  else
                    match built (buttons i clan) with
                    | Throw e => throw e
                    | Ok components =>
                        let* time := clock in
                        channel_send (Clan.approvalChannelId clan)
                          (request i clan time) components ;;
                        reply (Acknowledgment clan) false
                    end)
                 (fun _ =>
                    console_error "Error processing clan join request:" ;;
                    reply Failed false)
         end
     end)
    (fun _ =>
       console_error "Error processing clan join request:" ;;
       reply Failed false).

End ClanJoinRequest.

(** ** Direct grant: the command clan-grant-access *)
Module ClanGrantAccess.

Definition NoMember : string := "❌ Failed to fetch your member information.".
Definition NoApproverRole : string :=
  "❌ You must have approver permissions for at least one clan to grant access.".
Definition NotApproverOfClan : string :=
  "❌ You must have approver permissions for this clan to grant access.".
Definition NoTarget : string := "❌ Failed to fetch target user information.".
Definition AlreadyHasRole (target : string) (clan : Clan.t) : string :=
  "❌ " ++ mention target ++ " already has the " ++ Clan.name clan ++ " role.".
Definition Granted (target : string) (clan : Clan.t) : string :=
  "✅ Successfully granted " ++ Clan.name clan ++ " access to " ++ mention target ++ ".".
Definition GrantFailed : string :=
  "❌ Failed to grant clan role. Please check bot permissions and try again.".
Definition Failed : string :=
  "❌ An error occurred while processing your request.".

Definition notice (i : CommandInteraction) (clan : Clan.t) (time : N) : string :=
  "**🔔 Clan Access Granted**" ++ nl ++ nl
    ++ "**To:** " ++ mention (option_user i) ++ nl
    ++ "**Clan:** " ++ Clan.name clan ++ nl
    ++ "**Granted by:** " ++ mention (cmd_user_id i) ++ nl
    ++ "**Time:** <t:" ++ pretty (time `div` 1000)%N ++ ":f>".

(** [interaction.guild?.members.fetch({ user, force: true })]. *)
Definition fetch_target (inGuild : bool) (user : string) : M (option (gset string)) :=
  if inGuild then let* roles := members_fetch user in ret (Some roles)
  else ret None.

Definition execute (i : CommandInteraction) : M unit :=
  try_catch
    (match cmd_member_roles i with
     | None => reply NoMember true
     | Some granter =>
         let* clans := load_clans in
         let accessibleClans :=
           filter (fun clan => Clan.approverRoleId clan ∈ granter) clans in
         if (length accessibleClans =? 0)%nat then reply NoApproverRole true
         else
           let targetUser := option_user i in
           let clanId := option_clan i in
           match find_clan accessibleClans clanId with
           | None => reply NotApproverOfClan true
           | Some selectedClan =>
               let* targetMember := fetch_target (cmd_guild i) targetUser in
               match targetMember with
               | None => reply NoTarget true
               | Some roles =>
                   if bool_decide (Clan.roleId selectedClan ∈ roles) then
                     reply (AlreadyHasRole targetUser selectedClan) true
                   else
                     try_catch
                       (roles_add targetUser (Clan.roleId selectedClan) ;;
                        reply (Granted targetUser selectedClan) true ;;
                        let* textBased :=
                          ClanJoinRequest.fetch_text_channel (cmd_guild i)
                            (Clan.approvalChannelId selectedClan) in
                        if textBased then
                          let* time := ClanJoinRequest.clock in
                          channel_send (Clan.approvalChannelId selectedClan)
                            (notice i selectedClan time) []
                        else ret tt)
                       (fun _ =>
                          console_error "Failed to grant clan role:" ;;
                          reply GrantFailed true)
               end
           end
     end)
    (fun _ =>
       console_error "Error in grant-clan-access command:" ;;
       reply Failed true).

End ClanGrantAccess.

(** ** Direct revoke (src/commands/clan-revoke-access.ts) *)
Module ClanRevokeAccess.

Definition NoMember : string := "❌ Failed to fetch your member information.".
Definition NoApproverRole : string :=
  "❌ You must have approver permissions for at least one clan to revoke access.".
Definition NotApproverOfClan : string :=
  "❌ You must have approver permissions for this clan to revoke access.".
Definition NoTarget : string := "❌ Failed to fetch target user information.".
Definition DoesNotHaveRole (target : string) (clan : Clan.t) : string :=
  "❌ " ++ mention target ++ " does not have the " ++ Clan.name clan ++ " role.".
Definition Revoked (target : string) (clan : Clan.t) : string :=
  "✅ Successfully revoked " ++ Clan.name clan ++ " access from " ++ mention target ++ ".".
Definition RevokeFailed : string :=
  "❌ Failed to revoke clan role. Please check bot permissions and try again.".
Definition Failed : string :=
  "❌ An error occurred while processing your request.".

Definition notice (i : CommandInteraction) (clan : Clan.t) (time : N) : string :=
  "**🔔 Clan Access Revoked**" ++ nl ++ nl
    ++ "**From:** " ++ mention (option_user i) ++ nl
    ++ "**Clan:** " ++ Clan.name clan ++ nl
    ++ "**Revoked by:** " ++ mention (cmd_user_id i) ++ nl
    ++ "**Time:** <t:" ++ pretty (time `div` 1000)%N ++ ":f>".

Definition execute (i : CommandInteraction) : M unit :=
  try_catch
    (match cmd_member_roles i with
     | None => reply NoMember true
     | Some revoker =>
         let* clans := load_clans in
         let accessibleClans :=
           filter (fun clan => Clan.approverRoleId clan ∈ revoker) clans in
         if (length accessibleClans =? 0)%nat then reply NoApproverRole true
         else
           let targetUser := option_user i in
           let clanId := option_clan i in
           match find_clan accessibleClans clanId with
           | None => reply NotApproverOfClan true
           | Some selectedClan =>
               let* targetMember :=
                 ClanGrantAccess.fetch_target (cmd_guild i) targetUser in
               match targetMember with
               | None => reply NoTarget true
               | Some roles =>
                   if negb (bool_decide (Clan.roleId selectedClan ∈ roles)) then
                     reply (DoesNotHaveRole targetUser selectedClan) true
                   else
                     try_catch
                       (roles_remove targetUser (Clan.roleId selectedClan) ;;
                        reply (Revoked targetUser selectedClan) true ;;
                        let* textBased :=
                          ClanJoinRequest.fetch_text_channel (cmd_guild i)
                            (Clan.approvalChannelId selectedClan) in
                        if textBased then
                          let* time := ClanJoinRequest.clock in
                          channel_send (Clan.approvalChannelId selectedClan)
                            (notice i selectedClan time) []
                        else ret tt)
                       (fun _ =>
                          console_error "Failed to revoke clan role:" ;;
                          reply RevokeFailed true)
               end
           end
     end)
    (fun _ =>
       console_error "Error in revoke-clan-access command:" ;;
       reply Failed true).

End ClanRevokeAccess.

(** ** The signup buttons (src/config/class-emojis.ts and
    src/events/di-clan-signup-button.ts) *)
Module DiClanSignupButton.

(** [ClassEmojis] and [ClassDisplayNames], in the order of [ClassKeys]. *)
Definition ClassTable : list (string * (string * string)) :=
  [ ("barbarian", ("<:barbarian:1398056788141801522>", "Barbarian"));
    ("bloodknight", ("<:bloodknight:1398056772203319356>", "Blood Knight"));
    ("crusader", ("<:crusader:1398056706197688480>", "Crusader"));
    ("demonhunter", ("<:demonhunter:1398056691588923463>", "Demon Hunter"));
    ("druid", ("<:druid:1398056673649627156>", "Druid"));
    ("monk", ("<:monk:1398056656897839104>", "Monk"));
    ("necromancer", ("<:necromancer:1398056639352803450>", "Necromancer"));
    ("tempest", ("<:tempest:1398056622470725762>", "Tempest"));
    ("wizard", ("<:wizard:1398056598009675927>", "Wizard")) ].

Definition ClassKeys : list string := map fst ClassTable.

(** What a template string makes of the properties that the two
    tables, as every object, inherit from [Object.prototype]. *)
Definition inherited : list (string * string) :=
  [ ("constructor", "function Object() { [native code] }");
    ("__proto__", "[object Object]");
    ("__defineGetter__", "function __defineGetter__() { [native code] }");
    ("__defineSetter__", "function __defineSetter__() { [native code] }");
    ("__lookupGetter__", "function __lookupGetter__() { [native code] }");
    ("__lookupSetter__", "function __lookupSetter__() { [native code] }");
    ("hasOwnProperty", "function hasOwnProperty() { [native code] }");
    ("isPrototypeOf", "function isPrototypeOf() { [native code] }");
    ("propertyIsEnumerable", "function propertyIsEnumerable() { [native code] }");
    ("toLocaleString", "function toLocaleString() { [native code] }");
    ("toString", "function toString() { [native code] }");
    ("valueOf", "function valueOf() { [native code] }") ].

(** [getClassWithEmoji]: the two tables are read with the name as it
    is; a name that is in neither the tables nor [Object.prototype]
    reads [undefined] twice. *)
Definition getClassWithEmoji (className : option string) : string :=
  match className with
  | None => "undefined undefined"
  | Some c =>
      match List.find (fun e => String.eqb (fst e) c) ClassTable with
      | Some (_, (emoji, display)) => emoji ++ " " ++ display
      | None =>
          match List.find (fun e => String.eqb (fst e) c) inherited with
          | Some (_, text) => text ++ " " ++ text
          | None => "undefined undefined"
          end
      end
  end.

(** A JavaScript [Map] from user to selection, in insertion order; a
    selection is [None] when the button named none ([undefined]). *)
Definition Signups : Type := list (string * option string).

Definition map_get (m : Signups) (k : string) : option string :=
  match List.find (fun e => String.eqb (fst e) k) m with
  | Some (_, v) => v
  | None => None
  end.

Fixpoint map_set (m : Signups) (k : string) (v : option string) : Signups :=
  match m with
  | [] => [(k, v)]
  | (k', v') :: rest =>
      if String.eqb k' k then (k, v) :: rest else (k', v') :: map_set rest k v
  end.

Definition map_delete (m : Signups) (k : string) : Signups :=
  List.filter (fun e => negb (String.eqb (fst e) k)) m.

(** [String.prototype.includes]. *)
Fixpoint includes (s sub : string) : bool :=
  startsWith s sub
  || match s with
     | "" => false
     | String _ s' => includes s' sub
     end.

Definition is_digit (c : ascii) : bool :=
  let n := Ascii.nat_of_ascii c in (48 <=? n)%nat && (n <=? 57)%nat.

(** The scanner of [/<@(\d+)>/g]: nothing seen, [<] seen, or [<@] seen
    with the digits after it. *)
Inductive scan : Type :=
| Idle
| SawLt
| InDigits (digits : string).

(** [value.match(/<@(\d+)>/g)] with the group of each match: the
    digit runs between [<@] and [>], from left to right. *)
Fixpoint mentions_from (st : scan) (s : string) : list string :=
  match s with
  | "" => []
  | String c s' =>
      if Ascii.eqb c "<" then mentions_from SawLt s'
      else
        match st with
        | Idle => mentions_from Idle s'
        | SawLt =>
            if Ascii.eqb c "@" then mentions_from (InDigits "") s'
            else mentions_from Idle s'
        | InDigits ds =>
            if is_digit c then mentions_from (InDigits (ds ++ String c "")) s'
            else if Ascii.eqb c ">" && negb (String.eqb ds "")
                 then ds :: mentions_from Idle s'
                 else mentions_from Idle s'
        end
  end.

(** The class a field stands for, from its name. *)
Definition field_class (fieldName : string) : option string :=
  if includes fieldName "Can't Make It" then Some "cant-make-it"
  else List.find (fun classKey => includes fieldName (getClassWithEmoji (Some classKey)))
         ClassKeys.

Definition parseSignupsFromFields (fields : list (string * string)) : Signups :=
  fold_left
    (fun signups field =>
       let '(fieldName, fieldValue) := field in
       if String.eqb fieldValue "*No signups*" then signups
       else
         match field_class fieldName with
         | None => signups
         | Some className =>
             fold_left (fun signups userId => map_set signups userId (Some className))
               (mentions_from Idle fieldValue) signups
         end)
    fields [].

(** [array.join('\n')]. *)
Fixpoint join (l : list string) : string :=
  match l with
  | [] => ""
  | [x] => x
  | x :: rest => x ++ nl ++ join rest
  end.

(** The users of a selection, as mentions. *)
Definition members_of (signups : Signups) (selection : string) : list string :=
  map (fun e => mention (fst e))
    (List.filter (fun e => match snd e with
                           | Some c => String.eqb c selection
                           | None => false
                           end) signups).

Definition render (members : list string) : string :=
  if (0 <? length members)%nat then join members else "*No signups*".

(** The fields of the embed, in the order of the calls of [addFields]:
    one for each class, then the one of those who cannot make it. *)
Definition signupFields (signups : Signups) : list (string * string) :=
  let classFields :=
    map (fun className =>
           let classMembers := members_of signups className in
           (getClassWithEmoji (Some className) ++ " (" ++ pretty (length classMembers) ++ ")",
            render classMembers))
      ClassKeys in
  let cantMakeIt := members_of signups "cant-make-it" in
  classFields ++ [("❌ Can't Make It (" ++ pretty (length cantMakeIt) ++ ")",
                   render cantMakeIt)].

Definition signupFooter (signups : Signups) : string :=
  let totalAttending :=
    foldr (fun className n => (length (members_of signups className) + n)%nat) 0%nat
      ClassKeys in
  let cantMakeIt := members_of signups "cant-make-it" in
  "📊 " ++ pretty totalAttending ++ " attending • "
    ++ pretty (length cantMakeIt) ++ " can't make it".

(** [createSignupEmbed]: [setTitle], then [addFields] for each field,
    then [setFooter]; each setter validates its argument (a title of 1
    to 256 characters, fields as [valid_field] has them, a footer of 1
    to 2048) and throws when it is refused, so that no embed is
    returned. *)
Definition createSignupEmbed (title : string) (signups : Signups) : Result Embed :=
  if negb (within 1 256 title) then Throw CombinedError
  else if negb (forallb valid_field (signupFields signups)) then Throw CombinedError
  else if negb (within 1 2048 (signupFooter signups)) then Throw CombinedError
  else
    Ok {| embed_title := Some title;
          embed_fields := signupFields signups;
          embed_footer := Some (signupFooter signups) |}.

Definition DifferentMessage : string :=
  "❌ This signup button is from a different message.".
Definition InvalidSignup : string := "❌ Invalid clan signup.".
Definition NotAMember (clan : Clan.t) : string :=
  "❌ You must be a member of " ++ Clan.name clan ++ " to participate in this signup.".
Definition Failed : string := "❌ Failed to update signup. Please try again.".

(** [currentEmbed.title || 'Event Signup']. *)
Definition title_or_default (title : option string) : string :=
  match title with
  | Some t => if String.eqb t "" then "Event Signup" else t
  | None => "Event Signup"
  end.

(** The body of the [try] block of [execute]. *)
Definition handle (i : ButtonInteraction) : M unit :=
  let parts := split ":" (customId i) in
  let messageId := parts !! 1%nat in
  let clanId := parts !! 2%nat in
  let selection := parts !! 3%nat in
  if negb (bool_decide (messageId = Some (message_id i))) then
    reply DifferentMessage true
  else
    let* clans := load_clans in
    match clanId ≫= find_clan clans with
    | None => reply InvalidSignup true
    | Some clan =>
        match member_roles i with
        | None => throw (TypeError "Cannot read properties of null (reading 'roles')")
        | Some roles =>
            if negb (bool_decide (Clan.roleId clan ∈ roles)) then
              reply (NotAMember clan) true
            else
              let userId := user_id i in
              match message_embeds i with
              | [] => throw (TypeError "Cannot read properties of undefined (reading 'fields')")
              | currentEmbed :: _ =>
                  let signups := parseSignupsFromFields (embed_fields currentEmbed) in
                  let currentSelection := map_get signups userId in
                  let* signups :=
                    if bool_decide (currentSelection = selection) then
                      reply "✅ Removed your signup." true ;;
                      ret (map_delete signups userId)
                    else
                      (if bool_decide (selection = Some "cant-make-it") then
                         reply "✅ Marked as unable to attend." true
                       else
                         reply ("✅ Signed up as " ++ getClassWithEmoji selection ++ ".") true) ;;
                      ret (map_set signups userId selection) in
                  match createSignupEmbed (title_or_default (embed_title currentEmbed))
                          signups with
                  | Throw e => throw e
                  | Ok updatedEmbed => message_edit_embeds (message_id i) [updatedEmbed]
                  end
              end
        end
    end.

Definition execute (interaction : Interaction) : M unit :=
  match interaction with
  | ButtonClick i =>
      if negb (startsWith (customId i) "signup:") then ret tt
      else
        try_catch (handle i)
          (fun _ =>
             console_error "Error handling signup button:" ;;
             reply Failed true)
  | _ => ret tt
  end.

End DiClanSignupButton.

(** ** Reading a run *)

(** Whether a user holds a role now. *)
Definition holds (w : World) (user role : string) : bool :=
  match guildMembers w !! user with
  | Some roles => bool_decide (role ∈ roles)
  | None => false
  end.

(** An event that is an answer to the interaction or a console line: no
    role call, no message sent or edited, no direct message, no fetch. *)
Definition reply_or_log (e : event) : bool :=
  match e with
  | Called (Reply _ _) _ => true
  | Called _ _ => false
  | ConsoleError _ | ConsoleWarn _ => true
  end.

(** An event that changes no role. *)
Definition no_role_call (e : event) : bool :=
  match e with
  | Called (RolesAdd _ _) _ | Called (RolesRemove _ _) _ => false
  | _ => true
  end.

(** The token has exactly the four fields [cr], user, clan and action,
    the last three not empty. *)
Definition well_formed_token (token userId clanId action : string) : Prop :=
  split ":" token = ["cr"; userId; clanId; action]
  ∧ userId ≠ "" ∧ clanId ≠ "" ∧ action ≠ "".

(** The clan an identifier names in the configuration of a world. *)
Definition configured (w : World) (clanId : string) (clan : Clan.t) : Prop :=
  ∃ config, loadClanConfig (configFile w) = Ok config
            ∧ find_clan (clans_of config) clanId = Some clan.

(** The configuration file loads to a value of the type [ClanConfig]:
    the five required fields of every clan are strings. *)
Definition string_fields (clan : json) : bool :=
  forallb (fun field => match get_property clan field with
                        | Ok (Some (JStr _)) => true
                        | _ => false
                        end) requiredFields.

Definition typed (f : file_state) : bool :=
  match loadClanConfig f with
  | Ok config =>
      match get_property config "clans" with
      | Ok (Some (JArr clans)) => forallb string_fields clans
      | _ => false
      end
  | Throw _ => false
  end.

(** The platform fetches the member now, with these roles. *)
Definition fetches (w : World) (user : string) (roles : gset string) : Prop :=
  refuses w (MembersFetch user) = false ∧ guildMembers w !! user = Some roles.

(** A pending request: the button clicked in a guild carries a well
    formed token for the requesting user, the action and a configured
    clan. *)
Definition pending (w : World) (i : ButtonInteraction)
    (userId action : string) (clan : Clan.t) : Prop :=
  ∃ clanId, well_formed_token (customId i) userId clanId action
            ∧ configured w clanId clan ∧ guild i = true.

(** The responder holds the approver role of the clan now. *)
Definition authorized (w : World) (i : ButtonInteraction) (clan : Clan.t) : Prop :=
  ∃ roles, fetches w (user_id i) roles ∧ Clan.approverRoleId clan ∈ roles.

(** The user is a member of the guild now. *)
Definition present (w : World) (user : string) : Prop :=
  ∃ roles, fetches w user roles.

(** A call with the outcome the platform gives it. *)
Definition attempted (w : World) (c : call) : event :=
  Called c (negb (refuses w c)).

(** A call made in a [try] whose [catch] writes a console line: the
    call with its outcome, and the line when it is rejected. *)
Definition swallowed (w : World) (c : call) (line : string) : list event :=
  attempted w c :: (if refuses w c then [ConsoleError line] else []).

(** The world after the two fetches of a resolution. *)
Definition fetched (w : World) (i : ButtonInteraction) (userId : string) : World :=
  record (Called (MembersFetch userId) true)
    (record (Called (MembersFetch (user_id i)) true) w).

(** The world after the platform accepted to add a role to a user. *)
Definition granted (w : World) (user role : string) : World :=
  set_members (alter (fun roles => roles ∪ {[role]}) user (guildMembers w))
    (record (Called (RolesAdd user role) true) w).

(** The events of a resolution before its conclusion: the two fetches
    and, on an accept, the role. *)
Definition resolved_prefix (i : ButtonInteraction) (userId action : string)
    (clan : Clan.t) : list event :=
  ([Called (MembersFetch (user_id i)) true; Called (MembersFetch userId) true]
    ++ (if ClanRequestButton.is_accept action
        then [Called (RolesAdd userId (Clan.roleId clan)) true] else []))%list.

(** The approval channel of the clan is a text channel of the guild of
    the command, and the platform lets the handler fetch it and post the
    request to it. *)
Definition channel_available (w : World) (i : CommandInteraction) (clan : Clan.t)
  : Prop :=
  cmd_guild i = true
  ∧ channels w !! Clan.approvalChannelId clan = Some true
  ∧ refuses w (ChannelsFetch (Clan.approvalChannelId clan)) = false
  ∧ refuses w (ChannelSend (Clan.approvalChannelId clan)
                 (ClanJoinRequest.request i clan (now w))
                 (ClanJoinRequest.buttons i clan)) = false.

(** What a handler may do: it leaves the roles of every member as they
    are, and every event it adds satisfies [P]. *)
Definition footprint {A} (P : event → bool) (m : M A) : Prop :=
  ∀ w, guildMembers (m w).2 = guildMembers w
       ∧ ∃ evs, trace (m w).2 = (trace w ++ evs)%list ∧ forallb P evs = true.

(** ** The configurations the loader accepts *)

(** A clan the loader accepts: an object whose five required fields are
    truthy. *)
Definition has_required_fields (clan : json) : bool :=
  match clan with
  | JObj props => forallb (fun field => truthy (own_property props field)) requiredFields
  | _ => false
  end.

(** A file the loader accepts: a text that parses to an object with an
    array under [clans], of clans it accepts. *)
Definition well_shaped (f : file_state) : bool :=
  match f with
  | FileText (inr (JObj props)) =>
      match own_property props "clans" with
      | Some (JArr clans) => forallb has_required_fields clans
      | _ => false
      end
  | _ => false
  end.

(** The messages of the loader name the failure. *)
Definition descriptive (message : string) : Prop :=
  message = "Clan configuration file not found. Please create config/clans.json"
  ∨ startsWith message "Failed to load clan configuration: " = true.

(** The configuration file as the specification describes it: every
    group has the six fields, each a non-empty string. *)
Module Specified.

Definition requiredFields : list string :=
  ["id"; "name"; "description"; "roleId"; "approverRoleId"; "approvalChannelId"].

Definition nonempty_string (v : option json) : bool :=
  match v with
  | Some (JStr s) => negb (String.eqb s "")
  | _ => false
  end.

Definition group_ok (clan : json) : bool :=
  match clan with
  | JObj props => forallb (fun field => nonempty_string (own_property props field)) requiredFields
  | _ => false
  end.

Definition config_ok (f : file_state) : bool :=
  match f with
  | FileText (inr (JObj props)) =>
      match own_property props "clans" with
      | Some (JArr clans) => forallb group_ok clans
      | _ => false
      end
  | _ => false
  end.

(** The parse of a token yields exactly four non-empty fields. *)
Definition four_fields (token : string) : bool :=
  match split ":" token with
  | [a; b; c; d] => forallb (fun f => negb (String.eqb f "")) [a; b; c; d]
  | _ => false
  end.

End Specified.

(** ** The scenario of the specification

    The group [alpha] with member role [R1], approver role [R2] and
    approval channel [C1]; [U1] and [U3] hold no role, [U2] holds [R2]. *)
Module Scenario.

Definition alpha : json :=
  JObj [("id", JStr "alpha"); ("name", JStr "Alpha");
        ("description", JStr "The first clan");
        ("roleId", JStr "R1"); ("approverRoleId", JStr "R2");
        ("approvalChannelId", JStr "C1")].

Definition clan : Clan.t :=
  {| Clan.id := "alpha"; Clan.name := "Alpha"; Clan.roleId := "R1";
     Clan.approverRoleId := "R2"; Clan.approvalChannelId := "C1" |}.

(** The platform rejects the calls [rejected] names. *)
Definition world (rejected : call → bool) : World :=
  {| configFile := FileText (inr (JObj [("clans", JArr [alpha])]));
     now := 1700000000123;
     guildMembers := {[ "U1" := ∅; "U2" := {[ "R2" ]}; "U3" := ∅ ]};
     channels := {[ "C1" := true ]};
     refuses := rejected;
     trace := [] |}.

Definition nothing (c : call) : bool := false.

(** A click of [responder] on a button of the message [message]; the
    roles sent with the interaction are [cached]. *)
Definition click (token responder message : string) (cached : gset string)
  : ButtonInteraction :=
  {| customId := token; user_id := responder; user_tag := responder;
     guild := true; member_roles := Some cached;
     message_id := message; message_content := "Request";
     message_embeds := [] |}.

(** A command of [user], whose roles sent with the interaction are
    [cached]. *)
Definition command (user : string) (cached : gset string) (target : string)
  : CommandInteraction :=
  {| cmd_user_id := user; cmd_member_roles := Some cached; cmd_guild := true;
     option_clan := "alpha"; option_ign := "Hero123"; option_user := target |}.

End Scenario.

(** ** The world before and the world after a run *)

(** The environment of a run is what the handlers only read: the
    configuration file, the clock, the channels and the calls the
    platform rejects. *)
Definition same_env (w w' : World) : Prop :=
  configFile w' = configFile w ∧ now w' = now w
  ∧ channels w' = channels w ∧ refuses w' = refuses w.

(** Nobody but [user] has other roles than before, and nobody has lost
    a role or left the guild. *)
Definition only_gains (user : string) (w w' : World) : Prop :=
  ∀ u, (u ≠ user → guildMembers w' !! u = guildMembers w !! u)
       ∧ (∀ rs, guildMembers w !! u = Some rs →
                ∃ rs', guildMembers w' !! u = Some rs' ∧ rs ⊆ rs').

(** The trace has grown by events that satisfy [P]. *)
Definition logs (P : event → bool) (w w' : World) : Prop :=
  ∃ evs, trace w' = (trace w ++ evs)%list ∧ forallb P evs = true.

(** Every run of the handler relates the world before to the world
    after. *)
Definition invariant {A} (R : World → World → Prop) (m : M A) : Prop :=
  ∀ w, R w (m w).2.

(** An event that removes no role. *)
Definition no_role_removed (e : event) : bool :=
  match e with
  | Called (RolesRemove _ _) _ => false
  | _ => true
  end.

(** A message that was posted to a channel. *)
Definition is_send (e : event) : bool :=
  match e with
  | Called (ChannelSend _ _ _) true => true
  | _ => false
  end.

(** An event of a join request: an answer, a console line, the fetch of
    a channel or a message to a channel. *)
Definition answers_or_posts (e : event) : bool :=
  match e with
  | Called (Reply _ _) _ | Called (ChannelsFetch _) _
  | Called (ChannelSend _ _ _) _ => true
  | Called _ _ => false
  | ConsoleError _ | ConsoleWarn _ => true
  end.

(** The string holds no colon. *)
Fixpoint colon_free (s : string) : bool :=
  match s with
  | "" => true
  | String c s' => negb (Ascii.eqb c ":") && colon_free s'
  end.

(** The roles of every member are what they were. *)
Definition same_roles (w w' : World) : Prop := guildMembers w' = guildMembers w.

(** Nobody but [user] has other roles than before, and nobody has gained
    a role or left the guild. *)
Definition only_loses (user : string) (w w' : World) : Prop :=
  ∀ u, (u ≠ user → guildMembers w' !! u = guildMembers w !! u)
       ∧ (∀ rs, guildMembers w !! u = Some rs →
                ∃ rs', guildMembers w' !! u = Some rs' ∧ rs' ⊆ rs).

(** An event that adds no role. *)
Definition no_role_added (e : event) : bool :=
  match e with
  | Called (RolesAdd _ _) _ => false
  | _ => true
  end.

(** An event of a click on a signup button of the message: an answer, a
    console line or an edit of the embeds of that message. *)
Definition answer_or_edit_of (message : string) (e : event) : bool :=
  match e with
  | Called (Reply _ _) _ => true
  | Called (MessageEditEmbeds m _) _ => String.eqb m message
  | Called _ _ => false
  | ConsoleError _ | ConsoleWarn _ => true
  end.

(** ** The command di-clan-signup (src/commands/di-clan-signup.ts)

    What the command builds before it talks to the platform: the embed
    of the first message and the identifiers of the buttons it attaches
    to it, once the platform has given the message its identifier. *)
Module DiClanSignup.

(** The fields of a new signup. *)
Definition fields : list (string * string) :=
  (map (fun className =>
          (DiClanSignupButton.getClassWithEmoji (Some className) +:+ " (0)",
           "*No signups*"))
     DiClanSignupButton.ClassKeys
   ++ [("❌ Can't Make It (0)", "*No signups*")])%list.

(** The embed of a new signup (the colour and the timestamp are left
    out): [setTitle], [addFields] and [setFooter] validate what they are
    given, as in [createSignupEmbed], and throw when they refuse it. *)
Definition embed (clan : Clan.t) (eventName : string) : Result Embed :=
  let title := Clan.name clan ++ " - " ++ eventName in
  if negb (within 1 256 title) then Throw CombinedError
  else if negb (forallb valid_field fields) then Throw CombinedError
  else if negb (within 1 2048 "📊 0 attending • 0 can't make it") then Throw CombinedError
  else
    Ok {| embed_title := Some title;
          embed_fields := fields;
          embed_footer := Some "📊 0 attending • 0 can't make it" |}.

(** The [setCustomId] of the buttons, in the order of the three rows:
    one button for each class, then the button of those who cannot make
    it. *)
Definition customIds (responseId clanId : string) : list string :=
  (map (fun className => "signup:" +:+ responseId +:+ ":" +:+ clanId +:+ ":" +:+ className)
     DiClanSignupButton.ClassKeys
   ++ ["signup:" +:+ responseId +:+ ":" +:+ clanId +:+ ":cant-make-it"])%list.

End DiClanSignup.

(** ** The signups an embed stores *)

(** A run of digits, what [\d+] matches when it is not empty. *)
Fixpoint all_digits (s : string) : bool :=
  match s with
  | "" => true
  | String c s' => DiClanSignupButton.is_digit c && all_digits s'
  end.

(** An identifier of the platform: a non-empty run of digits. *)
Definition snowflake (s : string) : bool :=
  negb (String.eqb s "") && all_digits s.

(** The selections the buttons of a signup name. *)
Definition selections : list string :=
  (DiClanSignupButton.ClassKeys ++ ["cant-make-it"])%list.

Definition stored_entry (e : string * option string) : bool :=
  snowflake e.1
  && match e.2 with
     | Some c => bool_decide (c ∈ selections)
     | None => false
     end.

(** Signups an embed can store: each user once, under an identifier of
    the platform, with a selection of the buttons. *)
Definition stored (signups : DiClanSignupButton.Signups) : Prop :=
  NoDup (map fst signups) ∧ forallb stored_entry signups = true.

(** The answer to a click on the button [selection] of a user whose
    selection was [current]. *)
Definition acknowledgment (current : option string) (selection : string) : string :=
  if bool_decide (current = Some selection) then "✅ Removed your signup."
  else if bool_decide (selection = "cant-make-it") then "✅ Marked as unable to attend."
  else "✅ Signed up as " ++ DiClanSignupButton.getClassWithEmoji (Some selection) ++ ".".

(** The signups after a click of [userId] on the button [selection]. *)
Definition clicked (before : DiClanSignupButton.Signups) (userId selection : string)
  : DiClanSignupButton.Signups :=
  if bool_decide (DiClanSignupButton.map_get before userId = Some selection)
  then DiClanSignupButton.map_delete before userId
  else DiClanSignupButton.map_set before userId (Some selection).

(** The selection of a user after a click on the button [selection]: the
    button of the current selection withdraws it. *)
Definition toggled (current : option string) (selection : string) : option string :=
  if bool_decide (current = Some selection) then None else Some selection.

(** One turn of the loop of [parseSignupsFromFields] over the fields. *)
Definition parse_field (signups : DiClanSignupButton.Signups) (field : string * string)
  : DiClanSignupButton.Signups :=
  let '(fieldName, fieldValue) := field in
  if String.eqb fieldValue "*No signups*" then signups
  else
    match DiClanSignupButton.field_class fieldName with
    | None => signups
    | Some className =>
        fold_left
          (fun signups userId => DiClanSignupButton.map_set signups userId (Some className))
          (DiClanSignupButton.mentions_from DiClanSignupButton.Idle fieldValue) signups
    end.

(** The users of a selection, in the order of the signups. *)
Definition users_of (signups : DiClanSignupButton.Signups) (selection : string)
  : list string :=
  map fst
    (List.filter (fun e => match snd e with
                           | Some c => String.eqb c selection
                           | None => false
                           end) signups).

Open Scope list_scope.

(** ** Lemmas on the primitives *)

Lemma split_nonempty (sep : ascii) (s : string) : split sep s ≠ [].
Proof.
  destruct s as [|c s]; cbn; [done|].
  destruct (Ascii.eqb c sep); [done|]. by destruct (split sep s).
Qed.

(** A split that begins with the field [cr] and goes on is the split of
    a string that starts with [cr:]. *)
Lemma split_cons_startsWith (s : string) (rest : list string) :
  split ":" s = "cr" :: rest → rest ≠ [] → startsWith s "cr:" = true.
Proof.
  intros H Hr.
  destruct s as [|c1 s]; cbn in H; [by inversion H|].
  destruct (Ascii.eqb_spec c1 ":") as [->|N1]; [by inversion H|].
  destruct (split ":" s) as [|f fs] eqn:E1; [by inversion H|].
  injection H as -> -> ->.
  destruct s as [|c2 s]; cbn in E1; [by inversion E1|].
  destruct (Ascii.eqb_spec c2 ":") as [->|N2]; [by inversion E1|].
  destruct (split ":" s) as [|f2 fs2] eqn:E2; [by inversion E1|].
  injection E1 as -> -> ->.
  destruct s as [|c3 s]; cbn in E2; [by inversion E2; subst|].
  destruct (Ascii.eqb_spec c3 ":") as [->|N3]; [reflexivity|].
  destruct (split ":" s) as [|f3 fs3] eqn:E3; by inversion E2.
Qed.

Lemma truthy_field_Some (s : string) : s ≠ "" → truthy_field (Some s) = true.
Proof. intros H. cbn. by apply negb_true_iff, String.eqb_neq. Qed.

Lemma platform_refused {A} c (answer : World → Result A) update w :
  refuses w c = true →
  platform c answer update w
  = (Throw (PlatformError "The platform rejected the call"), record (Called c false) w).
Proof. unfold platform. by intros ->. Qed.

Lemma platform_accepted {A} c (answer : World → Result A) update w a :
  refuses w c = false → answer w = Ok a →
  platform c answer update w = (Ok a, update (record (Called c true) w)).
Proof. unfold platform. by intros -> ->. Qed.

Lemma members_fetch_ok w user roles :
  fetches w user roles →
  members_fetch user w = (Ok roles, record (Called (MembersFetch user) true) w).
Proof.
  intros [Hr Hm]. unfold members_fetch.
  rewrite (platform_accepted _ _ _ _ roles); [done..|]. by rewrite Hm.
Qed.

Lemma load_clans_ok w config :
  loadClanConfig (configFile w) = Ok config → load_clans w = (Ok (clans_of config), w).
Proof. unfold load_clans. by intros ->. Qed.

(** ** Footprints compose *)
Section Footprint.
Context (P : event → bool).

Lemma footprint_ret {A} (a : A) : footprint P (ret a).
Proof. intros w. split; [done|]. exists []. by rewrite app_nil_r. Qed.

Lemma footprint_throw {A} (e : exn) : footprint P (@throw A e).
Proof. intros w. split; [done|]. exists []. by rewrite app_nil_r. Qed.

Lemma footprint_try_else {A B} (m : M A) (h : exn → M B) (k : A → M B) :
  footprint P m → (∀ e, footprint P (h e)) → (∀ a, footprint P (k a)) →
  footprint P (try_else m h k).
Proof.
  intros Hm Hh Hk w. unfold try_else.
  destruct (Hm w) as (Hg & evs & Ht & Hp).
  destruct (m w) as [[a|e] w1]; cbn in Hg, Ht.
  - destruct (Hk a w1) as (Hg' & evs' & Ht' & Hp').
    split; [congruence|]. exists (evs ++ evs').
    by rewrite Ht', Ht, app_assoc, forallb_app, Hp, Hp'.
  - destruct (Hh e w1) as (Hg' & evs' & Ht' & Hp').
    split; [congruence|]. exists (evs ++ evs').
    by rewrite Ht', Ht, app_assoc, forallb_app, Hp, Hp'.
Qed.

Lemma footprint_bind {A B} (m : M A) (k : A → M B) :
  footprint P m → (∀ a, footprint P (k a)) → footprint P (bind m k).
Proof.
  intros Hm Hk.
  apply (footprint_try_else m (fun e => throw e) k); [done| |done].
  intros e. apply footprint_throw.
Qed.

Lemma footprint_try_catch {A} (m : M A) (h : exn → M A) :
  footprint P m → (∀ e, footprint P (h e)) → footprint P (try_catch m h).
Proof.
  intros Hm Hh.
  apply (footprint_try_else m h (fun a => ret a)); [done..|].
  intros a. apply footprint_ret.
Qed.

Lemma footprint_console_error line :
  P (ConsoleError line) = true → footprint P (console_error line).
Proof. intros H w. split; [done|]. exists [ConsoleError line]. cbn. by rewrite H. Qed.

Lemma footprint_console_warn line :
  P (ConsoleWarn line) = true → footprint P (console_warn line).
Proof. intros H w. split; [done|]. exists [ConsoleWarn line]. cbn. by rewrite H. Qed.

(** A call that updates nothing. *)
Lemma footprint_platform {A} c (answer : World → Result A) :
  (∀ b, P (Called c b) = true) → footprint P (platform c answer (fun w => w)).
Proof.
  intros H w. unfold platform.
  destruct (refuses w c); [|destruct (answer w)]; cbn;
    (split; [done|]); eexists [_]; cbn; by rewrite H.
Qed.

End Footprint.

Lemma reply_or_log_no_role_call (e : event) :
  reply_or_log e = true → no_role_call e = true.
Proof. by destruct e as [[] ?| |]. Qed.

Lemma footprint_mono {A} (P Q : event → bool) (m : M A) :
  (∀ e, P e = true → Q e = true) → footprint P m → footprint Q m.
Proof.
  intros HPQ Hm w. destruct (Hm w) as (Hg & evs & Ht & Hp).
  split; [done|]. exists evs. split; [done|].
  apply forallb_forall. intros e He. apply HPQ.
  by apply (proj1 (forallb_forall P evs) Hp).
Qed.

Lemma footprint_reply (P : event → bool) content ephemeral :
  (∀ b, P (Called (Reply content ephemeral) b) = true) →
  footprint P (reply content ephemeral).
Proof. apply footprint_platform. Qed.

(** An answer after a console line adds answers and console lines only. *)
Lemma footprint_log_reply line content ephemeral :
  footprint reply_or_log (console_error line ;; reply content ephemeral).
Proof.
  apply footprint_bind; [by apply footprint_console_error|].
  intros _. by apply footprint_reply.
Qed.

(** ** The decision buttons *)
Section DecisionButtons.
Import ClanRequestButton.

Lemma footprint_unexpected e : footprint reply_or_log (unexpected e).
Proof. apply footprint_log_reply. Qed.

(** The conclusion calls no role. *)
Lemma footprint_conclude i userId action clan :
  footprint no_role_call (conclude i userId action clan).
Proof.
  unfold conclude.
  apply footprint_bind; [by apply footprint_reply|]. intros _.
  apply footprint_bind.
  { apply footprint_try_catch; [by apply footprint_platform|].
    intros _. by apply footprint_console_error. }
  intros _. apply footprint_try_catch.
  - apply footprint_bind; [by apply footprint_platform|].
    intros _. by apply footprint_platform.
  - intros _. by apply footprint_console_error.
Qed.

(** On a pending request the handler goes on to verify the approver. *)
Lemma handle_pending w i userId action clan :
  pending w i userId action clan →
  handle i w = verify_approver i userId action clan w.
Proof.
  intros (clanId & (Hs & Hu & Hc & Ha) & (config & Hl & Hf) & Hg).
  unfold handle. rewrite Hs. cbn [lookup list_lookup].
  rewrite !truthy_field_Some by done. cbn [negb orb default id].
  unfold bind at 1. by rewrite (load_clans_ok _ _ Hl), Hf, Hg.
Qed.

Lemma execute_pending w i userId action clan :
  pending w i userId action clan →
  execute (ButtonClick i) w
  = try_catch (verify_approver i userId action clan) unexpected w.
Proof.
  intros Hp. pose proof (handle_pending _ _ _ _ _ Hp) as Hh.
  destruct Hp as (clanId & (Hs & _) & _).
  unfold execute. rewrite (split_cons_startsWith _ _ Hs); [|done]. cbn [negb].
  unfold try_catch. by rewrite Hh.
Qed.

(** A pending request clicked by an approver, for a user who is a
    member: the handler fetches both and handles the request. *)
Lemma handle_authorized w i userId action clan :
  pending w i userId action clan → authorized w i clan → present w userId →
  handle i w
  = handle_request i userId action clan (fetched w i userId).
Proof.
  intros Hp (ar & Har & Hin) (rr & Hrr).
  rewrite (handle_pending _ _ _ _ _ Hp). unfold verify_approver.
  unfold try_else at 1. rewrite (members_fetch_ok _ _ _ Har).
  rewrite (bool_decide_eq_true_2 _ Hin). cbn [negb].
  unfold get_requesting_user, try_else at 1.
  rewrite (members_fetch_ok _ _ rr); [done|].
  destruct Hrr as [? ?]. by split.
Qed.

Lemma execute_authorized w i userId action clan :
  pending w i userId action clan → authorized w i clan → present w userId →
  execute (ButtonClick i) w
  = try_catch (handle_request i userId action clan) unexpected (fetched w i userId).
Proof.
  intros Hp Ha Hr. pose proof (handle_authorized _ _ _ _ _ Hp Ha Hr) as Hh.
  destruct Hp as (clanId & (Hs & _) & _).
  unfold execute. rewrite (split_cons_startsWith _ _ Hs); [|done]. cbn [negb].
  unfold try_catch. by rewrite Hh.
Qed.

Lemma is_accept_false action : action ≠ "a" → is_accept action = false.
Proof. intros H. by apply String.eqb_neq. Qed.

(** A denial goes straight to the conclusion. *)
Lemma execute_denied w i userId action clan :
  pending w i userId action clan → authorized w i clan → present w userId →
  action ≠ "a" →
  execute (ButtonClick i) w
  = try_catch (conclude i userId action clan) unexpected (fetched w i userId).
Proof.
  intros Hp Ha Hr Hn. rewrite (execute_authorized _ _ _ _ _ Hp Ha Hr).
  unfold handle_request. by rewrite (is_accept_false _ Hn).
Qed.

(** An approval the platform accepts adds the role, then concludes. *)
Lemma execute_approved w i userId clan :
  pending w i userId "a" clan → authorized w i clan → present w userId →
  refuses w (RolesAdd userId (Clan.roleId clan)) = false →
  execute (ButtonClick i) w
  = try_catch (conclude i userId "a" clan) unexpected
      (granted (fetched w i userId) userId (Clan.roleId clan)).
Proof.
  intros Hp Ha Hr Hacc. rewrite (execute_authorized _ _ _ _ _ Hp Ha Hr).
  destruct Hr as (rr & _ & Hrr).
  unfold handle_request. change (is_accept "a") with true. cbv iota.
  unfold try_catch, try_else, roles_add.
  rewrite (platform_accepted _ _ _ _ tt); [done|done|].
  cbn. by rewrite Hrr.
Qed.

Lemma try_catch_bind {A B} (m : M A) (k : A → M B) (h : exn → M B) w :
  try_catch (bind m k) h w
  = match m w with
    | (Ok a, w1) => try_catch (k a) h w1
    | (Throw e, w1) => h e w1
    end.
Proof. unfold try_catch, bind. by destruct (m w) as [[a|e] w1]. Qed.

Lemma holds_granted w user role roles :
  guildMembers w !! user = Some roles → holds (granted w user role) user role = true.
Proof.
  intros H. unfold holds, granted. cbn.
  rewrite lookup_alter_eq, H. cbn. apply bool_decide_eq_true_2. set_solver.
Qed.

End DecisionButtons.

(** Unfolds the monad and the answers of a handler on a world. *)
Ltac run_handler :=
  cbv [try_catch bind ret platform reply console_error record attempted
       refuses trace guildMembers configFile now channels].

(** Closes a goal on the roles and the trace of a finished run. *)
Ltac close_run :=
  cbn; split; [done|]; eexists; split; [by rewrite <- ?app_assoc|done].

(** Settles a closed goal by evaluation: conjunctions and existentials
    are split, equations are computed, and what remains is decided. *)
Ltac decide_goal :=
  lazymatch goal with
  | |- ?P =>
      let d := constr:(_ : Decision P) in
      apply (@bool_decide_unpack P d); vm_compute; exact I
  end.

Ltac settle :=
  lazymatch goal with
  | |- _ ∧ _ => split; settle
  | |- ∃ _, _ => eexists; settle
  | |- _ = _ => vm_compute; reflexivity
  | |- ¬ _ => decide_goal
  | |- _ → _ => intros; settle
  | |- _ => progress hnf; settle
  end.

(** ** The claims *)

(** C5. In the approve branch, when the platform rejects the role
    mutation, the roles stay as they were, the failure is written to the
    console, the responder is answered [Failed to add clan role. Please
    check bot permissions and try again.], and the handler stops: after
    the rejected call it adds answers and console lines only, so the
    approval message is not edited and the requesting user is not
    notified. *)
Theorem role_mutation_failure_halts w i userId clan :
  pending w i userId "a" clan → authorized w i clan → present w userId →
  refuses w (RolesAdd userId (Clan.roleId clan)) = true →
  let w' := (ClanRequestButton.execute (ButtonClick i) w).2 in
  guildMembers w' = guildMembers w
  ∧ ∃ evs,
      trace w'
      = trace w
          ++ [Called (MembersFetch (user_id i)) true;
              Called (MembersFetch userId) true;
              Called (RolesAdd userId (Clan.roleId clan)) false;
              ConsoleError "Failed to add role:";
              attempted w
                (Reply "Failed to add clan role. Please check bot permissions and try again."
                   true)]
          ++ evs
      ∧ forallb reply_or_log evs = true.
Proof.
  intros Hp Ha Hr Hrej. rewrite (execute_authorized _ _ _ _ _ Hp Ha Hr).
  change "Failed to add clan role. Please check bot permissions and try again."
    with ClanRequestButton.RoleMutationFailed.
  destruct w as [cf nw gm ch rf tr]. cbn in Hrej.
  unfold ClanRequestButton.handle_request.
  change (ClanRequestButton.is_accept "a") with true. cbv iota.
  cbv [ClanRequestButton.unexpected try_else roles_add fetched]. run_handler.
  rewrite Hrej.
  destruct (rf (Reply ClanRequestButton.RoleMutationFailed true)) eqn:E1.
  - destruct (rf (Reply ClanRequestButton.UnexpectedError true)); close_run.
  - close_run.
Qed.

(** The scenario, with a platform that rejects every [roles.add]: the
    approver [U2] approves the request of [U1]. *)
Lemma role_mutation_failure_halts_witness :
  let w := Scenario.world (fun c => match c with RolesAdd _ _ => true | _ => false end) in
  let i := Scenario.click "cr:U1:alpha:a" "U2" "M1" ∅ in
  let w' := (ClanRequestButton.execute (ButtonClick i) w).2 in
  guildMembers w' = guildMembers w
  ∧ ∃ evs,
      trace w'
      = trace w
          ++ [Called (MembersFetch "U2") true;
              Called (MembersFetch "U1") true;
              Called (RolesAdd "U1" "R1") false;
              ConsoleError "Failed to add role:";
              Called
                (Reply "Failed to add clan role. Please check bot permissions and try again."
                   true) true]
          ++ evs
      ∧ forallb reply_or_log evs = true.
Proof.
  apply (role_mutation_failure_halts
           (Scenario.world (fun c => match c with RolesAdd _ _ => true | _ => false end))
           (Scenario.click "cr:U1:alpha:a" "U2" "M1" ∅) "U1" Scenario.clan);
    settle.
Defined.

(** C1, as amended. A button whose token does not start with [cr:] is
    left alone: the handler returns at once, and the world is as it was.
    A button whose token starts with [cr:] and whose second, third or
    fourth field is missing or empty is answered [Invalid request
    data.]: the handler writes the token to the console, changes no
    role, and adds answers and console lines only, so no message is
    edited and nobody is notified.  Fields after the fourth are not
    looked at. *)
Theorem malformed_token_rejected (i : ButtonInteraction) (w : World) :
  let fields := split ":" (customId i) in
  let r := ClanRequestButton.execute (ButtonClick i) w in
  (startsWith (customId i) "cr:" = false → r = (Ok tt, w))
  ∧ (startsWith (customId i) "cr:" = true →
     truthy_field (fields !! 1%nat) && truthy_field (fields !! 2%nat)
       && truthy_field (fields !! 3%nat) = false →
     guildMembers r.2 = guildMembers w
     ∧ ∃ evs,
         trace r.2
         = trace w
             ++ [ConsoleError ("Invalid button custom ID format: " +:+ customId i);
                 attempted w (Reply "Invalid request data." true)]
             ++ evs
         ∧ forallb reply_or_log evs = true).
Proof.
  intros fields r. subst r. unfold ClanRequestButton.execute. split.
  - by intros ->.
  - intros -> H. cbn [negb].
    change "Invalid request data." with ClanRequestButton.InvalidRequestData.
    unfold ClanRequestButton.handle. fold fields.
    replace (negb (truthy_field (fields !! 1%nat)) || negb (truthy_field (fields !! 2%nat))
             || negb (truthy_field (fields !! 3%nat))) with true
      by (by destruct (truthy_field (fields !! 1%nat)),
               (truthy_field (fields !! 2%nat)), (truthy_field (fields !! 3%nat))).
    destruct w as [cf nw gm ch rf tr].
    cbv [ClanRequestButton.unexpected]. run_handler.
    destruct (rf (Reply ClanRequestButton.InvalidRequestData true)) eqn:E1.
    + destruct (rf (Reply ClanRequestButton.UnexpectedError true)); close_run.
    + close_run.
Qed.

(** The scenario: a signup button and a button of no handler are left
    alone, and a token whose clan field is empty is answered. *)
Lemma malformed_token_rejected_witness :
  let w := Scenario.world Scenario.nothing in
  ClanRequestButton.execute
    (ButtonClick (Scenario.click "signup:M1:alpha:wizard" "U2" "M1" ∅)) w = (Ok tt, w)
  ∧ ClanRequestButton.execute
      (ButtonClick (Scenario.click "xx:a:b:c:d" "U2" "M1" ∅)) w = (Ok tt, w)
  ∧ let i := Scenario.click "cr:U1::a" "U2" "M1" ∅ in
    let w' := (ClanRequestButton.execute (ButtonClick i) w).2 in
    guildMembers w' = guildMembers w
    ∧ ∃ evs,
        trace w'
        = [ConsoleError "Invalid button custom ID format: cr:U1::a";
           Called (Reply "Invalid request data." true) true] ++ evs
        ∧ forallb reply_or_log evs = true.
Proof.
  split; [|split].
  - apply (proj1 (malformed_token_rejected
                    (Scenario.click "signup:M1:alpha:wizard" "U2" "M1" ∅)
                    (Scenario.world Scenario.nothing))).
    reflexivity.
  - apply (proj1 (malformed_token_rejected
                    (Scenario.click "xx:a:b:c:d" "U2" "M1" ∅)
                    (Scenario.world Scenario.nothing))).
    reflexivity.
  - apply (proj2 (malformed_token_rejected (Scenario.click "cr:U1::a" "U2" "M1" ∅)
                    (Scenario.world Scenario.nothing))); reflexivity.
Defined.

(** C1, as stated, fails: a token with a fifth field does not parse
    into exactly four fields, and yet the handler resolves it: in the
    scenario the approver [U2] clicks it and [U1] gains [R1].  And the
    token of another kind of button, here a signup button with three
    fields, gets no answer from this handler at all. *)
Lemma extra_field_token_accepted :
  let w := Scenario.world Scenario.nothing in
  let i := Scenario.click "cr:U1:alpha:a:extra" "U2" "M1" ∅ in
  let r := ClanRequestButton.execute (ButtonClick i) w in
  let j := Scenario.click "signup:M1:alpha" "U2" "M1" ∅ in
  Specified.four_fields (customId i) = false
  ∧ holds w "U1" "R1" = false
  ∧ holds r.2 "U1" "R1" = true
  ∧ trace r.2
    = [Called (MembersFetch "U2") true;
       Called (MembersFetch "U1") true;
       Called (RolesAdd "U1" "R1") true;
       Called (Reply "You have accepted the request for <@U1> to join Alpha." true) true;
       Called (MessageEdit "M1" ("Request" +:+ nl +:+ nl +:+ "✅ Accepted by <@U2>")) true;
       Called (CreateDM "U1") true;
       Called (DMSend "U1"
                 ("**Your clan request has been accepted ✅**" +:+ nl +:+ nl
                    +:+ "**Clan:** Alpha" +:+ nl
                    +:+ "**Status:** Accepted - Welcome to the clan!" +:+ nl
                    +:+ "**Processed by:** <@U2>")) true]
  ∧ Specified.four_fields (customId j) = false
  ∧ trace (ClanRequestButton.execute (ButtonClick j) w).2 = [].
Proof. vm_compute. by repeat split. Qed.

(** C2. A responder who, by the roles the platform gives for them at
    the click, does not hold the approver role of the clan: the roles
    stay as they were, the responder is answered that they have no
    permission, and the handler adds answers and console lines only, so
    the message is not edited.  The roles sent with the interaction
    ([member_roles]) play no part. *)
Theorem unauthorized_responder_rejected w i userId action clan roles :
  pending w i userId action clan →
  fetches w (user_id i) roles →
  Clan.approverRoleId clan ∉ roles →
  let w' := (ClanRequestButton.execute (ButtonClick i) w).2 in
  guildMembers w' = guildMembers w
  ∧ ∃ evs,
      trace w'
      = trace w
          ++ [Called (MembersFetch (user_id i)) true;
              ConsoleWarn ("Unauthorized approval attempt by " +:+ user_tag i
                             +:+ " for clan " +:+ Clan.name clan);
              attempted w (Reply ClanRequestButton.Unauthorized true)]
          ++ evs
      ∧ forallb reply_or_log evs = true.
Proof.
  intros Hp Hf Hn. rewrite (execute_pending _ _ _ _ _ Hp).
  unfold try_catch, ClanRequestButton.verify_approver, try_else.
  rewrite (members_fetch_ok _ _ _ Hf), (bool_decide_eq_false_2 _ Hn). cbn [negb].
  destruct w as [cf nw gm ch rf tr].
  cbv [ClanRequestButton.unexpected console_warn]. run_handler.
  destruct (rf (Reply ClanRequestButton.Unauthorized true)) eqn:E1.
  - destruct (rf (Reply ClanRequestButton.UnexpectedError true)); close_run.
  - close_run.
Qed.

(** The scenario: [U3] holds no role now, although the roles sent with
    the click still list the approver role [R2]. *)
Lemma unauthorized_responder_rejected_witness :
  let w := Scenario.world Scenario.nothing in
  let i := Scenario.click "cr:U1:alpha:a" "U3" "M1" {[ "R2" ]} in
  let w' := (ClanRequestButton.execute (ButtonClick i) w).2 in
  guildMembers w' = guildMembers w
  ∧ ∃ evs,
      trace w'
      = [Called (MembersFetch "U3") true;
         ConsoleWarn "Unauthorized approval attempt by U3 for clan Alpha";
         Called (Reply "You do not have permission to handle this request." true) true]
          ++ evs
      ∧ forallb reply_or_log evs = true.
Proof.
  apply (unauthorized_responder_rejected (Scenario.world Scenario.nothing)
           (Scenario.click "cr:U1:alpha:a" "U3" "M1" {[ "R2" ]})
           "U1" "a" Scenario.clan ∅);
    settle.
Defined.

(** C3. A pending request resolved by an approver, for a user who is a
    member.  On an approve that the platform accepts, the requesting
    user holds the member role of the clan afterwards.  On a deny no
    role is changed: the roles of every member are what they were, so a
    requesting user who did not hold the role does not hold it after. *)
Theorem resolution_sets_membership w i userId action clan :
  pending w i userId action clan → authorized w i clan → present w userId →
  let w' := (ClanRequestButton.execute (ButtonClick i) w).2 in
  (action = "a" → refuses w (RolesAdd userId (Clan.roleId clan)) = false →
   holds w' userId (Clan.roleId clan) = true)
  ∧ (action = "d" →
     guildMembers w' = guildMembers w
     ∧ (holds w userId (Clan.roleId clan) = false →
        holds w' userId (Clan.roleId clan) = false)).
Proof.
  intros Hp Ha Hr. split.
  - intros -> Hacc. rewrite (execute_approved _ _ _ _ Hp Ha Hr Hacc).
    destruct Hr as (rr & _ & Hrr).
    pose proof (footprint_try_catch _ _ _
      (footprint_conclude i userId "a" clan)
      (fun e => footprint_mono _ _ _ reply_or_log_no_role_call (footprint_unexpected e)))
      as Hfoot.
    destruct (Hfoot (granted (fetched w i userId) userId (Clan.roleId clan))) as [Hg _].
    unfold holds at 1. rewrite Hg.
    by apply (holds_granted (fetched w i userId) _ _ rr).
  - intros ->. rewrite (execute_denied _ _ _ _ _ Hp Ha Hr); [|done].
    pose proof (footprint_try_catch _ _ _
      (footprint_conclude i userId "d" clan)
      (fun e => footprint_mono _ _ _ reply_or_log_no_role_call (footprint_unexpected e)))
      as Hfoot.
    destruct (Hfoot (fetched w i userId)) as [Hg _].
    split; [done|]. unfold holds. by rewrite Hg.
Qed.

(** The scenario: [U1] holds [R1] after the approve of [U2], and not
    after the deny. *)
Lemma resolution_sets_membership_witness :
  let w := Scenario.world Scenario.nothing in
  holds w "U1" "R1" = false
  ∧ holds (ClanRequestButton.execute
             (ButtonClick (Scenario.click "cr:U1:alpha:a" "U2" "M1" ∅)) w).2 "U1" "R1"
    = true
  ∧ holds (ClanRequestButton.execute
             (ButtonClick (Scenario.click "cr:U1:alpha:d" "U2" "M1" ∅)) w).2 "U1" "R1"
    = false.
Proof.
  split; [reflexivity|]. split.
  - apply (resolution_sets_membership (Scenario.world Scenario.nothing)
             (Scenario.click "cr:U1:alpha:a" "U2" "M1" ∅) "U1" "a" Scenario.clan);
      settle.
  - apply (resolution_sets_membership (Scenario.world Scenario.nothing)
             (Scenario.click "cr:U1:alpha:d" "U2" "M1" ∅) "U1" "d" Scenario.clan);
      settle.
Defined.

(** C9, as amended. After the role mutation succeeded (or on a deny),
    two failures are logged and swallowed: the edit of the approval
    message and the direct notice.  When the confirmation to the
    responder is accepted the handler ends normally whatever the
    platform does with the edit and the notice, and the notice is
    attempted also after a rejected edit.  The one failure that aborts
    is that of the confirmation itself: then nothing is edited, nobody
    is notified, the error is logged and an error answer is attempted. *)
Theorem edit_and_notice_failures_swallowed w i userId action clan :
  pending w i userId action clan → authorized w i clan → present w userId →
  (action = "a" → refuses w (RolesAdd userId (Clan.roleId clan)) = false) →
  let r := ClanRequestButton.execute (ButtonClick i) w in
  let told := Reply (ClanRequestButton.confirmation action userId clan) true in
  let edit := MessageEdit (message_id i) (ClanRequestButton.resolution action i) in
  let notice := DMSend userId (ClanRequestButton.notificationContent action clan i) in
  if refuses w told then
    trace r.2
    = trace w ++ resolved_prefix i userId action clan
        ++ [Called told false;
            ConsoleError "Unexpected error handling clan request button:";
            attempted w (Reply ClanRequestButton.UnexpectedError true)]
  else
    r.1 = Ok tt
    ∧ trace r.2
      = trace w ++ resolved_prefix i userId action clan
          ++ [Called told true]
          ++ swallowed w edit "Failed to update approval message:"
          ++ (if refuses w (CreateDM userId)
              then [Called (CreateDM userId) false;
                    ConsoleError "Failed to send DM to user:"]
              else Called (CreateDM userId) true
                     :: swallowed w notice "Failed to send DM to user:").
Proof.
  intros Hp Ha Hr Hacc r told edit notice. subst r. unfold resolved_prefix.
  destruct (String.eqb_spec action "a") as [->|Hn].
  - rewrite (execute_approved _ _ _ _ Hp Ha Hr (Hacc eq_refl)).
    change (ClanRequestButton.is_accept "a") with true. cbv iota.
    subst told edit notice. destruct w as [cf nw gm ch rf tr].
    cbv [ClanRequestButton.conclude ClanRequestButton.unexpected message_edit
         create_dm dm_send swallowed fetched granted set_members].
    run_handler.
    destruct (rf (Reply _ _)) eqn:E1.
    + destruct (rf (Reply ClanRequestButton.UnexpectedError true));
        cbn; by rewrite <- ?app_assoc.
    + destruct (rf (MessageEdit _ _)), (rf (CreateDM _)); try destruct (rf (DMSend _ _));
        cbn; (split; [done|]); by rewrite <- ?app_assoc.
  - rewrite (execute_denied _ _ _ _ _ Hp Ha Hr Hn).
    rewrite (is_accept_false _ Hn).
    subst told edit notice. destruct w as [cf nw gm ch rf tr].
    cbv [ClanRequestButton.conclude ClanRequestButton.unexpected message_edit
         create_dm dm_send swallowed fetched granted set_members].
    run_handler.
    destruct (rf (Reply _ _)) eqn:E1.
    + destruct (rf (Reply ClanRequestButton.UnexpectedError true));
        cbn; by rewrite <- ?app_assoc.
    + destruct (rf (MessageEdit _ _)), (rf (CreateDM _)); try destruct (rf (DMSend _ _));
        cbn; (split; [done|]); by rewrite <- ?app_assoc.
Qed.

(** The scenario, with a platform that rejects the edit of the message
    and the direct message: the handler ends normally. *)
Lemma edit_and_notice_failures_swallowed_witness :
  let rejected c := match c with MessageEdit _ _ | DMSend _ _ => true | _ => false end in
  let r := ClanRequestButton.execute
             (ButtonClick (Scenario.click "cr:U1:alpha:a" "U2" "M1" ∅))
             (Scenario.world rejected) in
  r.1 = Ok tt
  ∧ trace r.2
    = [Called (MembersFetch "U2") true;
       Called (MembersFetch "U1") true;
       Called (RolesAdd "U1" "R1") true;
       Called (Reply "You have accepted the request for <@U1> to join Alpha." true) true;
       Called (MessageEdit "M1" ("Request" +:+ nl +:+ nl +:+ "✅ Accepted by <@U2>")) false;
       ConsoleError "Failed to update approval message:";
       Called (CreateDM "U1") true;
       Called (DMSend "U1"
                 ("**Your clan request has been accepted ✅**" +:+ nl +:+ nl
                    +:+ "**Clan:** Alpha" +:+ nl
                    +:+ "**Status:** Accepted - Welcome to the clan!" +:+ nl
                    +:+ "**Processed by:** <@U2>")) false;
       ConsoleError "Failed to send DM to user:"].
Proof.
  apply (edit_and_notice_failures_swallowed
           (Scenario.world
              (fun c => match c with MessageEdit _ _ | DMSend _ _ => true | _ => false end))
           (Scenario.click "cr:U1:alpha:a" "U2" "M1" ∅) "U1" "a" Scenario.clan);
    settle.
Defined.

(** C9, as stated, fails: in the scenario the platform accepts the role
    and rejects the edit of the approval message.  The handler does not
    abort (it ends normally and goes on to notify [U1]) and reports
    nothing: the one answer to the responder is the confirmation, and the
    failure goes to the console. *)
Lemma edit_failure_swallowed :
  let rejected c := match c with MessageEdit _ _ => true | _ => false end in
  let r := ClanRequestButton.execute
             (ButtonClick (Scenario.click "cr:U1:alpha:a" "U2" "M1" ∅))
             (Scenario.world rejected) in
  r.1 = Ok tt
  ∧ trace r.2
    = [Called (MembersFetch "U2") true;
       Called (MembersFetch "U1") true;
       Called (RolesAdd "U1" "R1") true;
       Called (Reply "You have accepted the request for <@U1> to join Alpha." true) true;
       Called (MessageEdit "M1" ("Request" +:+ nl +:+ nl +:+ "✅ Accepted by <@U2>")) false;
       ConsoleError "Failed to update approval message:";
       Called (CreateDM "U1") true;
       Called (DMSend "U1"
                 ("**Your clan request has been accepted ✅**" +:+ nl +:+ nl
                    +:+ "**Clan:** Alpha" +:+ nl
                    +:+ "**Status:** Accepted - Welcome to the clan!" +:+ nl
                    +:+ "**Processed by:** <@U2>")) true].
Proof. vm_compute. by split. Qed.

(** C10. A well formed token whose action is anything but [a] is a
    denial for an authorized responder: the roles stay as they were and
    no role call is made, the responder is answered that the request was
    denied, and when the platform rejects nothing the message is edited
    to [Denied] and the requesting user is notified of the denial. *)
Theorem any_other_action_denies w i userId action clan :
  pending w i userId action clan → authorized w i clan → present w userId →
  action ≠ "a" →
  let w' := (ClanRequestButton.execute (ButtonClick i) w).2 in
  let told :=
    Reply ("You have denied the request for " +:+ mention userId
             +:+ " to join " +:+ Clan.name clan +:+ ".") true in
  guildMembers w' = guildMembers w
  ∧ (∃ evs,
       trace w'
       = trace w
           ++ [Called (MembersFetch (user_id i)) true;
               Called (MembersFetch userId) true;
               attempted w told]
           ++ evs
       ∧ forallb no_role_call evs = true)
  ∧ ((∀ c, refuses w c = false) →
     trace w'
     = trace w
         ++ [Called (MembersFetch (user_id i)) true;
             Called (MembersFetch userId) true;
             Called told true;
             Called (MessageEdit (message_id i)
                       (message_content i +:+ nl +:+ nl +:+ "❌ Denied by "
                          +:+ mention (user_id i))) true;
             Called (CreateDM userId) true;
             Called (DMSend userId
                       ("**Your clan request has been denied ❌**" +:+ nl +:+ nl
                          +:+ "**Clan:** " +:+ Clan.name clan +:+ nl
                          +:+ "**Status:** Denied - Please contact clan leadership for more information."
                          +:+ nl
                          +:+ "**Processed by:** " +:+ mention (user_id i))) true]).
Proof.
  intros Hp Ha Hr Hn w' told. subst w'.
  rewrite (execute_denied _ _ _ _ _ Hp Ha Hr Hn).
  assert (Hc : ClanRequestButton.confirmation action userId clan
               = "You have denied the request for " +:+ mention userId
                   +:+ " to join " +:+ Clan.name clan +:+ ".").
  { unfold ClanRequestButton.confirmation. by rewrite (is_accept_false _ Hn). }
  assert (He : ClanRequestButton.resolution action i
               = message_content i +:+ nl +:+ nl +:+ "❌ Denied by " +:+ mention (user_id i)).
  { unfold ClanRequestButton.resolution. by rewrite (is_accept_false _ Hn). }
  assert (Hd : ClanRequestButton.notificationContent action clan i
               = "**Your clan request has been denied ❌**" +:+ nl +:+ nl
                   +:+ "**Clan:** " +:+ Clan.name clan +:+ nl
                   +:+ "**Status:** Denied - Please contact clan leadership for more information."
                   +:+ nl +:+ "**Processed by:** " +:+ mention (user_id i)).
  { unfold ClanRequestButton.notificationContent. by rewrite (is_accept_false _ Hn). }
  pose proof (footprint_try_catch _ _ _
    (footprint_conclude i userId action clan)
    (fun e => footprint_mono _ _ _ reply_or_log_no_role_call (footprint_unexpected e)))
    as Hfoot.
  split; [apply (Hfoot (fetched w i userId))|]. split.
  - unfold ClanRequestButton.conclude. rewrite try_catch_bind, Hc.
    unfold reply at 1, platform, attempted. fold told.
    change (refuses (fetched w i userId)) with (refuses w).
    destruct (refuses w told) eqn:E1.
    + destruct (footprint_unexpected
                  (PlatformError "The platform rejected the call")
                  (record (Called told false) (fetched w i userId)))
        as (_ & evs & Ht & Hev).
      exists evs. split.
      * rewrite Ht. cbn. by rewrite <- !app_assoc.
      * apply forallb_forall. intros e Hin. apply reply_or_log_no_role_call.
        by apply (proj1 (forallb_forall _ _) Hev).
    + match goal with
      | |- context [try_catch ?m ?h ?w1] =>
          assert (Hrest : footprint no_role_call (try_catch m h))
      end.
      { apply footprint_try_catch.
        - apply footprint_bind.
          + apply footprint_try_catch; [by apply footprint_platform|].
            intros _. by apply footprint_console_error.
          + intros _. apply footprint_try_catch.
            * apply footprint_bind; [by apply footprint_platform|].
              intros _. by apply footprint_platform.
            * intros _. by apply footprint_console_error.
        - intros e. apply (footprint_mono reply_or_log); [|apply footprint_unexpected].
          apply reply_or_log_no_role_call. }
      destruct (Hrest (record (Called told true) (fetched w i userId)))
        as (_ & evs & Ht & Hev).
      exists evs. split; [|done]. rewrite Ht. cbn. by rewrite <- !app_assoc.
  - intros Hall. unfold ClanRequestButton.conclude. rewrite Hc, He, Hd.
    destruct w as [cf nw gm ch rf tr]. cbn in Hall.
    cbv [ClanRequestButton.unexpected message_edit create_dm dm_send fetched].
    run_handler.
    rewrite !Hall. cbn. by rewrite <- !app_assoc.
Qed.

(** The scenario: the action [x] is a denial. *)
Lemma any_other_action_denies_witness :
  let w := Scenario.world Scenario.nothing in
  let w' := (ClanRequestButton.execute
               (ButtonClick (Scenario.click "cr:U1:alpha:x" "U2" "M1" ∅)) w).2 in
  guildMembers w' = guildMembers w
  ∧ trace w'
    = [Called (MembersFetch "U2") true;
       Called (MembersFetch "U1") true;
       Called (Reply "You have denied the request for <@U1> to join Alpha." true) true;
       Called (MessageEdit "M1" ("Request" +:+ nl +:+ nl +:+ "❌ Denied by <@U2>")) true;
       Called (CreateDM "U1") true;
       Called (DMSend "U1"
                 ("**Your clan request has been denied ❌**" +:+ nl +:+ nl
                    +:+ "**Clan:** Alpha" +:+ nl
                    +:+ "**Status:** Denied - Please contact clan leadership for more information."
                    +:+ nl +:+ "**Processed by:** <@U2>")) true].
Proof.
  destruct (any_other_action_denies (Scenario.world Scenario.nothing)
              (Scenario.click "cr:U1:alpha:x" "U2" "M1" ∅) "U1" "x" Scenario.clan)
    as (Hg & _ & Ht); [settle..|].
  split; [exact Hg|]. by apply Ht.
Defined.

(** ** The commands *)

Lemma js_length_app (s t : string) :
  js_length (s +:+ t) = (js_length s + js_length t)%nat.
Proof.
  induction s as [|c s IH]; [done|].
  change (String c s +:+ t) with (String c (s +:+ t)). cbn [js_length].
  rewrite IH. lia.
Qed.

(** The two buttons of a request have identifiers of the same length:
    the builder accepts both or throws at the first. *)
Lemma built_buttons (i : CommandInteraction) (clan : Clan.t) :
  built (ClanJoinRequest.buttons i clan)
  = if within 1 100 ("cr:" +:+ cmd_user_id i +:+ ":" +:+ Clan.id clan +:+ ":a")
    then Ok (ClanJoinRequest.buttons i clan) else Throw ValidationError.
Proof.
  unfold ClanJoinRequest.buttons. cbn [built button_customId button_label].
  assert (within 1 100 ("cr:" +:+ cmd_user_id i +:+ ":" +:+ Clan.id clan +:+ ":d")
          = within 1 100 ("cr:" +:+ cmd_user_id i +:+ ":" +:+ Clan.id clan +:+ ":a")) as ->.
  { unfold within. by rewrite !js_length_app. }
  by destruct (within 1 100 _).
Qed.

(** C4, as amended. A join request for a configured clan whose fields
    are strings.  When the requester holds the member role already, the
    handler answers so and adds answers and console lines only: no
    message is posted.  When the requester does not hold the member role
    and the approval channel is available, what happens depends on the
    identifier [cr:<user>:<clan>:a] of the buttons.  When it has at most
    100 characters, the handler posts one message to the approval
    channel of the clan, with the two decision buttons, and then
    acknowledges the requester.  When it is longer, the builder of the
    buttons throws: nothing is posted, the failure is written to the
    console and the requester is answered that the request failed.  In
    each case what the handler adds after that are answers and console
    lines only. *)
Theorem submit_posts_one_request w i clan roles :
  configured w (option_clan i) clan →
  typed (configFile w) = true →
  cmd_member_roles i = Some roles →
  let w' := (ClanJoinRequest.execute i w).2 in
  let identifier := "cr:" +:+ cmd_user_id i +:+ ":" +:+ Clan.id clan +:+ ":a" in
  (Clan.roleId clan ∉ roles → channel_available w i clan →
   within 1 100 identifier = true →
   guildMembers w' = guildMembers w
   ∧ ∃ evs,
       trace w'
       = trace w
           ++ [Called (ChannelsFetch (Clan.approvalChannelId clan)) true;
               Called (ChannelSend (Clan.approvalChannelId clan)
                         (ClanJoinRequest.request i clan (now w))
                         (ClanJoinRequest.buttons i clan)) true;
               attempted w
                 (Reply ("✅ Your request to join " +:+ Clan.name clan
                           +:+ " has been submitted for review.") false)]
           ++ evs
       ∧ forallb reply_or_log evs = true)
  ∧ (Clan.roleId clan ∉ roles → channel_available w i clan →
     within 1 100 identifier = false →
     guildMembers w' = guildMembers w
     ∧ ∃ evs,
         trace w'
         = trace w
             ++ [Called (ChannelsFetch (Clan.approvalChannelId clan)) true;
                 ConsoleError "Error processing clan join request:";
                 attempted w
                   (Reply "❌ Failed to process your request. Please try again later." false)]
             ++ evs
         ∧ forallb reply_or_log evs = true)
  ∧ (Clan.roleId clan ∈ roles →
     guildMembers w' = guildMembers w
     ∧ ∃ evs,
         trace w'
         = trace w
             ++ [attempted w
                   (Reply ("❌ You are already a member of " +:+ Clan.name clan +:+ ".")
                      false)]
             ++ evs
         ∧ forallb reply_or_log evs = true).
Proof.
  intros (config & Hl & Hf) _ Hm w' identifier. subst w'.
  change ("✅ Your request to join " +:+ Clan.name clan
            +:+ " has been submitted for review.")
    with (ClanJoinRequest.Acknowledgment clan).
  change "❌ Failed to process your request. Please try again later."
    with ClanJoinRequest.Failed.
  change ("❌ You are already a member of " +:+ Clan.name clan +:+ ".")
    with (ClanJoinRequest.AlreadyMember clan).
  unfold ClanJoinRequest.execute, try_catch, bind.
  rewrite (load_clans_ok _ _ Hl), Hf, Hm, built_buttons. fold identifier.
  split; [|split].
  - intros Hn (Hg & Hch & Hfetch & Hsend) ->.
    rewrite (bool_decide_eq_false_2 _ Hn), Hg.
    destruct w as [cf nw gm ch rf tr]. cbn in Hch, Hfetch, Hsend.
    cbv [ClanJoinRequest.fetch_text_channel ClanJoinRequest.clock channels_fetch
         channel_send].
    run_handler.
    rewrite Hfetch, Hch. cbn [negb]. rewrite Hsend.
    destruct (rf (Reply (ClanJoinRequest.Acknowledgment clan) false)) eqn:E1.
    + destruct (rf (Reply ClanJoinRequest.Failed false)) eqn:E2;
        cbn; rewrite ?E2; close_run.
    + close_run.
  - intros Hn (Hg & Hch & Hfetch & _) ->.
    rewrite (bool_decide_eq_false_2 _ Hn), Hg.
    destruct w as [cf nw gm ch rf tr]. cbn in Hch, Hfetch.
    cbv [ClanJoinRequest.fetch_text_channel channels_fetch throw].
    run_handler.
    rewrite Hfetch, Hch. cbn [negb].
    destruct (rf (Reply ClanJoinRequest.Failed false)) eqn:E2;
      cbn; rewrite ?E2; close_run.
  - intros Hin. rewrite (bool_decide_eq_true_2 _ Hin).
    destruct w as [cf nw gm ch rf tr]. run_handler.
    destruct (rf (Reply (ClanJoinRequest.AlreadyMember clan) false)) eqn:E1.
    + destruct (rf (Reply ClanJoinRequest.Failed false)); close_run.
    + close_run.
Qed.

(** The scenario: the request of [U1], without and with the role [R1]. *)
Lemma submit_posts_one_request_witness :
  let w := Scenario.world Scenario.nothing in
  (let w' := (ClanJoinRequest.execute (Scenario.command "U1" ∅ "") w).2 in
   ∃ evs,
     trace w'
     = [Called (ChannelsFetch "C1") true;
        Called (ChannelSend "C1"
                  ("**🔔 Clan Join Request**" +:+ nl +:+ nl
                     +:+ "**From:** <@U1>" +:+ nl
                     +:+ "**IGN:** Hero123" +:+ nl
                     +:+ "**Requested:** <t:1700000000:f>" +:+ nl
                     +:+ "<@&R2> Please review this request using the buttons below.")
                  [ {| button_customId := "cr:U1:alpha:a"; button_label := "✅ Approve" |};
                    {| button_customId := "cr:U1:alpha:d"; button_label := "❌ Deny" |} ])
          true;
        Called (Reply "✅ Your request to join Alpha has been submitted for review." false)
          true] ++ evs
     ∧ forallb reply_or_log evs = true)
  ∧ (let w' := (ClanJoinRequest.execute (Scenario.command "U1" {[ "R1" ]} "") w).2 in
     ∃ evs,
       trace w' = [Called (Reply "❌ You are already a member of Alpha." false) true] ++ evs
       ∧ forallb reply_or_log evs = true).
Proof.
  split.
  - apply (submit_posts_one_request (Scenario.world Scenario.nothing)
             (Scenario.command "U1" ∅ "") Scenario.clan ∅).
    all: settle.
  - apply (submit_posts_one_request (Scenario.world Scenario.nothing)
             (Scenario.command "U1" {[ "R1" ]} "") Scenario.clan {[ "R1" ]}).
    all: settle.
Defined.

(** C4, as stated, fails for a clan with a long identifier.  The clan of
    the scenario is configured under an identifier of 85 characters; the
    requester [123456789012345678] does not hold its member role and the
    approval channel is available.  The identifier of the approve button
    would have 109 characters: the builder throws, no approval message is
    posted, and the requester is answered that the request failed. *)
Lemma long_identifier_posts_nothing :
  let id := "thunderclap-gaming-diablo-immortal-clan-of-the-eternal-storm-sanctum-wardens-europe-1" in
  let w :=
    {| configFile :=
         FileText (inr (JObj [("clans",
           JArr [JObj [("id", JStr id); ("name", JStr "Alpha");
                       ("roleId", JStr "R1"); ("approverRoleId", JStr "R2");
                       ("approvalChannelId", JStr "C1")]])]));
       now := 1700000000123;
       guildMembers := {[ "123456789012345678" := ∅ ]};
       channels := {[ "C1" := true ]};
       refuses := Scenario.nothing;
       trace := [] |} in
  let i :=
    {| cmd_user_id := "123456789012345678"; cmd_member_roles := Some ∅;
       cmd_guild := true; option_clan := id; option_ign := "Hero123";
       option_user := "" |} in
  let clan :=
    {| Clan.id := id; Clan.name := "Alpha"; Clan.roleId := "R1";
       Clan.approverRoleId := "R2"; Clan.approvalChannelId := "C1" |} in
  configured w (option_clan i) clan
  ∧ typed (configFile w) = true
  ∧ holds w "123456789012345678" "R1" = false
  ∧ channel_available w i clan
  ∧ js_length id = 85%nat
  ∧ trace (ClanJoinRequest.execute i w).2
    = [Called (ChannelsFetch "C1") true;
       ConsoleError "Error processing clan join request:";
       Called (Reply "❌ Failed to process your request. Please try again later." false)
         true].
Proof. settle. Qed.

(** The clan an identifier names is still the one it names among the
    clans that satisfy a property it has. *)
Lemma find_clan_filter (P : Clan.t → Prop) `{!∀ c, Decision (P c)}
    (clans : list Clan.t) (clanId : string) (clan : Clan.t) :
  find_clan clans clanId = Some clan → P clan →
  find_clan (filter P clans) clanId = Some clan.
Proof.
  intros Hf HP. induction clans as [|c clans IH]; [done|].
  unfold find_clan in *. cbn in Hf. rewrite filter_cons.
  destruct (String.eqb (Clan.id c) clanId) eqn:E.
  - injection Hf as ->. rewrite decide_True by done. cbn. by rewrite E.
  - destruct (decide (P c)); [cbn; rewrite E|]; by apply IH.
Qed.

Lemma find_clan_length (clans : list Clan.t) (clanId : string) (clan : Clan.t) :
  find_clan clans clanId = Some clan → (length clans =? 0)%nat = false.
Proof. by destruct clans. Qed.

(** C6. A grant or a revoke by a member who holds the approver role of
    the clan, for a target who is a member of the guild.  A grant to a
    target who holds the member role already changes no role and answers
    that the target already has the role; a revoke from a target who
    does not hold it changes no role and answers that the target does
    not have the role.  After the fetch of the target either handler adds
    answers and console lines only. *)
Theorem grant_revoke_noop w i clan approver roles :
  cmd_member_roles i = Some approver →
  configured w (option_clan i) clan →
  Clan.approverRoleId clan ∈ approver →
  cmd_guild i = true →
  fetches w (option_user i) roles →
  (Clan.roleId clan ∈ roles →
   let w' := (ClanGrantAccess.execute i w).2 in
   guildMembers w' = guildMembers w
   ∧ ∃ evs,
       trace w'
       = trace w
           ++ [Called (MembersFetch (option_user i)) true;
               attempted w (Reply (ClanGrantAccess.AlreadyHasRole (option_user i) clan) true)]
           ++ evs
       ∧ forallb reply_or_log evs = true)
  ∧ (Clan.roleId clan ∉ roles →
     let w' := (ClanRevokeAccess.execute i w).2 in
     guildMembers w' = guildMembers w
     ∧ ∃ evs,
         trace w'
         = trace w
             ++ [Called (MembersFetch (option_user i)) true;
                 attempted w
                   (Reply (ClanRevokeAccess.DoesNotHaveRole (option_user i) clan) true)]
             ++ evs
         ∧ forallb reply_or_log evs = true).
Proof.
  intros Hm (config & Hl & Hf) Hap Hg Hfetch.
  pose proof (find_clan_filter (fun c => Clan.approverRoleId c ∈ approver)
                _ _ _ Hf Hap) as Hsel.
  pose proof (find_clan_length _ _ _ Hsel) as Hlen.
  split.
  - intros Hin w'. subst w'.
    unfold ClanGrantAccess.execute, try_catch, bind.
    rewrite Hm, (load_clans_ok _ _ Hl), Hlen, Hsel.
    unfold ClanGrantAccess.fetch_target, bind. rewrite Hg.
    rewrite (members_fetch_ok _ _ _ Hfetch). cbn [ret].
    rewrite (bool_decide_eq_true_2 _ Hin).
    destruct w as [cf nw gm ch rf tr]. run_handler.
    destruct (rf (Reply (ClanGrantAccess.AlreadyHasRole (option_user i) clan) true)) eqn:E1.
    + destruct (rf (Reply ClanGrantAccess.Failed true)); close_run.
    + close_run.
  - intros Hn w'. subst w'.
    unfold ClanRevokeAccess.execute, try_catch, bind.
    rewrite Hm, (load_clans_ok _ _ Hl), Hlen, Hsel.
    unfold ClanGrantAccess.fetch_target, bind. rewrite Hg.
    rewrite (members_fetch_ok _ _ _ Hfetch). cbn [ret].
    rewrite (bool_decide_eq_false_2 _ Hn). cbn [negb].
    destruct w as [cf nw gm ch rf tr]. run_handler.
    destruct (rf (Reply (ClanRevokeAccess.DoesNotHaveRole (option_user i) clan) true)) eqn:E1.
    + destruct (rf (Reply ClanRevokeAccess.Failed true)); close_run.
    + close_run.
Qed.

(** The scenario: [U2] revokes the role that [U1] does not hold, and
    grants the role that [U1] holds already. *)
Lemma grant_revoke_noop_witness :
  (let w := Scenario.world Scenario.nothing in
   let w' := (ClanRevokeAccess.execute (Scenario.command "U2" {[ "R2" ]} "U1") w).2 in
   guildMembers w' = guildMembers w
   ∧ ∃ evs,
       trace w'
       = [Called (MembersFetch "U1") true;
          Called (Reply "❌ <@U1> does not have the Alpha role." true) true] ++ evs
       ∧ forallb reply_or_log evs = true)
  ∧ (let w := granted (Scenario.world Scenario.nothing) "U1" "R1" in
     let w' := (ClanGrantAccess.execute (Scenario.command "U2" {[ "R2" ]} "U1") w).2 in
     guildMembers w' = guildMembers w
     ∧ ∃ evs,
         trace w'
         = trace w
             ++ [Called (MembersFetch "U1") true;
                 Called (Reply "❌ <@U1> already has the Alpha role." true) true] ++ evs
         ∧ forallb reply_or_log evs = true).
Proof.
  split.
  - apply (grant_revoke_noop (Scenario.world Scenario.nothing)
             (Scenario.command "U2" {[ "R2" ]} "U1") Scenario.clan {[ "R2" ]} ∅).
    all: settle.
  - apply (grant_revoke_noop (granted (Scenario.world Scenario.nothing) "U1" "R1")
             (Scenario.command "U2" {[ "R2" ]} "U1") Scenario.clan {[ "R2" ]} {[ "R1" ]}).
    all: settle.
Defined.

(** ** The loader of the configuration *)

Lemma startsWith_app (p s : string) : startsWith (p +:+ s) p = true.
Proof.
  induction p as [|c p IH]; [done|].
  simpl. by rewrite Ascii.eqb_refl.
Qed.

(** The fields of an object pass the inner loop exactly when each is
    truthy. *)
Lemma validate_fields_object props index fields :
  if forallb (fun field => truthy (own_property props field)) fields
  then validate_fields (JObj props) index fields = Ok tt
  else ∃ m, validate_fields (JObj props) index fields = Throw (Error m).
Proof.
  induction fields as [|field fields IH]; [done|]. cbn.
  destruct (truthy (own_property props field)); cbn; [done|by eexists].
Qed.

Lemma validate_fields_required clan index :
  if has_required_fields clan
  then validate_fields clan index requiredFields = Ok tt
  else ∃ e, validate_fields clan index requiredFields = Throw e.
Proof.
  destruct clan as [|b|q|s|items|props]; cbn -[requiredFields];
    try (by eexists).
  pose proof (validate_fields_object props index requiredFields) as H.
  destruct (forallb _ requiredFields); [done|].
  destruct H as [m ->]. by eexists.
Qed.

Lemma validate_clans_required clans index :
  if forallb has_required_fields clans
  then validate_clans clans index = Ok tt
  else ∃ e, validate_clans clans index = Throw e.
Proof.
  revert index. induction clans as [|clan clans IH]; intros index; [done|].
  cbn -[requiredFields].
  pose proof (validate_fields_required clan index) as H.
  destruct (has_required_fields clan); cbn -[requiredFields].
  - rewrite H. apply IH.
  - destruct H as [e ->]. by eexists.
Qed.

(** Whatever the [try] block throws leaves the loader as an error with
    the prefix of the loader. *)
Lemma load_catch_throws e :
  ∃ m, load_catch (Throw e) = Throw (Error m) ∧ descriptive m.
Proof. eexists. split; [done|]. right. apply startsWith_app. Qed.

(** C7, as amended. The loader fails, with a message that names the
    failure, whenever the file is absent, cannot be read, does not
    parse, has no array under [clans], or has a clan that is not an
    object with a truthy [id], [name], [roleId], [approverRoleId] and
    [approvalChannelId]; any other file it returns as parsed.  The field
    [description] is not looked at, and a truthy value that is not a
    string passes. *)
Theorem loadClanConfig_validation (f : file_state) :
  if well_shaped f
  then ∃ config, f = FileText (inr config) ∧ loadClanConfig f = Ok config
  else ∃ m, loadClanConfig f = Throw (Error m) ∧ descriptive m.
Proof.
  destruct f as [|m|[m|config]]; cbn -[load_catch].
  - eexists. split; [done|]. by left.
  - apply load_catch_throws.
  - apply load_catch_throws.
  - destruct config as [|b|q|s|items|props]; cbn -[load_catch];
      try apply load_catch_throws.
    destruct (own_property props "clans") as [[|b|q|s|clans|ps]|];
      cbn -[load_catch]; try apply load_catch_throws.
    pose proof (validate_clans_required clans 0) as H.
    destruct (forallb has_required_fields clans).
    + rewrite H. by eexists.
    + destruct H as [e ->]. apply load_catch_throws.
Qed.

(** C7, as stated, fails: a configuration whose one group has no
    [description] is not as the specification requires, and the loader
    returns it; so it does a configuration whose group has a number for
    its [name]. *)
Lemma missing_description_accepted :
  let group :=
    JObj [("id", JStr "alpha"); ("name", JStr "Alpha"); ("roleId", JStr "R1");
          ("approverRoleId", JStr "R2"); ("approvalChannelId", JStr "C1")] in
  let config := JObj [("clans", JArr [group])] in
  let numbered :=
    JObj [("clans",
           JArr [JObj [("id", JStr "alpha"); ("name", JNum 7);
                       ("description", JStr "The first clan"); ("roleId", JStr "R1");
                       ("approverRoleId", JStr "R2"); ("approvalChannelId", JStr "C1")]])] in
  Specified.config_ok (FileText (inr config)) = false
  ∧ loadClanConfig (FileText (inr config)) = Ok config
  ∧ Specified.config_ok (FileText (inr numbered)) = false
  ∧ loadClanConfig (FileText (inr numbered)) = Ok numbered.
Proof. by vm_compute. Qed.

(** ** The message a button belongs to *)

(** C8, as amended. A signup button whose token names, in its second
    field, another message than the one it is attached to is rejected:
    the handler answers that the button is from a different message,
    changes no role and adds answers and console lines only, so the
    message is not edited.  The decision buttons carry no message in
    their token, and their handler does not compare any. *)
Theorem signup_button_checks_message (i : ButtonInteraction) (w : World) :
  startsWith (customId i) "signup:" = true →
  split ":" (customId i) !! 1%nat ≠ Some (message_id i) →
  let w' := (DiClanSignupButton.execute (ButtonClick i) w).2 in
  guildMembers w' = guildMembers w
  ∧ ∃ evs,
      trace w'
      = trace w ++ [attempted w (Reply DiClanSignupButton.DifferentMessage true)] ++ evs
      ∧ forallb reply_or_log evs = true.
Proof.
  intros Hs Hn. unfold DiClanSignupButton.execute. rewrite Hs. cbn [negb].
  unfold DiClanSignupButton.handle.
  rewrite (bool_decide_eq_false_2 _ Hn). cbn [negb].
  destruct w as [cf nw gm ch rf tr]. run_handler.
  destruct (rf (Reply DiClanSignupButton.DifferentMessage true)) eqn:E1.
  - destruct (rf (Reply DiClanSignupButton.Failed true)); close_run.
  - close_run.
Qed.

(** The scenario: a signup button of the message [M1] clicked on the
    message [M2]. *)
Lemma signup_button_checks_message_witness :
  let w := Scenario.world Scenario.nothing in
  let i := Scenario.click "signup:M1:alpha:wizard" "U1" "M2" {[ "R1" ]} in
  let w' := (DiClanSignupButton.execute (ButtonClick i) w).2 in
  guildMembers w' = guildMembers w
  ∧ ∃ evs,
      trace w'
      = [Called (Reply "❌ This signup button is from a different message." true) true]
          ++ evs
      ∧ forallb reply_or_log evs = true.
Proof.
  apply (signup_button_checks_message
           (Scenario.click "signup:M1:alpha:wizard" "U1" "M2" {[ "R1" ]})
           (Scenario.world Scenario.nothing)); settle.
Defined.

(** C8, as stated, fails for the decision buttons: the token of a
    decision button names no message, and the same button is resolved
    on whichever message it is attached to.  In the scenario the approve
    button of [U1] gives [U1] the role when clicked on the message [M1]
    and when clicked on the message [M2]. *)
Lemma decision_button_ignores_message :
  let w := Scenario.world Scenario.nothing in
  let after message :=
    (ClanRequestButton.execute
       (ButtonClick (Scenario.click "cr:U1:alpha:a" "U2" message ∅)) w).2 in
  holds w "U1" "R1" = false
  ∧ holds (after "M1") "U1" "R1" = true
  ∧ holds (after "M2") "U1" "R1" = true
  ∧ In (Called (MessageEdit "M1" ("Request" +:+ nl +:+ nl +:+ "✅ Accepted by <@U2>")) true)
      (trace (after "M1"))
  ∧ In (Called (MessageEdit "M2" ("Request" +:+ nl +:+ nl +:+ "✅ Accepted by <@U2>")) true)
      (trace (after "M2")).
Proof. vm_compute. repeat split; tauto. Qed.

(** * Further properties of the handlers *)

(** ** Relations kept along a run *)
Section Invariant.
Context (R : World → World → Prop) `{!Reflexive R, !Transitive R}.

Lemma invariant_ret {A} (a : A) : invariant R (ret a).
Proof. intros w. reflexivity. Qed.

Lemma invariant_throw {A} (e : exn) : invariant R (@throw A e).
Proof. intros w. reflexivity. Qed.

Lemma invariant_try_else {A B} (m : M A) (h : exn → M B) (k : A → M B) :
  invariant R m → (∀ e, invariant R (h e)) → (∀ a, invariant R (k a)) →
  invariant R (try_else m h k).
Proof.
  intros Hm Hh Hk w. unfold try_else. specialize (Hm w).
  destruct (m w) as [[a|e] w1]; cbn in Hm.
  - by etrans; [|apply Hk].
  - by etrans; [|apply Hh].
Qed.

Lemma invariant_bind {A B} (m : M A) (k : A → M B) :
  invariant R m → (∀ a, invariant R (k a)) → invariant R (bind m k).
Proof.
  intros Hm Hk. apply (invariant_try_else m (fun e => throw e) k); [done| |done].
  intros e. apply invariant_throw.
Qed.

Lemma invariant_try_catch {A} (m : M A) (h : exn → M A) :
  invariant R m → (∀ e, invariant R (h e)) → invariant R (try_catch m h).
Proof.
  intros Hm Hh. apply (invariant_try_else m h (fun a => ret a)); [done..|].
  intros a. apply invariant_ret.
Qed.

Lemma invariant_console_error line :
  (∀ w, R w (record (ConsoleError line) w)) → invariant R (console_error line).
Proof. intros H w. apply H. Qed.

Lemma invariant_console_warn line :
  (∀ w, R w (record (ConsoleWarn line) w)) → invariant R (console_warn line).
Proof. intros H w. apply H. Qed.

Lemma invariant_platform {A} c (answer : World → Result A) update :
  (∀ b w, R w (record (Called c b) w)) → (∀ w, R w (update w)) →
  invariant R (platform c answer update).
Proof.
  intros Hr Hu w. unfold platform.
  destruct (refuses w c); [apply Hr|].
  destruct (answer w); cbn; [|apply Hr].
  by etrans; [apply Hr|apply Hu].
Qed.

Lemma invariant_clock : invariant R ClanJoinRequest.clock.
Proof. intros w. reflexivity. Qed.

Lemma invariant_load_clans : invariant R load_clans.
Proof.
  intros w. unfold load_clans.
  destruct (loadClanConfig (configFile w)); reflexivity.
Qed.

End Invariant.

#[global] Instance same_env_refl : Reflexive same_env.
Proof. by intros w. Qed.

#[global] Instance same_env_trans : Transitive same_env.
Proof. intros w1 w2 w3 (?&?&?&?) (?&?&?&?). repeat split; congruence. Qed.

Lemma same_env_record e w : same_env w (record e w).
Proof. done. Qed.

Lemma same_env_set_members m w : same_env w (set_members m w).
Proof. done. Qed.

#[global] Instance same_roles_refl : Reflexive same_roles.
Proof. by intros w. Qed.

#[global] Instance same_roles_trans : Transitive same_roles.
Proof. intros w1 w2 w3 H12 H23. unfold same_roles in *. congruence. Qed.

Lemma same_roles_record e w : same_roles w (record e w).
Proof. done. Qed.

#[global] Instance logs_refl P : Reflexive (logs P).
Proof. intros w. exists []. by rewrite app_nil_r. Qed.

#[global] Instance logs_trans P : Transitive (logs P).
Proof.
  intros w1 w2 w3 (evs & Ht & Hp) (evs' & Ht' & Hp'). exists (evs ++ evs').
  by rewrite Ht', Ht, app_assoc, forallb_app, Hp, Hp'.
Qed.

Lemma logs_record (P : event → bool) e w : P e = true → logs P w (record e w).
Proof. intros H. exists [e]. cbn. by rewrite H. Qed.

Lemma logs_set_members P m w : logs P w (set_members m w).
Proof. exists []. cbn. by rewrite app_nil_r. Qed.

#[global] Instance only_gains_refl user : Reflexive (only_gains user).
Proof. intros w u. split; [done|]. intros rs ?. by exists rs. Qed.

#[global] Instance only_gains_trans user : Transitive (only_gains user).
Proof.
  intros w1 w2 w3 H12 H23 u. destruct (H12 u) as [Ha Hb], (H23 u) as [Hc Hd].
  split.
  - intros Hn. by rewrite Hc, Ha.
  - intros rs Hrs. destruct (Hb rs Hrs) as (rs' & Hrs' & Hsub).
    destruct (Hd rs' Hrs') as (rs'' & Hrs'' & Hsub').
    exists rs''. split; [done|]. set_solver.
Qed.

Lemma only_gains_record user e w : only_gains user w (record e w).
Proof. intros u. split; [done|]. intros rs ?. by exists rs. Qed.

Lemma only_gains_add user role w :
  only_gains user w
    (set_members (alter (fun roles => roles ∪ {[role]}) user (guildMembers w)) w).
Proof.
  intros u. cbn. split.
  - intros Hn. by rewrite lookup_alter_ne.
  - intros rs Hrs. destruct (decide (user = u)) as [->|Hn].
    + rewrite lookup_alter_eq, Hrs. cbn. eexists. split; [done|]. set_solver.
    + rewrite lookup_alter_ne by done. by exists rs.
Qed.

(** Walks a handler along its binds, tries and branches. *)
Ltac walk :=
  repeat (intros;
    lazymatch goal with
    | |- invariant _ (bind _ _) => apply invariant_bind
    | |- invariant _ (try_catch _ _) => apply invariant_try_catch
    | |- invariant _ (try_else _ _ _) => apply invariant_try_else
    | |- invariant _ (ret _) => apply invariant_ret
    | |- invariant _ (throw _) => apply invariant_throw
    | |- invariant _ load_clans => apply invariant_load_clans
    | |- invariant _ ClanJoinRequest.clock => apply invariant_clock
    | |- invariant _ (console_error _) => apply invariant_console_error
    | |- invariant _ (console_warn _) => apply invariant_console_warn
    | |- invariant _ (platform _ _ _) => apply invariant_platform
    | |- invariant _ (if ?b then _ else _) => destruct b
    | |- invariant _ (match ?x with _ => _ end) => destruct x
    end);
  intros.

(** ** The decision buttons, on every input *)
Section DecisionInvariants.
Import ClanRequestButton.
Context (R : World → World → Prop) `{!Reflexive R, !Transitive R}.
Context (i : ButtonInteraction).
Context (Hlog : ∀ e w, no_role_call e = true → R w (record e w)).

Lemma invariant_conclude userId action clan :
  invariant R (conclude i userId action clan).
Proof.
  unfold conclude, reply, message_edit, create_dm, dm_send.
  walk; first [exact _ | reflexivity | by apply Hlog].
Qed.

Lemma invariant_unexpected e : invariant R (unexpected e).
Proof.
  unfold unexpected, reply. walk; first [exact _ | reflexivity | by apply Hlog].
Qed.

Context (userId : string).
Context (Hadd : ∀ role w,
  R w (set_members (alter (fun roles => roles ∪ {[role]}) userId (guildMembers w)) w)).
Context (Hany : ∀ b role w, R w (record (Called (RolesAdd userId role) b) w)).

Lemma invariant_verify_approver action clan :
  invariant R (verify_approver i userId action clan).
Proof.
  unfold verify_approver, get_requesting_user, handle_request,
    members_fetch, roles_add, reply.
  walk; first [exact _ | reflexivity | by apply Hlog | apply Hadd | apply Hany
              | apply invariant_conclude; by auto].
Qed.

End DecisionInvariants.

(** A relation that the console lines, the answers and the calls that
    change no role keep, and that adding a role to the user of the token
    keeps, is kept by the handler on every click. *)
Lemma invariant_decision (R : World → World → Prop) `{!Reflexive R, !Transitive R}
    (i : ButtonInteraction) :
  (∀ e w, no_role_call e = true → R w (record e w)) →
  (∀ b role w,
     R w (record (Called (RolesAdd (default "" (split ":" (customId i) !! 1%nat)) role) b) w)) →
  (∀ role w,
     R w (set_members
            (alter (fun roles => roles ∪ {[role]})
               (default "" (split ":" (customId i) !! 1%nat)) (guildMembers w)) w)) →
  invariant R (ClanRequestButton.execute (ButtonClick i)).
Proof.
  intros Hlog Hany Hadd. unfold ClanRequestButton.execute.
  destruct (negb _); [apply invariant_ret; done|].
  apply invariant_try_catch; [done..| |intros e; by apply invariant_unexpected].
  unfold ClanRequestButton.handle, reply.
  walk; first [exact _ | reflexivity | by apply Hlog | by apply invariant_verify_approver].
Qed.

(** X1. Whatever the click and the world, the handler of the decision
    buttons only reads the environment (configuration, clock, channels),
    never removes a role, and changes the roles of nobody but the user
    the second field of the token names; that user can only gain roles. *)
Theorem decision_only_adds_to_requester (i : ButtonInteraction) (w : World) :
  let w' := (ClanRequestButton.execute (ButtonClick i) w).2 in
  same_env w w'
  ∧ only_gains (default "" (split ":" (customId i) !! 1%nat)) w w'
  ∧ logs no_role_removed w w'.
Proof.
  split; [|split].
  - apply (invariant_decision same_env); by intros.
  - apply (invariant_decision (only_gains _)); intros.
    + apply only_gains_record.
    + apply only_gains_record.
    + apply only_gains_add.
  - apply (invariant_decision (logs no_role_removed)); intros.
    + apply logs_record. by destruct e as [[] ?| |].
    + by apply logs_record.
    + apply logs_set_members.
Qed.

(** X2. A well formed token whose clan is not in the configuration (any
    more): the handler writes the identifier to the console, answers that
    the clan configuration was not found, and adds answers and console
    lines only: nobody is fetched, no role is changed, no message is
    edited. *)
Theorem unknown_clan_rejected w i userId clanId action config :
  well_formed_token (customId i) userId clanId action →
  loadClanConfig (configFile w) = Ok config →
  find_clan (clans_of config) clanId = None →
  let w' := (ClanRequestButton.execute (ButtonClick i) w).2 in
  guildMembers w' = guildMembers w
  ∧ ∃ evs,
      trace w'
      = trace w
          ++ [ConsoleError ("No clan found with ID: " +:+ clanId);
              attempted w (Reply ClanRequestButton.ClanNotFound true)]
          ++ evs
      ∧ forallb reply_or_log evs = true.
Proof.
  intros (Hs & Hu & Hc & Ha) Hl Hf. unfold ClanRequestButton.execute.
  rewrite (split_cons_startsWith _ _ Hs); [|done]. cbn [negb].
  unfold ClanRequestButton.handle. rewrite Hs. cbn [lookup list_lookup].
  rewrite !truthy_field_Some by done. cbn [negb orb default id].
  unfold try_catch, bind. rewrite (load_clans_ok _ _ Hl), Hf.
  destruct w as [cf nw gm ch rf tr].
  cbv [ClanRequestButton.unexpected]. run_handler.
  destruct (rf (Reply ClanRequestButton.ClanNotFound true)) eqn:E1.
  - destruct (rf (Reply ClanRequestButton.UnexpectedError true)); close_run.
  - close_run.
Qed.

(** The scenario: a button for the clan [beta], which is not configured. *)
Lemma unknown_clan_rejected_witness :
  let w := Scenario.world Scenario.nothing in
  let i := Scenario.click "cr:U1:beta:a" "U2" "M1" ∅ in
  let w' := (ClanRequestButton.execute (ButtonClick i) w).2 in
  guildMembers w' = guildMembers w
  ∧ ∃ evs,
      trace w'
      = [ConsoleError "No clan found with ID: beta";
         Called (Reply "Clan configuration not found." true) true] ++ evs
      ∧ forallb reply_or_log evs = true.
Proof.
  apply (unknown_clan_rejected (Scenario.world Scenario.nothing)
           (Scenario.click "cr:U1:beta:a" "U2" "M1" ∅) "U1" "beta" "a"
           (JObj [("clans", JArr [Scenario.alpha])])); settle.
Defined.

(** X3. A pending request clicked by an approver, when the requesting
    user is no longer a member of the guild: the fetch of the user fails,
    the responder is answered that the user was not found, and the
    handler adds answers and console lines only: no role call is made and
    the message is not edited. *)
Theorem missing_requester_rejected w i userId action clan :
  pending w i userId action clan → authorized w i clan →
  guildMembers w !! userId = None →
  let w' := (ClanRequestButton.execute (ButtonClick i) w).2 in
  guildMembers w' = guildMembers w
  ∧ ∃ evs,
      trace w'
      = trace w
          ++ [Called (MembersFetch (user_id i)) true;
              Called (MembersFetch userId) false;
              ConsoleError "Failed to fetch requesting user:";
              attempted w (Reply ClanRequestButton.UserNotFound true)]
          ++ evs
      ∧ forallb reply_or_log evs = true.
Proof.
  intros Hp (ar & Har & Hin) Hnone. rewrite (execute_pending _ _ _ _ _ Hp).
  unfold try_catch, ClanRequestButton.verify_approver, try_else.
  rewrite (members_fetch_ok _ _ _ Har), (bool_decide_eq_true_2 _ Hin). cbn [negb].
  unfold ClanRequestButton.get_requesting_user, try_else, members_fetch, platform.
  destruct w as [cf nw gm ch rf tr]. cbn in Hnone.
  cbv [ClanRequestButton.unexpected]. run_handler. rewrite Hnone.
  destruct (rf (MembersFetch userId));
    (destruct (rf (Reply ClanRequestButton.UserNotFound true)) eqn:E1;
     [destruct (rf (Reply ClanRequestButton.UnexpectedError true))|]); close_run.
Qed.

(** The scenario: a request of [U9], who is not in the guild. *)
Lemma missing_requester_rejected_witness :
  let w := Scenario.world Scenario.nothing in
  let i := Scenario.click "cr:U9:alpha:a" "U2" "M1" ∅ in
  let w' := (ClanRequestButton.execute (ButtonClick i) w).2 in
  guildMembers w' = guildMembers w
  ∧ ∃ evs,
      trace w'
      = [Called (MembersFetch "U2") true;
         Called (MembersFetch "U9") false;
         ConsoleError "Failed to fetch requesting user:";
         Called (Reply "Requesting user not found. They may have left the server." true)
           true] ++ evs
      ∧ forallb reply_or_log evs = true.
Proof.
  apply (missing_requester_rejected (Scenario.world Scenario.nothing)
           (Scenario.click "cr:U9:alpha:a" "U2" "M1" ∅) "U9" "a" Scenario.clan); settle.
Defined.

(** X4. A click on a decision button with the three fields, when the
    configuration cannot be loaded: the handler makes no call but the
    error answer of its outer [catch]; that answer is not guarded, so the
    handler itself throws exactly when the platform rejects it. *)
Theorem config_failure_answered w i e :
  startsWith (customId i) "cr:" = true →
  (let fields := split ":" (customId i) in
   truthy_field (fields !! 1%nat) && truthy_field (fields !! 2%nat)
     && truthy_field (fields !! 3%nat) = true) →
  loadClanConfig (configFile w) = Throw e →
  let r := ClanRequestButton.execute (ButtonClick i) w in
  guildMembers r.2 = guildMembers w
  ∧ trace r.2
    = trace w
        ++ [ConsoleError "Unexpected error handling clan request button:";
            attempted w (Reply ClanRequestButton.UnexpectedError true)]
  ∧ (r.1 = Ok tt ↔ refuses w (Reply ClanRequestButton.UnexpectedError true) = false).
Proof.
  intros Hs Hf Hl. unfold ClanRequestButton.execute. rewrite Hs. cbn [negb].
  unfold ClanRequestButton.handle. cbn zeta in Hf.
  destruct (truthy_field (split ":" (customId i) !! 1%nat)); [|done].
  destruct (truthy_field (split ":" (customId i) !! 2%nat)); [|done].
  destruct (truthy_field (split ":" (customId i) !! 3%nat)); [|done].
  cbn [negb orb]. unfold try_catch, bind, load_clans. rewrite Hl.
  destruct w as [cf nw gm ch rf tr].
  cbv [ClanRequestButton.unexpected]. run_handler.
  destruct (rf (Reply ClanRequestButton.UnexpectedError true)); cbn;
    (split; [done|]); (split; [by rewrite <- ?app_assoc|]); by split.
Qed.

(** The scenario with no configuration file, and a platform that rejects
    every answer: the handler throws. *)
Lemma config_failure_answered_witness :
  let w :=
    {| configFile := FileMissing; now := 0; guildMembers := ∅; channels := ∅;
       refuses := fun c => match c with Reply _ _ => true | _ => false end;
       trace := [] |} in
  let r := ClanRequestButton.execute
             (ButtonClick (Scenario.click "cr:U1:alpha:a" "U2" "M1" ∅)) w in
  trace r.2
  = [ConsoleError "Unexpected error handling clan request button:";
     Called (Reply "There was an error processing this request. Please try again later."
               true) false]
  ∧ r.1 ≠ Ok tt.
Proof.
  destruct (config_failure_answered
              {| configFile := FileMissing; now := 0; guildMembers := ∅; channels := ∅;
                 refuses := fun c => match c with Reply _ _ => true | _ => false end;
                 trace := [] |}
              (Scenario.click "cr:U1:alpha:a" "U2" "M1" ∅)
              (Error "Clan configuration file not found. Please create config/clans.json"))
    as (_ & Ht & Hr); [settle..|].
  split; [exact Ht|]. intros Hok. apply Hr in Hok. discriminate Hok.
Defined.

(** An approve that the platform lets through entirely, step by step. *)
Lemma approve_unhindered w i userId clan :
  pending w i userId "a" clan → authorized w i clan → present w userId →
  (∀ c, refuses w c = false) →
  let w' := (ClanRequestButton.execute (ButtonClick i) w).2 in
  guildMembers w'
  = alter (fun roles => roles ∪ {[Clan.roleId clan]}) userId (guildMembers w)
  ∧ trace w'
    = trace w
        ++ [Called (MembersFetch (user_id i)) true;
            Called (MembersFetch userId) true;
            Called (RolesAdd userId (Clan.roleId clan)) true;
            Called (Reply (ClanRequestButton.confirmation "a" userId clan) true) true;
            Called (MessageEdit (message_id i) (ClanRequestButton.resolution "a" i)) true;
            Called (CreateDM userId) true;
            Called (DMSend userId (ClanRequestButton.notificationContent "a" clan i)) true]
  ∧ same_env w w'.
Proof.
  intros Hp Ha Hr Hall. rewrite (execute_approved _ _ _ _ Hp Ha Hr (Hall _)).
  destruct w as [cf nw gm ch rf tr]. cbn in Hall.
  cbv [ClanRequestButton.conclude ClanRequestButton.unexpected message_edit
       create_dm dm_send fetched granted set_members].
  run_handler. rewrite !Hall. cbn. split; [done|]. split; [|done].
  by rewrite <- !app_assoc.
Qed.

(** X5. Nothing guards a request against a second resolution.  When the
    platform rejects nothing, a second click on the approve button is
    handled like the first: the role is added again, which leaves the
    roles as the first click left them (the requesting user has the
    member role on top of the roles they had, everybody else has the
    roles they had), and the message is edited and the user notified a
    second time. *)
Theorem second_approval_repeats w i userId clan :
  pending w i userId "a" clan → authorized w i clan → present w userId →
  (∀ c, refuses w c = false) →
  let w1 := (ClanRequestButton.execute (ButtonClick i) w).2 in
  let w2 := (ClanRequestButton.execute (ButtonClick i) w1).2 in
  let calls :=
    [Called (MembersFetch (user_id i)) true;
     Called (MembersFetch userId) true;
     Called (RolesAdd userId (Clan.roleId clan)) true;
     Called (Reply (ClanRequestButton.confirmation "a" userId clan) true) true;
     Called (MessageEdit (message_id i) (ClanRequestButton.resolution "a" i)) true;
     Called (CreateDM userId) true;
     Called (DMSend userId (ClanRequestButton.notificationContent "a" clan i)) true] in
  guildMembers w1
  = alter (fun roles => roles ∪ {[Clan.roleId clan]}) userId (guildMembers w)
  ∧ guildMembers w2 = guildMembers w1
  ∧ trace w1 = trace w ++ calls
  ∧ trace w2 = trace w1 ++ calls.
Proof.
  intros Hp Ha Hr Hall w1 w2 calls.
  destruct (approve_unhindered w i userId clan Hp Ha Hr Hall)
    as (Hg1 & Ht1 & Hc1 & _ & _ & Hr1).
  fold w1 in Hg1, Ht1, Hc1, Hr1.
  assert (Hp1 : pending w1 i userId "a" clan).
  { destruct Hp as (clanId & Hwf & (config & Hl & Hf) & Hg).
    exists clanId. split; [done|]. split; [|done].
    exists config. by rewrite Hc1. }
  assert (Hfetch : ∀ u rs, fetches w u rs →
            ∃ rs', fetches w1 u rs' ∧ rs ⊆ rs').
  { intros u rs [Hru Hrs]. destruct (decide (userId = u)) as [->|Hn].
    - exists (rs ∪ {[Clan.roleId clan]}). split; [|set_solver].
      split; [by rewrite Hr1|]. by rewrite Hg1, lookup_alter_eq, Hrs.
    - exists rs. split; [|done].
      split; [by rewrite Hr1|]. by rewrite Hg1, lookup_alter_ne. }
  assert (Ha1 : authorized w1 i clan).
  { destruct Ha as (ar & Har & Hin). destruct (Hfetch _ _ Har) as (ar' & Har' & Hsub).
    exists ar'. split; [done|]. set_solver. }
  assert (Hr1' : present w1 userId).
  { destruct Hr as (rr & Hrr). destruct (Hfetch _ _ Hrr) as (rr' & Hrr' & _).
    by exists rr'. }
  assert (Hall1 : ∀ c, refuses w1 c = false) by (intros c; by rewrite Hr1).
  destruct (approve_unhindered w1 i userId clan Hp1 Ha1 Hr1' Hall1) as (Hg2 & Ht2 & _).
  fold w2 in Hg2, Ht2.
  split; [done|]. split; [|by split].
  rewrite Hg2, Hg1. apply map_eq. intros u.
  destruct (decide (userId = u)) as [->|Hn].
  - rewrite !lookup_alter_eq. destruct (guildMembers w !! u) as [rs|]; [|done].
    cbn. f_equal. set_solver.
  - by rewrite !lookup_alter_ne.
Qed.

(** The scenario: [U2] clicks the approve button of [U1] twice. *)
Lemma second_approval_repeats_witness :
  let w := Scenario.world Scenario.nothing in
  let i := Scenario.click "cr:U1:alpha:a" "U2" "M1" ∅ in
  let w1 := (ClanRequestButton.execute (ButtonClick i) w).2 in
  let w2 := (ClanRequestButton.execute (ButtonClick i) w1).2 in
  guildMembers w2 = guildMembers w1
  ∧ holds w2 "U1" "R1" = true
  ∧ length (trace w2) = 14%nat.
Proof.
  destruct (second_approval_repeats (Scenario.world Scenario.nothing)
              (Scenario.click "cr:U1:alpha:a" "U2" "M1" ∅) "U1" Scenario.clan)
    as (_ & Hg & _ & _); [settle..|].
  split; [exact Hg|]. split; vm_compute; reflexivity.
Defined.

(** ** Tokens *)

Lemma split_colon_free (s : string) : colon_free s = true → split ":" s = [s].
Proof.
  induction s as [|c s IH]; [done|]. cbn [colon_free split].
  intros [Hc Hs]%andb_true_iff. apply negb_true_iff in Hc. rewrite Hc.
  by rewrite (IH Hs).
Qed.

(** A field without colon, a colon, and the rest: the split gives the
    field back and goes on with the rest. *)
Lemma split_field (u rest : string) :
  colon_free u = true → split ":" (u +:+ ":" +:+ rest) = u :: split ":" rest.
Proof.
  induction u as [|c u IH]; [done|]. cbn [colon_free].
  intros [Hc Hs]%andb_true_iff. apply negb_true_iff in Hc.
  change (String c u +:+ ":" +:+ rest) with (String c (u +:+ ":" +:+ rest)).
  cbn [split]. rewrite Hc. by rewrite (IH Hs).
Qed.

(** X6. The token round trip: when the identifiers of the user and of
    the clan hold no colon, the tokens of the two buttons of a join
    request split back into the tag [cr], the user, the clan and the
    action. *)
Theorem buttons_round_trip (i : CommandInteraction) (clan : Clan.t) :
  colon_free (cmd_user_id i) = true → colon_free (Clan.id clan) = true →
  map (fun b => split ":" (button_customId b)) (ClanJoinRequest.buttons i clan)
  = [["cr"; cmd_user_id i; Clan.id clan; "a"];
     ["cr"; cmd_user_id i; Clan.id clan; "d"]].
Proof.
  intros Hu Hc. unfold ClanJoinRequest.buttons. cbn [map button_customId].
  change ("cr:" +:+ ?x) with ("cr" +:+ ":" +:+ x).
  change (Clan.id clan +:+ ":a") with (Clan.id clan +:+ ":" +:+ "a").
  change (Clan.id clan +:+ ":d") with (Clan.id clan +:+ ":" +:+ "d").
  rewrite !(split_field "cr") by done.
  rewrite !(split_field (cmd_user_id i)) by done.
  by rewrite !(split_field (Clan.id clan)) by done.
Qed.

(** The scenario: the buttons of the request of [U1] for [alpha]. *)
Lemma buttons_round_trip_witness :
  map (fun b => split ":" (button_customId b))
    (ClanJoinRequest.buttons (Scenario.command "U1" ∅ "") Scenario.clan)
  = [["cr"; "U1"; "alpha"; "a"]; ["cr"; "U1"; "alpha"; "d"]].
Proof.
  apply (buttons_round_trip (Scenario.command "U1" ∅ "") Scenario.clan); settle.
Defined.

(** ** The join request, on every input *)

(** Decides the answers that remain in a run, and closes it with [fin]. *)
Ltac answers fin :=
  cbn;
  repeat match goal with
         | H : ?f (Reply ?c ?e) = _ |- context [?f (Reply ?c ?e)] => rewrite H; cbn
         end;
  first
    [ match goal with
      | |- context [?f (Reply ?c ?e)] =>
          is_var f; destruct (f (Reply c e)) eqn:?; answers fin
      end
    | fin ].

(** X7. Whatever the command and the world, a join request changes no
    role, makes no other call than answers, the fetch of a channel and
    messages to a channel, and posts at most one message. *)
Theorem join_request_posts_at_most_once (i : CommandInteraction) (w : World) :
  let w' := (ClanJoinRequest.execute i w).2 in
  guildMembers w' = guildMembers w
  ∧ ∃ evs, trace w' = trace w ++ evs
      ∧ forallb answers_or_posts evs = true
      ∧ (length (List.filter is_send evs) ≤ 1)%nat.
Proof.
  destruct w as [cf nw gm ch rf tr].
  cbv [ClanJoinRequest.execute ClanJoinRequest.fetch_text_channel ClanJoinRequest.clock
       channels_fetch channel_send load_clans throw].
  run_handler.
  destruct (loadClanConfig cf) as [config|e]; cbn -[built];
    [destruct (find_clan (clans_of config) (option_clan i)) as [clan|]; cbn -[built];
     [destruct (cmd_member_roles i) as [roles|]; cbn -[built];
      [destruct (bool_decide (Clan.roleId clan ∈ roles)); cbn -[built];
       [|destruct (cmd_guild i); cbn -[built];
         [destruct (rf (ChannelsFetch (Clan.approvalChannelId clan))); cbn -[built];
          [|destruct (ch !! Clan.approvalChannelId clan) as [[]|]; cbn -[built];
            [rewrite built_buttons; destruct (within 1 100 _); cbn;
             [destruct (rf (ChannelSend (Clan.approvalChannelId clan)
                              (ClanJoinRequest.request i clan nw)
                              (ClanJoinRequest.buttons i clan))); cbn|]|..]]|]]|]|]|].
  all: answers ltac:(split; [done|]; eexists; split; [by rewrite <- ?app_assoc|];
                     cbn; split; [done|lia]).
Qed.

(** X8. A join request for a clan that the configuration does not hold
    is answered, in public, that the clan is invalid; the handler adds
    answers and console lines only, so nothing is posted. *)
Theorem invalid_clan_answered w i config :
  loadClanConfig (configFile w) = Ok config →
  find_clan (clans_of config) (option_clan i) = None →
  let w' := (ClanJoinRequest.execute i w).2 in
  guildMembers w' = guildMembers w
  ∧ ∃ evs,
      trace w' = trace w ++ [attempted w (Reply ClanJoinRequest.InvalidClan false)] ++ evs
      ∧ forallb reply_or_log evs = true.
Proof.
  intros Hl Hf. unfold ClanJoinRequest.execute, try_catch, bind.
  rewrite (load_clans_ok _ _ Hl), Hf.
  destruct w as [cf nw gm ch rf tr]. run_handler.
  destruct (rf (Reply ClanJoinRequest.InvalidClan false)) eqn:E1.
  - destruct (rf (Reply ClanJoinRequest.Failed false)); close_run.
  - close_run.
Qed.

(** The scenario: a request for the clan [beta]. *)
Lemma invalid_clan_answered_witness :
  let w := Scenario.world Scenario.nothing in
  let i := {| cmd_user_id := "U1"; cmd_member_roles := Some ∅; cmd_guild := true;
              option_clan := "beta"; option_ign := "Hero123"; option_user := "" |} in
  let w' := (ClanJoinRequest.execute i w).2 in
  guildMembers w' = guildMembers w
  ∧ ∃ evs,
      trace w' = [Called (Reply "❌ Invalid clan selected." false) true] ++ evs
      ∧ forallb reply_or_log evs = true.
Proof.
  apply (invalid_clan_answered (Scenario.world Scenario.nothing)
           {| cmd_user_id := "U1"; cmd_member_roles := Some ∅; cmd_guild := true;
              option_clan := "beta"; option_ign := "Hero123"; option_user := "" |}
           (JObj [("clans", JArr [Scenario.alpha])])); settle.
Defined.

(** X9. A join request of a user without the member role, when the
    approval channel cannot be used, posts nothing.  Outside a guild, or
    when the channel is not a text channel, the requester is answered
    that the approval channel could not be found; when the fetch of the
    channel fails, the failure is logged and the requester is answered
    that the request failed.  In each case the handler adds, after the
    fetch, answers and console lines only. *)
Theorem unusable_channel_answered w i clan roles :
  configured w (option_clan i) clan →
  cmd_member_roles i = Some roles →
  Clan.roleId clan ∉ roles →
  let w' := (ClanJoinRequest.execute i w).2 in
  let channel := Clan.approvalChannelId clan in
  (cmd_guild i = false →
   ∃ evs,
     trace w'
     = trace w ++ [attempted w (Reply ClanJoinRequest.ChannelUnavailable false)] ++ evs
     ∧ forallb reply_or_log evs = true)
  ∧ (cmd_guild i = true → refuses w (ChannelsFetch channel) = false →
     channels w !! channel = Some false →
     ∃ evs,
       trace w'
       = trace w
           ++ [Called (ChannelsFetch channel) true;
               attempted w (Reply ClanJoinRequest.ChannelUnavailable false)]
           ++ evs
       ∧ forallb reply_or_log evs = true)
  ∧ (cmd_guild i = true →
     refuses w (ChannelsFetch channel) = true ∨ channels w !! channel = None →
     ∃ evs,
       trace w'
       = trace w
           ++ [Called (ChannelsFetch channel) false;
               ConsoleError "Error processing clan join request:";
               attempted w (Reply ClanJoinRequest.Failed false)]
           ++ evs
       ∧ forallb reply_or_log evs = true).
Proof.
  intros (config & Hl & Hf) Hm Hn w' channel. subst w' channel.
  unfold ClanJoinRequest.execute, try_catch, bind.
  rewrite (load_clans_ok _ _ Hl), Hf, Hm, (bool_decide_eq_false_2 _ Hn).
  destruct w as [cf nw gm ch rf tr].
  cbv [ClanJoinRequest.fetch_text_channel channels_fetch]. run_handler.
  split; [|split].
  - intros ->.
    answers ltac:(eexists; split; [by rewrite <- ?app_assoc|done]).
  - intros -> -> ->.
    answers ltac:(eexists; split; [by rewrite <- ?app_assoc|done]).
  - intros -> [->| ->].
    + answers ltac:(eexists; split; [by rewrite <- ?app_assoc|done]).
    + destruct (rf (ChannelsFetch (Clan.approvalChannelId clan)));
        answers ltac:(eexists; split; [by rewrite <- ?app_assoc|done]).
Qed.

(** The scenario, where the channel [C1] is a voice channel, and where
    there is no channel [C1]. *)
Lemma unusable_channel_answered_witness :
  let voice :=
    {| configFile := configFile (Scenario.world Scenario.nothing); now := 0;
       guildMembers := ∅; channels := {[ "C1" := false ]};
       refuses := Scenario.nothing; trace := [] |} in
  let none :=
    {| configFile := configFile (Scenario.world Scenario.nothing); now := 0;
       guildMembers := ∅; channels := ∅;
       refuses := Scenario.nothing; trace := [] |} in
  let i := Scenario.command "U1" ∅ "" in
  (∃ evs,
     trace (ClanJoinRequest.execute i voice).2
     = [Called (ChannelsFetch "C1") true;
        Called (Reply "❌ Could not find the approval channel. Please contact an administrator."
                  false) true] ++ evs
     ∧ forallb reply_or_log evs = true)
  ∧ (∃ evs,
       trace (ClanJoinRequest.execute i none).2
       = [Called (ChannelsFetch "C1") false;
          ConsoleError "Error processing clan join request:";
          Called (Reply "❌ Failed to process your request. Please try again later." false)
            true] ++ evs
       ∧ forallb reply_or_log evs = true).
Proof.
  split.
  - apply (unusable_channel_answered
             {| configFile := configFile (Scenario.world Scenario.nothing); now := 0;
                guildMembers := ∅; channels := {[ "C1" := false ]};
                refuses := Scenario.nothing; trace := [] |}
             (Scenario.command "U1" ∅ "") Scenario.clan ∅); settle.
  - apply (unusable_channel_answered
             {| configFile := configFile (Scenario.world Scenario.nothing); now := 0;
                guildMembers := ∅; channels := ∅;
                refuses := Scenario.nothing; trace := [] |}
             (Scenario.command "U1" ∅ "") Scenario.clan ∅);
      [settle..|right]; settle.
Defined.

(** A relation that the console lines, the answers, the fetch of a
    channel and the messages to a channel keep is kept by a join
    request. *)
Lemma invariant_join_request (R : World → World → Prop)
    `{!Reflexive R, !Transitive R} (i : CommandInteraction) :
  (∀ e w, answers_or_posts e = true → R w (record e w)) →
  invariant R (ClanJoinRequest.execute i).
Proof.
  intros Hlog.
  unfold ClanJoinRequest.execute, ClanJoinRequest.fetch_text_channel,
    channels_fetch, channel_send, reply.
  walk; first [exact _ | reflexivity | by apply Hlog].
Qed.

(** The clan that an identifier names has that identifier. *)
Lemma find_clan_id (clans : list Clan.t) (clanId : string) (clan : Clan.t) :
  find_clan clans clanId = Some clan → Clan.id clan = clanId.
Proof.
  unfold find_clan. intros H. apply find_some in H as [_ H].
  by apply String.eqb_eq.
Qed.

(** X10. Request, then approval.  When the identifiers of the requester
    and of the clan are not empty and hold no colon, the approve button
    that a join request builds is a pending request in the world the
    join request leaves: clicked in the guild by a member who holds the
    approver role, for a requester who is a member, it gives the
    requester the member role of the clan when the platform accepts the
    role. *)
Theorem approve_button_of_request_grants w i clan click b :
  configured w (option_clan i) clan →
  colon_free (cmd_user_id i) = true → cmd_user_id i ≠ "" →
  colon_free (option_clan i) = true → option_clan i ≠ "" →
  ClanJoinRequest.buttons i clan !! 0%nat = Some b →
  customId click = button_customId b → guild click = true →
  authorized w click clan → present w (cmd_user_id i) →
  refuses w (RolesAdd (cmd_user_id i) (Clan.roleId clan)) = false →
  let w1 := (ClanJoinRequest.execute i w).2 in
  holds (ClanRequestButton.execute (ButtonClick click) w1).2
    (cmd_user_id i) (Clan.roleId clan) = true.
Proof.
  intros (config & Hl & Hf) Hu Hu' Hc Hc' Hb Hid Hg Ha Hr Hacc w1.
  pose proof (find_clan_id _ _ _ Hf) as Hcid.
  destruct (invariant_join_request same_env i (fun e w _ => same_env_record e w) w)
    as (Hcf & _ & _ & Hrf).
  pose proof (invariant_join_request same_roles i (fun e w _ => same_roles_record e w) w)
    as Hgm.
  fold w1 in Hcf, Hrf, Hgm. unfold same_roles in Hgm.
  assert (Hfetch : ∀ u rs, fetches w u rs → fetches w1 u rs).
  { intros u rs [? ?]. split; [by rewrite Hrf|by rewrite Hgm]. }
  assert (Hp1 : pending w1 click (cmd_user_id i) "a" clan).
  { exists (Clan.id clan). split; [|split; [|done]].
    - unfold ClanJoinRequest.buttons in Hb. cbn [lookup list_lookup] in Hb.
      injection Hb as <-. unfold well_formed_token. rewrite Hid. cbn [button_customId].
      change ("cr:" +:+ ?x) with ("cr" +:+ ":" +:+ x).
      change (Clan.id clan +:+ ":a") with (Clan.id clan +:+ ":" +:+ "a").
      rewrite (split_field "cr") by done.
      rewrite (split_field (cmd_user_id i)) by done.
      rewrite (split_field (Clan.id clan)) by (by rewrite Hcid).
      repeat split; try done. by rewrite Hcid.
    - exists config. rewrite Hcf, Hcid. by split. }
  assert (Ha1 : authorized w1 click clan).
  { destruct Ha as (ar & Har & Hin). exists ar. split; [by apply Hfetch|done]. }
  assert (Hr1 : present w1 (cmd_user_id i)).
  { destruct Hr as (rr & Hrr). exists rr. by apply Hfetch. }
  rewrite (execute_approved _ _ _ _ Hp1 Ha1 Hr1) by (by rewrite Hrf).
  destruct Hr1 as (rr & _ & Hrr).
  pose proof (footprint_try_catch _ _ _
    (footprint_conclude click (cmd_user_id i) "a" clan)
    (fun e => footprint_mono _ _ _ reply_or_log_no_role_call (footprint_unexpected e)))
    as Hfoot.
  destruct (Hfoot (granted (fetched w1 click (cmd_user_id i)) (cmd_user_id i)
                     (Clan.roleId clan))) as [Hgr _].
  unfold holds at 1. rewrite Hgr.
  by apply (holds_granted (fetched w1 click (cmd_user_id i)) _ _ rr).
Qed.

(** The scenario of the specification: [U1] requests to join [alpha],
    [U2] clicks the approve button, and [U1] holds [R1]. *)
Lemma approve_button_of_request_grants_witness :
  let w := Scenario.world Scenario.nothing in
  let w1 := (ClanJoinRequest.execute (Scenario.command "U1" ∅ "") w).2 in
  holds w1 "U1" "R1" = false
  ∧ holds (ClanRequestButton.execute
             (ButtonClick (Scenario.click "cr:U1:alpha:a" "U2" "M1" ∅)) w1).2 "U1" "R1"
    = true.
Proof.
  split; [vm_compute; reflexivity|].
  apply (approve_button_of_request_grants (Scenario.world Scenario.nothing)
           (Scenario.command "U1" ∅ "") Scenario.clan
           (Scenario.click "cr:U1:alpha:a" "U2" "M1" ∅)
           {| button_customId := "cr:U1:alpha:a"; button_label := "✅ Approve" |});
    settle.
Defined.

(** ** Direct grant and revoke *)

(** The run of a grant that the platform lets add the role. *)
Lemma grant_run w i clan approver roles :
  cmd_member_roles i = Some approver →
  configured w (option_clan i) clan →
  Clan.approverRoleId clan ∈ approver →
  cmd_guild i = true →
  fetches w (option_user i) roles →
  Clan.roleId clan ∉ roles →
  refuses w (RolesAdd (option_user i) (Clan.roleId clan)) = false →
  let w' := (ClanGrantAccess.execute i w).2 in
  let channel := Clan.approvalChannelId clan in
  let posted := ChannelSend channel (ClanGrantAccess.notice i clan (now w)) [] in
  guildMembers w' = <[option_user i := roles ∪ {[Clan.roleId clan]}]> (guildMembers w)
  ∧ ∃ evs,
      trace w'
      = trace w
          ++ [Called (MembersFetch (option_user i)) true;
              Called (RolesAdd (option_user i) (Clan.roleId clan)) true;
              attempted w (Reply (ClanGrantAccess.Granted (option_user i) clan) true)]
          ++ evs
      ∧ forallb answers_or_posts evs = true
      ∧ (refuses w (Reply (ClanGrantAccess.Granted (option_user i) clan) true) = false →
         channels w !! channel = Some true →
         refuses w (ChannelsFetch channel) = false → refuses w posted = false →
         evs = [Called (ChannelsFetch channel) true; Called posted true]).
Proof.
  intros Hm (config & Hl & Hf) Hap Hg Hfetch Hn Hacc w' channel posted.
  subst w' channel posted.
  pose proof (find_clan_filter (fun c => Clan.approverRoleId c ∈ approver)
                _ _ _ Hf Hap) as Hsel.
  pose proof (find_clan_length _ _ _ Hsel) as Hlen.
  unfold ClanGrantAccess.execute, try_catch, bind.
  rewrite Hm, (load_clans_ok _ _ Hl), Hlen, Hsel.
  unfold ClanGrantAccess.fetch_target, bind. rewrite Hg.
  rewrite (members_fetch_ok _ _ _ Hfetch). cbn [ret].
  rewrite (bool_decide_eq_false_2 _ Hn).
  destruct Hfetch as [_ Hroles].
  destruct w as [cf nw gm ch rf tr]. cbn in Hacc, Hroles.
  cbv [ClanJoinRequest.fetch_text_channel ClanJoinRequest.clock channels_fetch
       channel_send roles_add set_members].
  run_handler. rewrite Hacc, Hroles. cbn.
  assert (Halter : alter (fun rs => rs ∪ {[Clan.roleId clan]}) (option_user i) gm
                   = <[option_user i := roles ∪ {[Clan.roleId clan]}]> gm).
  { apply map_eq. intros u. destruct (decide (option_user i = u)) as [<-|Hne].
    - by rewrite lookup_alter_eq, lookup_insert_eq, Hroles.
    - by rewrite lookup_alter_ne, lookup_insert_ne. }
  rewrite Halter.
  destruct (rf (Reply (ClanGrantAccess.Granted (option_user i) clan) true)) eqn:E1; cbn;
    [|destruct (rf (ChannelsFetch (Clan.approvalChannelId clan))) eqn:E2; cbn;
      [|destruct (ch !! Clan.approvalChannelId clan) as [[]|] eqn:E3; cbn;
        [destruct (rf (ChannelSend (Clan.approvalChannelId clan)
                         (ClanGrantAccess.notice i clan nw) [])) eqn:E4; cbn|..]]].
  all: answers ltac:(split; [done|]; eexists; split; [by rewrite <- ?app_assoc|];
                     cbn; split; [done|]; intros; congruence).
Qed.

(** X11. A grant by a member who holds the approver role of the clan,
    to a member of the guild who does not hold the member role, when the
    platform accepts the role: the target holds the member role on top of
    the roles they had, nobody else is touched, and the responder is
    answered that access was granted.  When that answer is accepted and
    the approval channel is a text channel that the platform lets the
    handler use, the grant is logged there, and nothing else happens. *)
Theorem grant_gives_role w i clan approver roles :
  cmd_member_roles i = Some approver →
  configured w (option_clan i) clan →
  Clan.approverRoleId clan ∈ approver →
  cmd_guild i = true →
  fetches w (option_user i) roles →
  Clan.roleId clan ∉ roles →
  refuses w (RolesAdd (option_user i) (Clan.roleId clan)) = false →
  let w' := (ClanGrantAccess.execute i w).2 in
  let channel := Clan.approvalChannelId clan in
  let posted := ChannelSend channel (ClanGrantAccess.notice i clan (now w)) [] in
  guildMembers w' = <[option_user i := roles ∪ {[Clan.roleId clan]}]> (guildMembers w)
  ∧ ∃ evs,
      trace w'
      = trace w
          ++ [Called (MembersFetch (option_user i)) true;
              Called (RolesAdd (option_user i) (Clan.roleId clan)) true;
              attempted w (Reply (ClanGrantAccess.Granted (option_user i) clan) true)]
          ++ evs
      ∧ forallb answers_or_posts evs = true
      ∧ (refuses w (Reply (ClanGrantAccess.Granted (option_user i) clan) true) = false →
         channels w !! channel = Some true →
         refuses w (ChannelsFetch channel) = false → refuses w posted = false →
         evs = [Called (ChannelsFetch channel) true; Called posted true]).
Proof. apply grant_run. Qed.

(** The scenario: [U2] grants [U1] the access to [alpha]. *)
Lemma grant_gives_role_witness :
  let w := Scenario.world Scenario.nothing in
  let w' := (ClanGrantAccess.execute (Scenario.command "U2" {[ "R2" ]} "U1") w).2 in
  holds w "U1" "R1" = false ∧ holds w' "U1" "R1" = true.
Proof.
  destruct (grant_gives_role (Scenario.world Scenario.nothing)
              (Scenario.command "U2" {[ "R2" ]} "U1") Scenario.clan {[ "R2" ]} ∅)
    as [Hg _]; [settle..|].
  split; [vm_compute; reflexivity|].
  unfold holds. rewrite Hg. vm_compute. reflexivity.
Defined.

(** The run of a revoke that the platform lets remove the role. *)
Lemma revoke_run w i clan approver roles :
  cmd_member_roles i = Some approver →
  configured w (option_clan i) clan →
  Clan.approverRoleId clan ∈ approver →
  cmd_guild i = true →
  fetches w (option_user i) roles →
  Clan.roleId clan ∈ roles →
  refuses w (RolesRemove (option_user i) (Clan.roleId clan)) = false →
  let w' := (ClanRevokeAccess.execute i w).2 in
  let channel := Clan.approvalChannelId clan in
  let posted := ChannelSend channel (ClanRevokeAccess.notice i clan (now w)) [] in
  guildMembers w' = <[option_user i := roles ∖ {[Clan.roleId clan]}]> (guildMembers w)
  ∧ ∃ evs,
      trace w'
      = trace w
          ++ [Called (MembersFetch (option_user i)) true;
              Called (RolesRemove (option_user i) (Clan.roleId clan)) true;
              attempted w (Reply (ClanRevokeAccess.Revoked (option_user i) clan) true)]
          ++ evs
      ∧ forallb answers_or_posts evs = true
      ∧ (refuses w (Reply (ClanRevokeAccess.Revoked (option_user i) clan) true) = false →
         channels w !! channel = Some true →
         refuses w (ChannelsFetch channel) = false → refuses w posted = false →
         evs = [Called (ChannelsFetch channel) true; Called posted true]).
Proof.
  intros Hm (config & Hl & Hf) Hap Hg Hfetch Hin Hacc w' channel posted.
  subst w' channel posted.
  pose proof (find_clan_filter (fun c => Clan.approverRoleId c ∈ approver)
                _ _ _ Hf Hap) as Hsel.
  pose proof (find_clan_length _ _ _ Hsel) as Hlen.
  unfold ClanRevokeAccess.execute, try_catch, bind.
  rewrite Hm, (load_clans_ok _ _ Hl), Hlen, Hsel.
  unfold ClanGrantAccess.fetch_target, bind. rewrite Hg.
  rewrite (members_fetch_ok _ _ _ Hfetch). cbn [ret].
  rewrite (bool_decide_eq_true_2 _ Hin). cbn [negb].
  destruct Hfetch as [_ Hroles].
  destruct w as [cf nw gm ch rf tr]. cbn in Hacc, Hroles.
  cbv [ClanJoinRequest.fetch_text_channel ClanJoinRequest.clock channels_fetch
       channel_send roles_remove set_members].
  run_handler. rewrite Hacc, Hroles. cbn.
  assert (Halter : alter (fun rs => rs ∖ {[Clan.roleId clan]}) (option_user i) gm
                   = <[option_user i := roles ∖ {[Clan.roleId clan]}]> gm).
  { apply map_eq. intros u. destruct (decide (option_user i = u)) as [<-|Hne].
    - by rewrite lookup_alter_eq, lookup_insert_eq, Hroles.
    - by rewrite lookup_alter_ne, lookup_insert_ne. }
  rewrite Halter.
  destruct (rf (Reply (ClanRevokeAccess.Revoked (option_user i) clan) true)) eqn:E1; cbn;
    [|destruct (rf (ChannelsFetch (Clan.approvalChannelId clan))) eqn:E2; cbn;
      [|destruct (ch !! Clan.approvalChannelId clan) as [[]|] eqn:E3; cbn;
        [destruct (rf (ChannelSend (Clan.approvalChannelId clan)
                         (ClanRevokeAccess.notice i clan nw) [])) eqn:E4; cbn|..]]].
  all: answers ltac:(split; [done|]; eexists; split; [by rewrite <- ?app_assoc|];
                     cbn; split; [done|]; intros; congruence).
Qed.

(** X12. A revoke by a member who holds the approver role of the clan,
    from a member of the guild who holds the member role, when the
    platform accepts the removal: the target holds the roles they had
    but the member role, nobody else is touched, and the responder is
    answered that access was revoked.  When that answer is accepted and
    the approval channel can be used, the revoke is logged there, and
    nothing else happens. *)
Theorem revoke_takes_role w i clan approver roles :
  cmd_member_roles i = Some approver →
  configured w (option_clan i) clan →
  Clan.approverRoleId clan ∈ approver →
  cmd_guild i = true →
  fetches w (option_user i) roles →
  Clan.roleId clan ∈ roles →
  refuses w (RolesRemove (option_user i) (Clan.roleId clan)) = false →
  let w' := (ClanRevokeAccess.execute i w).2 in
  let channel := Clan.approvalChannelId clan in
  let posted := ChannelSend channel (ClanRevokeAccess.notice i clan (now w)) [] in
  guildMembers w' = <[option_user i := roles ∖ {[Clan.roleId clan]}]> (guildMembers w)
  ∧ ∃ evs,
      trace w'
      = trace w
          ++ [Called (MembersFetch (option_user i)) true;
              Called (RolesRemove (option_user i) (Clan.roleId clan)) true;
              attempted w (Reply (ClanRevokeAccess.Revoked (option_user i) clan) true)]
          ++ evs
      ∧ forallb answers_or_posts evs = true
      ∧ (refuses w (Reply (ClanRevokeAccess.Revoked (option_user i) clan) true) = false →
         channels w !! channel = Some true →
         refuses w (ChannelsFetch channel) = false → refuses w posted = false →
         evs = [Called (ChannelsFetch channel) true; Called posted true]).
Proof. apply revoke_run. Qed.

(** The scenario, after [U1] was given [R1]: [U2] revokes it. *)
Lemma revoke_takes_role_witness :
  let w := granted (Scenario.world Scenario.nothing) "U1" "R1" in
  let w' := (ClanRevokeAccess.execute (Scenario.command "U2" {[ "R2" ]} "U1") w).2 in
  holds w "U1" "R1" = true ∧ holds w' "U1" "R1" = false.
Proof.
  destruct (revoke_takes_role (granted (Scenario.world Scenario.nothing) "U1" "R1")
              (Scenario.command "U2" {[ "R2" ]} "U1") Scenario.clan {[ "R2" ]} {[ "R1" ]})
    as [Hg _]; [settle..|].
  split; [vm_compute; reflexivity|].
  unfold holds. rewrite Hg. vm_compute. reflexivity.
Defined.

(** No clan of the list with this identifier satisfies the property:
    none is found among those that satisfy it. *)
Lemma find_clan_filter_None (P : Clan.t → Prop) `{!∀ c, Decision (P c)}
    (clans : list Clan.t) (clanId : string) :
  (∀ c, c ∈ clans → Clan.id c = clanId → ¬ P c) →
  find_clan (filter P clans) clanId = None.
Proof.
  intros Hno. induction clans as [|c clans IH]; [done|].
  rewrite filter_cons.
  assert (IH' := IH (fun c' Hc' => Hno c' (list_elem_of_further _ _ _ Hc'))).
  destruct (decide (P c)) as [HP|]; [|done].
  unfold find_clan in *. cbn.
  destruct (String.eqb_spec (Clan.id c) clanId) as [Hid|]; [|done].
  destruct (Hno c (list_elem_of_here _ _) Hid HP).
Qed.

(** X13. A grant or a revoke by a member who, by the roles sent with the
    command, holds the approver role of no configured clan with the
    chosen identifier: nobody is fetched and no role is changed; the
    responder is answered that they need approver permissions, for at
    least one clan when they hold the approver role of none, for this
    clan otherwise. *)
Theorem unauthorized_grant_revoke_rejected w i config approver :
  cmd_member_roles i = Some approver →
  loadClanConfig (configFile w) = Ok config →
  (∀ c, c ∈ clans_of config → Clan.id c = option_clan i →
        Clan.approverRoleId c ∉ approver) →
  let none :=
    forallb (fun c => negb (bool_decide (Clan.approverRoleId c ∈ approver)))
      (clans_of config) in
  (let w' := (ClanGrantAccess.execute i w).2 in
   let answer :=
     if none then ClanGrantAccess.NoApproverRole else ClanGrantAccess.NotApproverOfClan in
   guildMembers w' = guildMembers w
   ∧ ∃ evs, trace w' = trace w ++ [attempted w (Reply answer true)] ++ evs
            ∧ forallb reply_or_log evs = true)
  ∧ (let w' := (ClanRevokeAccess.execute i w).2 in
     let answer :=
       if none then ClanRevokeAccess.NoApproverRole
       else ClanRevokeAccess.NotApproverOfClan in
     guildMembers w' = guildMembers w
     ∧ ∃ evs, trace w' = trace w ++ [attempted w (Reply answer true)] ++ evs
              ∧ forallb reply_or_log evs = true).
Proof.
  intros Hm Hl Hno none.
  pose proof (find_clan_filter_None (fun c => Clan.approverRoleId c ∈ approver)
                (clans_of config) (option_clan i) Hno) as Hsel.
  assert (Hlen : (length (filter (fun c => Clan.approverRoleId c ∈ approver)
                            (clans_of config)) =? 0)%nat = none).
  { subst none. clear. induction (clans_of config) as [|c clans IH]; [done|].
    rewrite filter_cons. cbn [forallb]. destruct (decide _) as [Hin|Hn].
    - by rewrite (bool_decide_eq_true_2 _ Hin).
    - by rewrite (bool_decide_eq_false_2 _ Hn). }
  split.
  - unfold ClanGrantAccess.execute, try_catch, bind.
    rewrite Hm, (load_clans_ok _ _ Hl), Hlen, Hsel.
    destruct w as [cf nw gm ch rf tr]. run_handler.
    destruct none; answers ltac:(split; [done|]; eexists; split;
                                 [by rewrite <- ?app_assoc|done]).
  - unfold ClanRevokeAccess.execute, try_catch, bind.
    rewrite Hm, (load_clans_ok _ _ Hl), Hlen, Hsel.
    destruct w as [cf nw gm ch rf tr]. run_handler.
    destruct none; answers ltac:(split; [done|]; eexists; split;
                                 [by rewrite <- ?app_assoc|done]).
Qed.

(** The scenario: [U3], who holds no role, tries to grant [U1] access. *)
Lemma unauthorized_grant_revoke_rejected_witness :
  let w := Scenario.world Scenario.nothing in
  let w' := (ClanGrantAccess.execute (Scenario.command "U3" ∅ "U1") w).2 in
  guildMembers w' = guildMembers w
  ∧ ∃ evs,
      trace w'
      = [Called (Reply "❌ You must have approver permissions for at least one clan to grant access."
                   true) true] ++ evs
      ∧ forallb reply_or_log evs = true.
Proof.
  refine (proj1 (unauthorized_grant_revoke_rejected (Scenario.world Scenario.nothing)
                   (Scenario.command "U3" ∅ "U1")
                   (JObj [("clans", JArr [Scenario.alpha])]) ∅ _ _ _));
    [settle | settle | intros c Hc Hid; set_solver].
Defined.

(** A grant and a revoke only read the environment. *)
Lemma grant_same_env i : invariant same_env (ClanGrantAccess.execute i).
Proof.
  unfold ClanGrantAccess.execute, ClanGrantAccess.fetch_target,
    ClanJoinRequest.fetch_text_channel, members_fetch, roles_add,
    channels_fetch, channel_send, reply.
  walk; first [exact _ | reflexivity | done].
Qed.

Lemma revoke_same_env i : invariant same_env (ClanRevokeAccess.execute i).
Proof.
  unfold ClanRevokeAccess.execute, ClanGrantAccess.fetch_target,
    ClanJoinRequest.fetch_text_channel, members_fetch, roles_remove,
    channels_fetch, channel_send, reply.
  walk; first [exact _ | reflexivity | done].
Qed.

(** X14. Grant, then revoke.  When the platform accepts the two role
    calls, a revoke after a grant, by the same approver for the same
    target and clan, leaves the roles of every member as they were before
    the grant. *)
Theorem grant_then_revoke_restores w i clan approver roles :
  cmd_member_roles i = Some approver →
  configured w (option_clan i) clan →
  Clan.approverRoleId clan ∈ approver →
  cmd_guild i = true →
  fetches w (option_user i) roles →
  Clan.roleId clan ∉ roles →
  refuses w (RolesAdd (option_user i) (Clan.roleId clan)) = false →
  refuses w (RolesRemove (option_user i) (Clan.roleId clan)) = false →
  let w1 := (ClanGrantAccess.execute i w).2 in
  let w2 := (ClanRevokeAccess.execute i w1).2 in
  holds w1 (option_user i) (Clan.roleId clan) = true
  ∧ guildMembers w2 = guildMembers w.
Proof.
  intros Hm Hc Hap Hg Hfetch Hn Hadd Hrem w1 w2.
  destruct (grant_run w i clan approver roles Hm Hc Hap Hg Hfetch Hn Hadd) as [Hg1 _].
  destruct (grant_same_env i w) as (Hcf & _ & _ & Hrf).
  fold w1 in Hg1, Hcf, Hrf.
  assert (Hc1 : configured w1 (option_clan i) clan).
  { destruct Hc as (config & Hl & Hf). exists config. by rewrite Hcf. }
  assert (Hfetch1 : fetches w1 (option_user i) (roles ∪ {[Clan.roleId clan]})).
  { destruct Hfetch as [? ?]. split; [by rewrite Hrf|].
    by rewrite Hg1, lookup_insert_eq. }
  destruct (revoke_run w1 i clan approver _ Hm Hc1 Hap Hg Hfetch1) as [Hg2 _];
    [set_solver|by rewrite Hrf|].
  fold w2 in Hg2. split.
  - unfold holds. rewrite Hg1, lookup_insert_eq. apply bool_decide_eq_true_2. set_solver.
  - rewrite Hg2, Hg1, insert_insert_eq. destruct Hfetch as [_ Hroles].
    replace ((roles ∪ {[Clan.roleId clan]}) ∖ {[Clan.roleId clan]}) with roles
      by set_solver.
    by apply insert_id.
Qed.

(** The scenario: [U2] grants [U1] the access to [alpha] and revokes it. *)
Lemma grant_then_revoke_restores_witness :
  let w := Scenario.world Scenario.nothing in
  let i := Scenario.command "U2" {[ "R2" ]} "U1" in
  let w1 := (ClanGrantAccess.execute i w).2 in
  let w2 := (ClanRevokeAccess.execute i w1).2 in
  holds w1 "U1" "R1" = true ∧ guildMembers w2 = guildMembers w.
Proof.
  apply (grant_then_revoke_restores (Scenario.world Scenario.nothing)
           (Scenario.command "U2" {[ "R2" ]} "U1") Scenario.clan {[ "R2" ]} ∅); settle.
Defined.

(** X15. When the platform rejects the role call of a grant or of a
    revoke, the roles stay as they were, the failure is logged, the
    responder is answered that the role could not be granted or revoked,
    and after that the handler adds answers and console lines only:
    nothing is logged to the approval channel. *)
Theorem rejected_role_call_answered w i clan approver roles :
  cmd_member_roles i = Some approver →
  configured w (option_clan i) clan →
  Clan.approverRoleId clan ∈ approver →
  cmd_guild i = true →
  fetches w (option_user i) roles →
  (Clan.roleId clan ∉ roles →
   refuses w (RolesAdd (option_user i) (Clan.roleId clan)) = true →
   let w' := (ClanGrantAccess.execute i w).2 in
   guildMembers w' = guildMembers w
   ∧ ∃ evs,
       trace w'
       = trace w
           ++ [Called (MembersFetch (option_user i)) true;
               Called (RolesAdd (option_user i) (Clan.roleId clan)) false;
               ConsoleError "Failed to grant clan role:";
               attempted w (Reply ClanGrantAccess.GrantFailed true)]
           ++ evs
       ∧ forallb reply_or_log evs = true)
  ∧ (Clan.roleId clan ∈ roles →
     refuses w (RolesRemove (option_user i) (Clan.roleId clan)) = true →
     let w' := (ClanRevokeAccess.execute i w).2 in
     guildMembers w' = guildMembers w
     ∧ ∃ evs,
         trace w'
         = trace w
             ++ [Called (MembersFetch (option_user i)) true;
                 Called (RolesRemove (option_user i) (Clan.roleId clan)) false;
                 ConsoleError "Failed to revoke clan role:";
                 attempted w (Reply ClanRevokeAccess.RevokeFailed true)]
             ++ evs
         ∧ forallb reply_or_log evs = true).
Proof.
  intros Hm (config & Hl & Hf) Hap Hg Hfetch.
  pose proof (find_clan_filter (fun c => Clan.approverRoleId c ∈ approver)
                _ _ _ Hf Hap) as Hsel.
  pose proof (find_clan_length _ _ _ Hsel) as Hlen.
  split.
  - intros Hn Hrej w'. subst w'.
    unfold ClanGrantAccess.execute, try_catch, bind.
    rewrite Hm, (load_clans_ok _ _ Hl), Hlen, Hsel.
    unfold ClanGrantAccess.fetch_target, bind. rewrite Hg.
    rewrite (members_fetch_ok _ _ _ Hfetch). cbn [ret].
    rewrite (bool_decide_eq_false_2 _ Hn).
    destruct w as [cf nw gm ch rf tr]. cbn in Hrej.
    cbv [roles_add]. run_handler. rewrite Hrej.
    answers ltac:(split; [done|]; eexists; split; [by rewrite <- ?app_assoc|done]).
  - intros Hin Hrej w'. subst w'.
    unfold ClanRevokeAccess.execute, try_catch, bind.
    rewrite Hm, (load_clans_ok _ _ Hl), Hlen, Hsel.
    unfold ClanGrantAccess.fetch_target, bind. rewrite Hg.
    rewrite (members_fetch_ok _ _ _ Hfetch). cbn [ret].
    rewrite (bool_decide_eq_true_2 _ Hin). cbn [negb].
    destruct w as [cf nw gm ch rf tr]. cbn in Hrej.
    cbv [roles_remove]. run_handler. rewrite Hrej.
    answers ltac:(split; [done|]; eexists; split; [by rewrite <- ?app_assoc|done]).
Qed.

(** The scenario, with a platform that rejects every [roles.add]. *)
Lemma rejected_role_call_answered_witness :
  let w := Scenario.world (fun c => match c with RolesAdd _ _ => true | _ => false end) in
  let w' := (ClanGrantAccess.execute (Scenario.command "U2" {[ "R2" ]} "U1") w).2 in
  guildMembers w' = guildMembers w
  ∧ ∃ evs,
      trace w'
      = [Called (MembersFetch "U1") true;
         Called (RolesAdd "U1" "R1") false;
         ConsoleError "Failed to grant clan role:";
         Called (Reply "❌ Failed to grant clan role. Please check bot permissions and try again."
                   true) true] ++ evs
      ∧ forallb reply_or_log evs = true.
Proof.
  refine (proj1 (rejected_role_call_answered
                   (Scenario.world
                      (fun c => match c with RolesAdd _ _ => true | _ => false end))
                   (Scenario.command "U2" {[ "R2" ]} "U1") Scenario.clan {[ "R2" ]} ∅
                   _ _ _ _ _) _ _); settle.
Defined.

(** Closes [holds w u r = true] for a world whose members are an [alter]
    of a map in which [u] is known. *)
Ltac held :=
  unfold holds; cbn;
  match goal with
  | H : _ !! _ = Some _ |- _ => rewrite lookup_alter_eq, H
  end;
  cbn; apply bool_decide_eq_true_2; set_solver.

(** X16. The answers of a grant and the log to the approval channel sit
    in the [try] of the role call.  When the role was added and the
    responder answered that access was granted, and then the fetch of
    the approval channel fails, the target holds the role and the
    failure is logged and answered as a failure to grant the role. *)
Theorem log_failure_answered_as_grant_failure w i clan approver roles :
  cmd_member_roles i = Some approver →
  configured w (option_clan i) clan →
  Clan.approverRoleId clan ∈ approver →
  cmd_guild i = true →
  fetches w (option_user i) roles →
  Clan.roleId clan ∉ roles →
  refuses w (RolesAdd (option_user i) (Clan.roleId clan)) = false →
  refuses w (Reply (ClanGrantAccess.Granted (option_user i) clan) true) = false →
  refuses w (ChannelsFetch (Clan.approvalChannelId clan)) = true
  ∨ channels w !! Clan.approvalChannelId clan = None →
  let w' := (ClanGrantAccess.execute i w).2 in
  holds w' (option_user i) (Clan.roleId clan) = true
  ∧ ∃ evs,
      trace w'
      = trace w
          ++ [Called (MembersFetch (option_user i)) true;
              Called (RolesAdd (option_user i) (Clan.roleId clan)) true;
              Called (Reply (ClanGrantAccess.Granted (option_user i) clan) true) true;
              Called (ChannelsFetch (Clan.approvalChannelId clan)) false;
              ConsoleError "Failed to grant clan role:";
              attempted w (Reply ClanGrantAccess.GrantFailed true)]
          ++ evs
      ∧ forallb reply_or_log evs = true.
Proof.
  intros Hm (config & Hl & Hf) Hap Hg Hfetch Hn Hacc Hrep Hch w'. subst w'.
  pose proof (find_clan_filter (fun c => Clan.approverRoleId c ∈ approver)
                _ _ _ Hf Hap) as Hsel.
  pose proof (find_clan_length _ _ _ Hsel) as Hlen.
  unfold ClanGrantAccess.execute, try_catch, bind.
  rewrite Hm, (load_clans_ok _ _ Hl), Hlen, Hsel.
  unfold ClanGrantAccess.fetch_target, bind. rewrite Hg.
  rewrite (members_fetch_ok _ _ _ Hfetch). cbn [ret].
  rewrite (bool_decide_eq_false_2 _ Hn).
  destruct Hfetch as [_ Hroles].
  destruct w as [cf nw gm ch rf tr]. cbn in Hacc, Hroles, Hrep, Hch.
  cbv [ClanJoinRequest.fetch_text_channel ClanJoinRequest.clock channels_fetch
       channel_send roles_add set_members].
  run_handler. rewrite Hacc, Hroles. cbn. rewrite Hrep. cbn.
  destruct Hch as [Hch|Hch]; rewrite Hch; cbn.
  - answers ltac:(split; [held|]; eexists; split; [by rewrite <- ?app_assoc|done]).
  - destruct (rf (ChannelsFetch (Clan.approvalChannelId clan)));
      answers ltac:(split; [held|]; eexists; split; [by rewrite <- ?app_assoc|done]).
Qed.

(** The scenario without the channel [C1]. *)
Lemma log_failure_answered_as_grant_failure_witness :
  let w :=
    {| configFile := configFile (Scenario.world Scenario.nothing); now := 0;
       guildMembers := {[ "U1" := ∅ ]}; channels := ∅;
       refuses := Scenario.nothing; trace := [] |} in
  let w' := (ClanGrantAccess.execute (Scenario.command "U2" {[ "R2" ]} "U1") w).2 in
  holds w' "U1" "R1" = true
  ∧ ∃ evs,
      trace w'
      = [Called (MembersFetch "U1") true;
         Called (RolesAdd "U1" "R1") true;
         Called (Reply "✅ Successfully granted Alpha access to <@U1>." true) true;
         Called (ChannelsFetch "C1") false;
         ConsoleError "Failed to grant clan role:";
         Called (Reply "❌ Failed to grant clan role. Please check bot permissions and try again."
                   true) true] ++ evs
      ∧ forallb reply_or_log evs = true.
Proof.
  apply (log_failure_answered_as_grant_failure
           {| configFile := configFile (Scenario.world Scenario.nothing); now := 0;
              guildMembers := {[ "U1" := ∅ ]}; channels := ∅;
              refuses := Scenario.nothing; trace := [] |}
           (Scenario.command "U2" {[ "R2" ]} "U1") Scenario.clan {[ "R2" ]} ∅);
    [settle..|right; settle].
Defined.


(** ** The clan the loader reports *)

Lemma validate_fields_first props index before field after :
  forallb (fun f => truthy (own_property props f)) before = true →
  truthy (own_property props field) = false →
  validate_fields (JObj props) index (before ++ field :: after)
  = Throw (Error ("Invalid configuration: clan at index " +:+ pretty index
                    +:+ " is missing " +:+ field)).
Proof.
  intros Hb Hf. induction before as [|f before IH]; cbn.
  - by rewrite Hf.
  - cbn in Hb. apply andb_true_iff in Hb as [-> Hb]. by apply IH.
Qed.

Lemma validate_clans_first good bad rest index e :
  forallb has_required_fields good = true →
  validate_fields bad (index + length good) requiredFields = Throw e →
  validate_clans (good ++ bad :: rest) index = Throw e.
Proof.
  revert index. induction good as [|clan good IH]; intros index Hg Hb.
  - cbn -[requiredFields] in *. rewrite Nat.add_0_r in Hb. by rewrite Hb.
  - cbn -[requiredFields] in *. apply andb_true_iff in Hg as [Hc Hg].
    pose proof (validate_fields_required clan index) as H. rewrite Hc in H.
    rewrite H. apply IH; [done|]. by rewrite Nat.add_succ_comm.
Qed.

(** X17. The loader reports the first clan that fails the validation and
    the first required field that clan misses: when the clans before it
    have their required fields and the fields before the missing one
    are truthy, the message names the index of the clan and the field. *)
Theorem first_missing_field_named props good bad rest before field after :
  own_property props "clans" = Some (JArr (good ++ JObj bad :: rest)) →
  forallb has_required_fields good = true →
  requiredFields = before ++ field :: after →
  forallb (fun f => truthy (own_property bad f)) before = true →
  truthy (own_property bad field) = false →
  loadClanConfig (FileText (inr (JObj props)))
  = Throw (Error ("Failed to load clan configuration: "
                    +:+ "Invalid configuration: clan at index "
                    +:+ pretty (length good) +:+ " is missing " +:+ field)).
Proof.
  intros Hp Hg Hr Hb Hf. cbn -[requiredFields]. rewrite Hp.
  rewrite (validate_clans_first good (JObj bad) rest 0 _ Hg
             (eq_trans (f_equal _ Hr) (validate_fields_first bad _ before field after Hb Hf))).
  done.
Qed.

(** The second clan of the file has an empty name. *)
Lemma first_missing_field_named_witness :
  loadClanConfig
    (FileText (inr (JObj [("clans",
                           JArr [Scenario.alpha;
                                 JObj [("id", JStr "beta"); ("name", JStr "")]])])))
  = Throw (Error "Failed to load clan configuration: Invalid configuration: clan at index 1 is missing name").
Proof.
  apply (first_missing_field_named
           [("clans", JArr [Scenario.alpha; JObj [("id", JStr "beta"); ("name", JStr "")]])]
           [Scenario.alpha] [("id", JStr "beta"); ("name", JStr "")] []
           ["id"] "name" ["roleId"; "approverRoleId"; "approvalChannelId"]);
    reflexivity.
Defined.


(** ** The signups of an embed *)

Section Signups.
Import DiClanSignupButton.

(** *** The map of the signups *)

Lemma map_get_cons k' v' m k :
  map_get ((k', v') :: m) k = if String.eqb k' k then v' else map_get m k.
Proof. unfold map_get. cbn. by destruct (String.eqb k' k). Qed.

Lemma map_get_set_eq m k v : map_get (map_set m k v) k = v.
Proof.
  induction m as [|[k' v'] m IH]; cbn.
  - by rewrite map_get_cons, String.eqb_refl.
  - destruct (String.eqb k' k) eqn:E.
    + by rewrite map_get_cons, String.eqb_refl.
    + by rewrite map_get_cons, E.
Qed.

Lemma map_get_set_ne m k k' v : k ≠ k' → map_get (map_set m k v) k' = map_get m k'.
Proof.
  intros Hne. apply String.eqb_neq in Hne.
  induction m as [|[k0 v0] m IH]; cbn.
  - by rewrite map_get_cons, Hne.
  - destruct (String.eqb k0 k) eqn:E.
    + apply String.eqb_eq in E as ->. by rewrite !map_get_cons, Hne.
    + rewrite !map_get_cons. by rewrite IH.
Qed.

Lemma map_get_delete_eq m k : map_get (map_delete m k) k = None.
Proof.
  unfold map_delete. induction m as [|[k' v'] m IH]; [done|]. cbn.
  destruct (String.eqb k' k) eqn:E; cbn; [done|]. by rewrite map_get_cons, E.
Qed.

Lemma map_get_delete_ne m k k' : k ≠ k' → map_get (map_delete m k) k' = map_get m k'.
Proof.
  intros Hne. unfold map_delete. induction m as [|[k0 v0] m IH]; [done|]. cbn.
  destruct (String.eqb k0 k) eqn:E; cbn.
  - apply String.eqb_eq in E as ->. apply String.eqb_neq in Hne.
    by rewrite map_get_cons, Hne.
  - by rewrite !map_get_cons, IH.
Qed.

Lemma map_get_None m k : k ∉ map fst m → map_get m k = None.
Proof.
  induction m as [|[k' v'] m IH]; [done|]. cbn. intros Hk.
  apply not_elem_of_cons in Hk as [Hne Hk]. rewrite map_get_cons.
  apply not_eq_sym, String.eqb_neq in Hne. rewrite Hne. by apply IH.
Qed.

Lemma elem_of_keys {V} (m : list (string * V)) k : k ∈ map fst m ↔ ∃ v, (k, v) ∈ m.
Proof.
  induction m as [|[k' v'] m IH]; cbn.
  - split; [by intros ?%elem_of_nil|by intros [v ?%elem_of_nil]].
  - rewrite elem_of_cons, IH. split.
    + intros [->|[v Hv]]; [exists v'; apply list_elem_of_here|].
      exists v. by apply list_elem_of_further.
    + intros [v [[= -> ->]|Hv]%elem_of_cons]; [by left|right; by exists v].
Qed.

Lemma map_get_elem m k v : NoDup (map fst m) → (k, v) ∈ m → map_get m k = v.
Proof.
  induction m as [|[k' v'] m IH]; cbn; intros Hnd Hin.
  - by apply elem_of_nil in Hin.
  - apply NoDup_cons in Hnd as [Hk' Hnd]. rewrite map_get_cons.
    apply elem_of_cons in Hin as [[= <- <-]|Hin].
    + by rewrite String.eqb_refl.
    + destruct (String.eqb k' k) eqn:E; [|by apply IH].
      apply String.eqb_eq in E as ->. destruct Hk'.
      apply elem_of_keys. by exists v.
Qed.

Lemma keys_map_set m k v :
  map fst (map_set m k v)
  = if bool_decide (k ∈ map fst m) then map fst m else map fst m ++ [k].
Proof.
  induction m as [|[k' v'] m IH]; cbn; [done|].
  destruct (String.eqb k' k) eqn:E.
  - apply String.eqb_eq in E as ->. cbn.
    rewrite bool_decide_eq_true_2; [done|]. apply list_elem_of_here.
  - cbn. rewrite IH. apply String.eqb_neq in E.
    destruct (bool_decide (k ∈ map fst m)) eqn:D.
    + apply bool_decide_eq_true_1 in D. rewrite bool_decide_eq_true_2; [done|].
      by apply list_elem_of_further.
    + apply bool_decide_eq_false_1 in D. rewrite bool_decide_eq_false_2; [done|].
      intros [?|?]%elem_of_cons; congruence.
Qed.

Lemma stored_map_set m k c :
  stored m → snowflake k = true → c ∈ selections → stored (map_set m k (Some c)).
Proof.
  intros [Hnd Hall] Hk Hc. split.
  - rewrite keys_map_set. destruct (bool_decide (k ∈ map fst m)) eqn:D; [done|].
    apply bool_decide_eq_false_1 in D. apply NoDup_app. split_and!; [done| |].
    + intros x Hx ->%list_elem_of_singleton. done.
    + apply NoDup_singleton.
  - clear Hnd. induction m as [|[k' v'] m IH]; cbn in *.
    + unfold stored_entry. cbn. rewrite Hk, bool_decide_eq_true_2; done.
    + apply andb_true_iff in Hall as [He Hall].
      destruct (String.eqb k' k); cbn.
      * rewrite Hall. unfold stored_entry. cbn.
        rewrite Hk, bool_decide_eq_true_2; done.
      * by rewrite He, IH.
Qed.

Lemma stored_map_delete m k : stored m → stored (map_delete m k).
Proof.
  intros [Hnd Hall]. unfold map_delete.
  induction m as [|[k' v'] m IH]; [done|]. cbn in *.
  apply NoDup_cons in Hnd as [Hk' Hnd]. apply andb_true_iff in Hall as [He Hall].
  destruct (IH Hnd Hall) as [IH1 IH2].
  destruct (String.eqb k' k); cbn; [done|]. split.
  - apply NoDup_cons. split; [|done]. intros Hin. apply Hk'.
    apply elem_of_keys in Hin as [v0 Hin].
    apply list_elem_of_In, filter_In in Hin as [Hin _].
    apply elem_of_keys. exists v0. by apply list_elem_of_In.
  - cbn. by rewrite He, IH2.
Qed.

Lemma stored_fold_set c us m :
  stored m → forallb snowflake us = true → c ∈ selections →
  stored (fold_left (fun signups userId => map_set signups userId (Some c)) us m).
Proof.
  intros Hm Hus Hc. revert m Hm. induction us as [|u us IH]; intros m Hm; [done|].
  cbn in *. apply andb_true_iff in Hus as [Hu Hus].
  apply IH; [done|]. by apply stored_map_set.
Qed.

Lemma map_get_fold_notin c us m u :
  u ∉ us →
  map_get (fold_left (fun signups userId => map_set signups userId (Some c)) us m) u
  = map_get m u.
Proof.
  revert m. induction us as [|u' us IH]; intros m Hu; [done|]. cbn.
  apply not_elem_of_cons in Hu as [Hne Hu]. rewrite IH by done.
  by apply map_get_set_ne.
Qed.

Lemma map_get_fold_in c us m u :
  u ∈ us →
  map_get (fold_left (fun signups userId => map_set signups userId (Some c)) us m) u
  = Some c.
Proof.
  revert m. induction us as [|u' us IH]; intros m Hu.
  - by apply elem_of_nil in Hu.
  - cbn. destruct (decide (u ∈ us)) as [Hin|Hnotin]; [by apply IH|].
    apply elem_of_cons in Hu as [->|Hu]; [|done].
    rewrite map_get_fold_notin by done. apply map_get_set_eq.
Qed.

(** *** The mentions of a field *)

Lemma string_app_cons c (s t : string) : String c s +:+ t = String c (s +:+ t).
Proof. done. Qed.

Lemma string_app_nil_r (s : string) : s +:+ "" = s.
Proof. induction s as [|c s IH]; [done|]. by rewrite string_app_cons, IH. Qed.

Lemma string_app_assoc (s1 s2 s3 : string) : (s1 +:+ s2) +:+ s3 = s1 +:+ s2 +:+ s3.
Proof. induction s1 as [|c s1 IH]; [done|]. by rewrite !string_app_cons, IH. Qed.

Lemma all_digits_app s1 s2 :
  all_digits (s1 +:+ s2) = all_digits s1 && all_digits s2.
Proof.
  induction s1 as [|c s1 IH]; [done|]. rewrite string_app_cons. cbn.
  by rewrite IH, andb_assoc.
Qed.

Lemma is_digit_not (c d : ascii) : is_digit c = true → is_digit d = false → Ascii.eqb c d = false.
Proof.
  intros Hc Hd. destruct (Ascii.eqb_spec c d) as [->|]; [congruence|done].
Qed.

(** The digits after [<@], up to the [>] that closes them. *)
Lemma mentions_digits u ds s :
  all_digits u = true →
  mentions_from (InDigits ds) (u +:+ String ">" s)
  = if String.eqb (ds +:+ u) "" then mentions_from Idle s
    else (ds +:+ u) :: mentions_from Idle s.
Proof.
  revert ds. induction u as [|c u IH]; intros ds Hu.
  - rewrite string_app_nil_r. change ("" +:+ String ">" s) with (String ">" s).
    cbn. by destruct (String.eqb ds "").
  - cbn in Hu. apply andb_true_iff in Hu as [Hc Hu].
    rewrite string_app_cons. cbn [mentions_from].
    rewrite (is_digit_not c "<" Hc eq_refl), Hc, (IH _ Hu).
    by rewrite string_app_assoc.
Qed.

Lemma mentions_mention u s :
  snowflake u = true → mentions_from Idle (mention u +:+ s) = u :: mentions_from Idle s.
Proof.
  intros [Hne Hu]%andb_true_iff. unfold mention.
  rewrite !string_app_assoc, !string_app_cons. cbn [mentions_from].
  change (Ascii.eqb "<" "<") with true. change (Ascii.eqb "@" "<") with false.
  change (Ascii.eqb "@" "@") with true. cbn match.
  change ("" +:+ u +:+ String ">" ("" +:+ s)) with (u +:+ String ">" s).
  rewrite (mentions_digits u "" s Hu).
  change ("" +:+ u) with u. by destruct (String.eqb u "").
Qed.

(** What the parser reads back from the mentions the renderer joins. *)
Lemma mentions_join us :
  forallb snowflake us = true → mentions_from Idle (join (map mention us)) = us.
Proof.
  induction us as [|u us IH]; [done|]. intros [Hu Hus]%andb_true_iff.
  destruct us as [|u' us].
  - cbn [map join]. rewrite <- (string_app_nil_r (mention u)).
    by rewrite mentions_mention.
  - change (join (map mention (u :: u' :: us)))
      with (mention u +:+ nl +:+ join (map mention (u' :: us))).
    rewrite mentions_mention by done. f_equal.
    rewrite <- (IH Hus) at 2. done.
Qed.

(** The parser finds identifiers of the platform only. *)
Lemma mentions_snowflake st s :
  match st with InDigits ds => all_digits ds = true | _ => True end →
  forallb snowflake (mentions_from st s) = true.
Proof.
  revert st. induction s as [|c s IH]; intros st Hst; [done|].
  cbn [mentions_from]. destruct (Ascii.eqb c "<"); [by apply IH|].
  destruct st as [| |ds].
  - by apply IH.
  - destruct (Ascii.eqb c "@"); by apply IH.
  - destruct (is_digit c) eqn:Hc.
    + apply IH. rewrite all_digits_app, Hst. cbn. by rewrite Hc.
    + destruct (Ascii.eqb c ">" && negb (String.eqb ds "")) eqn:E; [|by apply IH].
      apply andb_true_iff in E as [_ E]. cbn [forallb].
      rewrite (IH Idle I), andb_true_r. unfold snowflake. by rewrite E, Hst.
Qed.

(** *** The class of a field *)

Lemma field_class_selection fieldName c : field_class fieldName = Some c → c ∈ selections.
Proof.
  unfold field_class, selections.
  destruct (includes fieldName "Can't Make It").
  - intros [= <-]. apply elem_of_app. right. apply list_elem_of_here.
  - intros [Hc _]%find_some. apply elem_of_app. left. by apply list_elem_of_In.
Qed.

Lemma includes_cons c s sub :
  includes (String c s) sub = startsWith (String c s) sub || includes s sub.
Proof. done. Qed.

(** A count and the bracket after it contain no text that starts with
    another character than a digit or a bracket. *)
Lemma includes_count d c sub :
  all_digits d = true → is_digit c = false → Ascii.eqb c ")" = false →
  includes (d +:+ ")") (String c sub) = false.
Proof.
  intros Hd Hc Hp. induction d as [|a d IH].
  - change ("" +:+ ")") with ")". rewrite includes_cons.
    cbn [startsWith includes]. by rewrite Hp.
  - cbn in Hd. apply andb_true_iff in Hd as [Ha Hd].
    rewrite string_app_cons, includes_cons, (IH Hd), orb_false_r.
    cbn [startsWith]. by rewrite Ascii.eqb_sym, (is_digit_not a c Ha Hc).
Qed.

(** Evaluates [field_class] on a name that ends in a count [t]. *)
Ltac class_of_name Ht :=
  unfold field_class;
  cbv [getClassWithEmoji ClassKeys ClassTable map fst snd List.find String.eqb
       Ascii.eqb Bool.eqb String.append];
  cbn [includes startsWith orb andb Ascii.eqb Bool.eqb];
  rewrite ?Ht by done;
  reflexivity.

(** The name of a field the renderer writes stands for its class. *)
Lemma field_class_class c d :
  c ∈ ClassKeys → all_digits d = true →
  field_class (getClassWithEmoji (Some c) +:+ " (" +:+ d +:+ ")") = Some c.
Proof.
  intros Hc Hd.
  pose proof (fun a sub => includes_count d a sub Hd) as Ht.
  generalize dependent (d +:+ ")"). intros t Ht.
  cbv [ClassKeys ClassTable map fst] in Hc.
  repeat (apply elem_of_cons in Hc as [->|Hc]); [..|by apply elem_of_nil in Hc].
  all: class_of_name Ht.
Qed.

Lemma field_class_cant d :
  all_digits d = true →
  field_class ("❌ Can't Make It (" +:+ d +:+ ")") = Some "cant-make-it".
Proof.
  intros Hd.
  pose proof (fun a sub => includes_count d a sub Hd) as Ht.
  generalize dependent (d +:+ ")"). intros t Ht.
  class_of_name Ht.
Qed.

(** *** The counts of the fields *)

Lemma is_digit_pretty_N_char x : is_digit (pretty_N_char x) = true.
Proof. unfold pretty_N_char. by repeat case_match. Qed.

Lemma all_digits_pretty_N_go x s :
  all_digits s = true → all_digits (pretty_N_go x s) = true.
Proof.
  revert s. induction (N.lt_wf_0 x) as [x _ IH]; intros s Hs.
  destruct (decide (x = 0)%N) as [->|]; [by rewrite pretty_N_go_0|].
  rewrite pretty_N_go_step by lia. apply IH; [apply N.div_lt; lia|].
  cbn [all_digits]. by rewrite is_digit_pretty_N_char.
Qed.

Lemma all_digits_pretty (n : nat) : all_digits (pretty n) = true.
Proof.
  unfold pretty, pretty_nat, pretty, pretty_N.
  destruct (decide _); [done|]. by apply all_digits_pretty_N_go.
Qed.

(** *** What the parser reads from what the renderer writes *)

Lemma members_of_users S c : members_of S c = map mention (users_of S c).
Proof. unfold members_of, users_of. by rewrite map_map. Qed.

Lemma users_of_elem S c u : u ∈ users_of S c ↔ (u, Some c) ∈ S.
Proof.
  unfold users_of. rewrite elem_of_keys. split.
  - intros [v [Hin Hv]%list_elem_of_In%filter_In]. cbn in Hv.
    destruct v as [c'|]; [|done]. apply String.eqb_eq in Hv as ->.
    by apply list_elem_of_In.
  - intros Hin. exists (Some c). apply list_elem_of_In, filter_In. split.
    + by apply list_elem_of_In.
    + cbn. apply String.eqb_refl.
Qed.

Lemma users_of_snowflake S c :
  forallb stored_entry S = true → forallb snowflake (users_of S c) = true.
Proof.
  unfold users_of. induction S as [|[u v] S IH]; [done|]. cbn.
  intros [He HS]%andb_true_iff.
  destruct (match v with Some c' => String.eqb c' c | None => false end); cbn.
  - rewrite (IH HS), andb_true_r. unfold stored_entry in He.
    by apply andb_true_iff in He as [He _].
  - by apply IH.
Qed.

Lemma parse_fold fields : parseSignupsFromFields fields = fold_left parse_field fields [].
Proof. done. Qed.

(** One field of the renderer gives the users of its class. *)
Lemma parse_field_rendered S m fieldName c :
  forallb stored_entry S = true →
  field_class fieldName = Some c →
  parse_field m (fieldName, render (members_of S c))
  = fold_left (fun signups userId => map_set signups userId (Some c)) (users_of S c) m.
Proof.
  intros HS Hc. pose proof (users_of_snowflake S c HS) as Hus.
  unfold parse_field, render. rewrite members_of_users, length_map.
  destruct (users_of S c) as [|u us] eqn:E; [done|].
  change (0 <? length (u :: us))%nat with true. cbn match.
  rewrite Hc, (mentions_join _ Hus).
  assert (String.eqb (join (map mention (u :: us))) "*No signups*" = false) as ->; [|done].
  destruct us as [|u' us]; cbn [map join]; unfold mention at 1;
    by rewrite ?string_app_assoc, !string_app_cons.
Qed.

Lemma parse_rendered S cs (name : string → string) m :
  forallb stored_entry S = true →
  (∀ c, c ∈ cs → field_class (name c) = Some c) →
  fold_left parse_field (map (fun c => (name c, render (members_of S c))) cs) m
  = fold_left
      (fun signups c =>
         fold_left (fun signups userId => map_set signups userId (Some c))
           (users_of S c) signups)
      cs m.
Proof.
  intros HS. revert m. induction cs as [|c cs IH]; intros m Hcs; [done|].
  cbn [map fold_left]. rewrite parse_field_rendered; [|done|].
  - apply IH. intros c' Hc'. apply Hcs. by apply list_elem_of_further.
  - apply Hcs. apply list_elem_of_here.
Qed.

Lemma parse_create S :
  forallb stored_entry S = true →
  parseSignupsFromFields (signupFields S)
  = fold_left
      (fun signups c =>
         fold_left (fun signups userId => map_set signups userId (Some c))
           (users_of S c) signups)
      selections [].
Proof.
  intros HS. unfold signupFields, selections. cbn zeta.
  rewrite parse_fold, !fold_left_app.
  rewrite (parse_rendered S ClassKeys
             (fun className =>
                getClassWithEmoji (Some className) +:+ " ("
                  +:+ pretty (length (members_of S className)) +:+ ")")); [|done|].
  - cbn [fold_left]. rewrite parse_field_rendered; [done..|].
    apply field_class_cant, all_digits_pretty.
  - intros c Hc. apply field_class_class; [done|]. apply all_digits_pretty.
Qed.

Lemma map_get_classes_notin S cs m u :
  (∀ c, c ∈ cs → (u, Some c) ∉ S) →
  map_get
    (fold_left
       (fun signups c =>
          fold_left (fun signups userId => map_set signups userId (Some c))
            (users_of S c) signups)
       cs m) u
  = map_get m u.
Proof.
  revert m. induction cs as [|c cs IH]; intros m Hcs; [done|]. cbn [fold_left].
  rewrite IH.
  - apply map_get_fold_notin. rewrite users_of_elem. apply Hcs, list_elem_of_here.
  - intros c' Hc'. apply Hcs. by apply list_elem_of_further.
Qed.

Lemma map_get_classes_in S cs m u c :
  NoDup (map fst S) → (u, Some c) ∈ S →
  map_get m u = Some c ∨ c ∈ cs →
  map_get
    (fold_left
       (fun signups c =>
          fold_left (fun signups userId => map_set signups userId (Some c))
            (users_of S c) signups)
       cs m) u
  = Some c.
Proof.
  intros Hnd Hin. revert m. induction cs as [|c' cs IH]; intros m Hm.
  - destruct Hm as [Hm|Hm]; [done|by apply elem_of_nil in Hm].
  - cbn [fold_left]. apply IH.
    destruct (decide (c' = c)) as [->|Hne].
    + left. apply map_get_fold_in. by apply users_of_elem.
    + rewrite map_get_fold_notin.
      * destruct Hm as [Hm|Hm]; [by left|right].
        apply elem_of_cons in Hm as [Hm|Hm]; [congruence|done].
      * rewrite users_of_elem. intros Hin'.
        pose proof (map_get_elem S u _ Hnd Hin) as H1.
        pose proof (map_get_elem S u _ Hnd Hin') as H2. congruence.
Qed.

(** The embed the builder returns has the title and the fields it was
    given. *)
Lemma createSignupEmbed_Ok title S e :
  createSignupEmbed title S = Ok e →
  embed_title e = Some title ∧ embed_fields e = signupFields S.
Proof.
  unfold createSignupEmbed.
  destruct (negb (within 1 256 title)); [done|].
  destruct (negb (forallb valid_field (signupFields S))); [done|].
  destruct (negb (within 1 2048 (signupFooter S))); [done|].
  by intros [= <-].
Qed.

(** The fields store the signups: what the parser reads from the fields
    the renderer makes of stored signups is the selection of each
    user. *)
Lemma parse_create_get S u :
  stored S →
  map_get (parseSignupsFromFields (signupFields S)) u = map_get S u.
Proof.
  intros [Hnd HS]. rewrite parse_create by done.
  destruct (decide (u ∈ map fst S)) as [Hin|Hnotin].
  - apply elem_of_keys in Hin as [v Hin].
    pose proof Hin as He. eapply list_elem_of_In, forallb_forall in He; [|exact HS].
    unfold stored_entry in He. apply andb_true_iff in He as [_ He]. cbn in He.
    destruct v as [c|]; [|done]. apply bool_decide_eq_true_1 in He.
    rewrite (map_get_elem S u _ Hnd Hin). apply map_get_classes_in; auto.
  - rewrite (map_get_None S u Hnotin). rewrite map_get_classes_notin; [done|].
    intros c _ Hin. apply Hnotin, elem_of_keys. by exists (Some c).
Qed.

(** Whatever the fields, the parser reads stored signups. *)
Lemma parse_stored fields : stored (parseSignupsFromFields fields).
Proof.
  rewrite parse_fold.
  assert (stored []) as H0 by (split; [constructor|done]).
  revert H0. generalize (@nil (string * option string)).
  induction fields as [|[n v] fields IH]; intros m Hm; [done|].
  cbn [fold_left]. apply IH. unfold parse_field.
  destruct (String.eqb v "*No signups*"); [done|].
  destruct (field_class n) as [c|] eqn:Hc; [|done].
  apply stored_fold_set; [done| |by eapply field_class_selection].
  by apply mentions_snowflake.
Qed.

End Signups.


(** ** The signup buttons at work *)

Section SignupButtons.
Import DiClanSignupButton.

(** X18. Whatever the fields of an embed, the parser reads each user
    once, under a non-empty run of digits, with a selection of the
    buttons. *)
Theorem parsed_signups_are_stored (fields : list (string * string)) :
  stored (parseSignupsFromFields fields).
Proof. apply parse_stored. Qed.

(** X19. The embed stores the signups.  When the builder accepts the
    embed the renderer makes of signups that list each user once, under
    a non-empty run of digits and with a selection of the buttons, the
    embed has the title it was given, and the parser reads from its
    fields the selection of every user back, and none for the others. *)
Theorem embed_stores_signups title signups e :
  stored signups →
  createSignupEmbed title signups = Ok e →
  embed_title e = Some title
  ∧ ∀ u, map_get (parseSignupsFromFields (embed_fields e)) u = map_get signups u.
Proof.
  intros Hst [Ht Hf]%createSignupEmbed_Ok. split; [done|].
  intros u. rewrite Hf. by apply parse_create_get.
Qed.

(** Two wizards and one who cannot make it. *)
Lemma embed_stores_signups_witness :
  match createSignupEmbed "Raid"
          [("1001", Some "wizard"); ("1002", Some "cant-make-it"); ("1003", Some "wizard")]
  with
  | Ok e =>
      embed_title e = Some "Raid"
      ∧ map_get (parseSignupsFromFields (embed_fields e)) "1003" = Some "wizard"
      ∧ map_get (parseSignupsFromFields (embed_fields e)) "1002" = Some "cant-make-it"
      ∧ map_get (parseSignupsFromFields (embed_fields e)) "1004" = None
  | Throw _ => False
  end.
Proof.
  assert (Hst : stored [("1001", Some "wizard"); ("1002", Some "cant-make-it");
                        ("1003", Some "wizard")]).
  { split; [|reflexivity]. apply (bool_decide_unpack _). by vm_compute. }
  destruct (createSignupEmbed "Raid" _) as [e|x] eqn:E.
  - destruct (embed_stores_signups _ _ e Hst E) as [Ht Hu].
    rewrite !Hu. split; [exact Ht|]. by repeat split.
  - vm_compute in E. discriminate E.
Defined.

(** An answer, then a value, then a continuation: the continuation runs
    on the value when the answer is accepted. *)
Lemma bind_ret_bind {A B C} (m : M A) (x : B) (k : B → M C) w :
  bind (bind m (fun _ => ret x)) k w = bind m (fun _ => k x) w.
Proof. unfold bind, ret. by destruct (m w) as [[a|e] w1]. Qed.

(** The accepted answer to a click and the edit of the message that
    follows it. *)
Lemma edit_after_answer w ack message updated :
  refuses w (Reply ack true) = false →
  let w' :=
    (try_catch (reply ack true ;; message_edit_embeds message [updated])
       (fun _ => console_error "Error handling signup button:" ;; reply Failed true)
       w).2 in
  guildMembers w' = guildMembers w
  ∧ ∃ evs,
      trace w'
      = trace w
          ++ [Called (Reply ack true) true;
              attempted w (MessageEditEmbeds message [updated])]
          ++ evs
      ∧ forallb reply_or_log evs = true.
Proof.
  intros Hack w'. subst w'. destruct w as [cf nw gm ch rf tr]. cbn in Hack.
  cbv [message_edit_embeds]. run_handler. rewrite Hack. cbn.
  destruct (rf (MessageEditEmbeds message [updated])); cbn.
  - destruct (rf (Reply Failed true)); close_run.
  - close_run.
Qed.

(** The way of a click of a member to the answer. *)
Lemma handle_member w i clanId sel clan roles current rest :
  split ":" (customId i) = ["signup"; message_id i; clanId; sel] →
  configured w clanId clan →
  member_roles i = Some roles → Clan.roleId clan ∈ roles →
  message_embeds i = current :: rest →
  let before := parseSignupsFromFields (embed_fields current) in
  handle i w
  = (reply (acknowledgment (map_get before (user_id i)) sel) true ;;
     match createSignupEmbed (title_or_default (embed_title current))
             (clicked before (user_id i) sel) with
     | Throw e => throw e
     | Ok updated => message_edit_embeds (message_id i) [updated]
     end) w.
Proof.
  intros Hs (config & Hl & Hf) Hm Hr He before.
  unfold handle. rewrite Hs. cbn [lookup list_lookup].
  rewrite bool_decide_eq_true_2 by done. cbn [negb].
  unfold bind at 1. rewrite (load_clans_ok _ _ Hl). cbn [mbind option_bind].
  rewrite Hf, Hm, (bool_decide_eq_true_2 _ Hr), He. cbn [negb].
  fold before. unfold acknowledgment, clicked.
  set (k := fun signups =>
              match createSignupEmbed (title_or_default (embed_title current))
                      signups with
              | Throw e => throw e
              | Ok updated => message_edit_embeds (message_id i) [updated]
              end).
  destruct (bool_decide (map_get before (user_id i) = Some sel)).
  - apply (bind_ret_bind _ _ k).
  - rewrite (bind_ret_bind _ _ k).
    destruct (decide (sel = "cant-make-it")) as [->|Hne].
    + by rewrite !bool_decide_eq_true_2.
    + rewrite !bool_decide_eq_false_2; [done..|]. by intros [= ?].
Qed.

(** X20. A click of a member of the clan on a signup button of the
    message is recorded in the embed of the message (the fields of the
    configuration are strings, the identifier of the responder is a run
    of digits, the selection is one of the buttons).  When the platform
    accepts the answer and the builder accepts the embed of the signups
    after the click, the handler edits the message with that embed; it
    has the title of the embed before (or [Event Signup]), and the
    parser reads from it, for the responder, the selection of the
    button, or none when it was their selection already, and for every
    other user what it read before. *)
Theorem signup_click_recorded w i clanId sel clan roles current rest updated :
  startsWith (customId i) "signup:" = true →
  split ":" (customId i) = ["signup"; message_id i; clanId; sel] →
  configured w clanId clan → typed (configFile w) = true →
  member_roles i = Some roles → Clan.roleId clan ∈ roles →
  message_embeds i = current :: rest →
  snowflake (user_id i) = true → sel ∈ selections →
  let before := parseSignupsFromFields (embed_fields current) in
  let ack := acknowledgment (map_get before (user_id i)) sel in
  createSignupEmbed (title_or_default (embed_title current))
    (clicked before (user_id i) sel) = Ok updated →
  refuses w (Reply ack true) = false →
  let w' := (execute (ButtonClick i) w).2 in
  guildMembers w' = guildMembers w
  ∧ (∃ evs,
       trace w'
       = trace w
           ++ [Called (Reply ack true) true;
               attempted w (MessageEditEmbeds (message_id i) [updated])]
           ++ evs
       ∧ forallb reply_or_log evs = true)
  ∧ embed_title updated = Some (title_or_default (embed_title current))
  ∧ let after := parseSignupsFromFields (embed_fields updated) in
    map_get after (user_id i) = toggled (map_get before (user_id i)) sel
    ∧ ∀ u, u ≠ user_id i → map_get after u = map_get before u.
Proof.
  intros Hsw Hs Hc _ Hm Hr He Hu Hsel before ack Hup Hack w'. subst w'.
  unfold execute. rewrite Hsw. cbn [negb]. unfold try_catch.
  rewrite (handle_member w i clanId sel clan roles current rest Hs Hc Hm Hr He).
  fold before. fold ack. rewrite Hup.
  destruct (edit_after_answer w ack (message_id i) updated Hack) as (Hg & evs & Ht & Hevs).
  assert (Hst : stored (clicked before (user_id i) sel)).
  { unfold clicked. destruct (bool_decide _).
    - apply stored_map_delete, parse_stored.
    - apply stored_map_set; [apply parse_stored|done..]. }
  apply createSignupEmbed_Ok in Hup as [Htitle Hfields].
  split; [exact Hg|]. split; [by exists evs|]. split; [done|].
  cbn zeta. rewrite Hfields. split.
  - rewrite parse_create_get by done. unfold clicked, toggled.
    destruct (bool_decide _); [apply map_get_delete_eq|apply map_get_set_eq].
  - intros u Hne. rewrite parse_create_get by done. unfold clicked.
    destruct (bool_decide _); [by apply map_get_delete_ne|by apply map_get_set_ne].
Qed.

(** The member [1001] of [alpha] clicks the button of the monks on a new
    signup. *)
Lemma signup_click_recorded_witness :
  let new :=
    {| embed_title := Some "Alpha - Raid"; embed_fields := DiClanSignup.fields;
       embed_footer := Some "📊 0 attending • 0 can't make it" |} in
  let i :=
    {| customId := "signup:M1:alpha:monk"; user_id := "1001"; user_tag := "hero";
       guild := true; member_roles := Some {[ "R1" ]};
       message_id := "M1"; message_content := ""; message_embeds := [new] |} in
  let w' := (execute (ButtonClick i) (Scenario.world Scenario.nothing)).2 in
  ∃ updated evs,
    trace w'
    = [Called (Reply "✅ Signed up as <:monk:1398056656897839104> Monk." true) true;
       Called (MessageEditEmbeds "M1" [updated]) true] ++ evs
    ∧ embed_title updated = Some "Alpha - Raid"
    ∧ map_get (parseSignupsFromFields (embed_fields updated)) "1001" = Some "monk".
Proof.
  cbn zeta.
  destruct (createSignupEmbed "Alpha - Raid"
              (clicked (parseSignupsFromFields DiClanSignup.fields) "1001" "monk"))
    as [updated|x] eqn:E; [|vm_compute in E; discriminate E].
  exists updated.
  destruct (signup_click_recorded (Scenario.world Scenario.nothing)
              {| customId := "signup:M1:alpha:monk"; user_id := "1001"; user_tag := "hero";
                 guild := true; member_roles := Some {[ "R1" ]};
                 message_id := "M1"; message_content := "";
                 message_embeds :=
                   [ {| embed_title := Some "Alpha - Raid";
                        embed_fields := DiClanSignup.fields;
                        embed_footer := Some "📊 0 attending • 0 can't make it" |} ] |}
              "alpha" "monk" Scenario.clan {[ "R1" ]}
              {| embed_title := Some "Alpha - Raid"; embed_fields := DiClanSignup.fields;
                 embed_footer := Some "📊 0 attending • 0 can't make it" |} [] updated)
    as (_ & (evs & Ht & _) & Htitle & Hget & _).
  1-5, 7-8, 11: settle.
  - set_solver.
  - apply (bool_decide_unpack _). by vm_compute.
  - exact E.
  - exists evs. split; [exact Ht|]. split; [exact Htitle|exact Hget].
Defined.

(** X30. A click of a member of the clan that the builder of the embed
    refuses (the fields of the configuration are strings).  After the
    accepted answer to the click, when [createSignupEmbed] throws (the
    list of a selection has outgrown the 1024 characters of a field, for
    example), the message is not edited: the failure is written to the
    console and the responder, who was answered that the click was
    taken, is answered [Failed to update signup]; nothing else
    happens. *)
Theorem oversized_signup_not_recorded w i clanId sel clan roles current rest e :
  startsWith (customId i) "signup:" = true →
  split ":" (customId i) = ["signup"; message_id i; clanId; sel] →
  configured w clanId clan → typed (configFile w) = true →
  member_roles i = Some roles → Clan.roleId clan ∈ roles →
  message_embeds i = current :: rest →
  let before := parseSignupsFromFields (embed_fields current) in
  let ack := acknowledgment (map_get before (user_id i)) sel in
  createSignupEmbed (title_or_default (embed_title current))
    (clicked before (user_id i) sel) = Throw e →
  refuses w (Reply ack true) = false →
  let w' := (execute (ButtonClick i) w).2 in
  guildMembers w' = guildMembers w
  ∧ trace w'
    = trace w
        ++ [Called (Reply ack true) true;
            ConsoleError "Error handling signup button:";
            attempted w (Reply "❌ Failed to update signup. Please try again." true)].
Proof.
  intros Hsw Hs Hc _ Hm Hr He before ack Hup Hack w'. subst w'.
  unfold execute. rewrite Hsw. cbn [negb]. unfold try_catch.
  rewrite (handle_member w i clanId sel clan roles current rest Hs Hc Hm Hr He).
  fold before. fold ack. rewrite Hup.
  change "❌ Failed to update signup. Please try again." with Failed.
  destruct w as [cf nw gm ch rf tr]. cbn in Hack.
  cbv [throw]. run_handler. rewrite Hack. cbn.
  destruct (rf (Reply Failed true)); cbn; split; by rewrite <- ?app_assoc.
Qed.

(** Forty-four wizards have signed up, under identifiers of nineteen
    digits; the click of the forty-fifth is answered and refused. *)
Lemma oversized_signup_not_recorded_witness :
  let wizards :=
    map (fun n => ("10000000000000000" +:+ pretty n, Some "wizard")) (seq 10 44) in
  let i :=
    {| customId := "signup:M1:alpha:wizard"; user_id := "1000000000000000099";
       user_tag := "hero"; guild := true; member_roles := Some {[ "R1" ]};
       message_id := "M1"; message_content := "";
       message_embeds :=
         [ {| embed_title := Some "Alpha - Raid";
              embed_fields := signupFields wizards;
              embed_footer := Some (signupFooter wizards) |} ] |} in
  let w' := (execute (ButtonClick i) (Scenario.world Scenario.nothing)).2 in
  createSignupEmbed "Alpha - Raid" wizards
  = Ok {| embed_title := Some "Alpha - Raid"; embed_fields := signupFields wizards;
          embed_footer := Some (signupFooter wizards) |}
  ∧ trace w'
    = [Called (Reply "✅ Signed up as <:wizard:1398056598009675927> Wizard." true) true;
       ConsoleError "Error handling signup button:";
       Called (Reply "❌ Failed to update signup. Please try again." true) true].
Proof.
  cbn zeta. split; [vm_compute; reflexivity|].
  destruct (oversized_signup_not_recorded (Scenario.world Scenario.nothing)
            {| customId := "signup:M1:alpha:wizard"; user_id := "1000000000000000099";
               user_tag := "hero"; guild := true; member_roles := Some {[ "R1" ]};
               message_id := "M1"; message_content := "";
               message_embeds :=
                 [ {| embed_title := Some "Alpha - Raid";
                      embed_fields :=
                        signupFields
                          (map (fun n => ("10000000000000000" +:+ pretty n, Some "wizard"))
                             (seq 10 44));
                      embed_footer :=
                        Some (signupFooter
                                (map (fun n => ("10000000000000000" +:+ pretty n,
                                                Some "wizard")) (seq 10 44))) |} ] |}
            "alpha" "wizard" Scenario.clan {[ "R1" ]}
            {| embed_title := Some "Alpha - Raid";
               embed_fields :=
                 signupFields
                   (map (fun n => ("10000000000000000" +:+ pretty n, Some "wizard"))
                      (seq 10 44));
               embed_footer :=
                 Some (signupFooter
                         (map (fun n => ("10000000000000000" +:+ pretty n,
                                         Some "wizard")) (seq 10 44))) |}
            [] CombinedError) as [_ Ht].
  1-5, 7, 9: settle.
  - set_solver.
  - vm_compute. reflexivity.
  - rewrite Ht. vm_compute. reflexivity.
Defined.

(** X21. A responder who does not hold the role of the clan cannot sign
    up: the handler answers that one must be a member of the clan,
    changes no role and adds answers and console lines only, so the
    message is not edited. *)
Theorem non_member_cannot_sign_up w i clanId clan roles :
  startsWith (customId i) "signup:" = true →
  split ":" (customId i) !! 1%nat = Some (message_id i) →
  split ":" (customId i) !! 2%nat = Some clanId →
  configured w clanId clan →
  member_roles i = Some roles → Clan.roleId clan ∉ roles →
  let w' := (execute (ButtonClick i) w).2 in
  guildMembers w' = guildMembers w
  ∧ ∃ evs,
      trace w' = trace w ++ [attempted w (Reply (NotAMember clan) true)] ++ evs
      ∧ forallb reply_or_log evs = true.
Proof.
  intros Hsw H1 H2 (config & Hl & Hf) Hm Hr w'. subst w'.
  unfold execute. rewrite Hsw. cbn [negb].
  unfold handle, try_catch, bind. rewrite H1, H2.
  rewrite bool_decide_eq_true_2 by done. cbn [negb].
  rewrite (load_clans_ok _ _ Hl). cbn [mbind option_bind].
  rewrite Hf, Hm, (bool_decide_eq_false_2 _ Hr). cbn [negb].
  destruct w as [cf nw gm ch rf tr]. run_handler.
  destruct (rf (Reply (NotAMember clan) true)) eqn:E1.
  - destruct (rf (Reply Failed true)); close_run.
  - close_run.
Qed.

(** The scenario: [U1], who holds no role, clicks a signup button of
    [alpha]. *)
Lemma non_member_cannot_sign_up_witness :
  let w := Scenario.world Scenario.nothing in
  let i := Scenario.click "signup:M1:alpha:wizard" "U1" "M1" ∅ in
  let w' := (execute (ButtonClick i) w).2 in
  guildMembers w' = guildMembers w
  ∧ ∃ evs,
      trace w'
      = [Called (Reply "❌ You must be a member of Alpha to participate in this signup."
                   true) true] ++ evs
      ∧ forallb reply_or_log evs = true.
Proof.
  apply (non_member_cannot_sign_up (Scenario.world Scenario.nothing)
           (Scenario.click "signup:M1:alpha:wizard" "U1" "M1" ∅)
           "alpha" Scenario.clan ∅); settle.
Defined.

(** A relation that the console lines, the answers and the edits of the
    embeds of the message keep is kept by the handler on every click. *)
Lemma invariant_signup (R : World → World → Prop) `{!Reflexive R, !Transitive R}
    (i : ButtonInteraction) :
  (∀ e w, answer_or_edit_of (message_id i) e = true → R w (record e w)) →
  invariant R (execute (ButtonClick i)).
Proof.
  intros Hlog. unfold execute, handle, reply, message_edit_embeds.
  walk; first [exact _ | reflexivity | apply Hlog; cbn; by rewrite ?String.eqb_refl].
Qed.

(** X22. Whatever the click and the world, the handler of the signup
    buttons only reads the environment, changes no role, and makes no
    other call than answers and edits of the embeds of the message the
    button is attached to. *)
Theorem signup_touches_its_message_only (i : ButtonInteraction) (w : World) :
  let w' := (execute (ButtonClick i) w).2 in
  same_env w w' ∧ same_roles w w' ∧ logs (answer_or_edit_of (message_id i)) w w'.
Proof.
  split; [|split].
  - apply (invariant_signup same_env). intros. apply same_env_record.
  - apply (invariant_signup same_roles). intros. apply same_roles_record.
  - apply (invariant_signup (logs _)). intros. by apply logs_record.
Qed.

End SignupButtons.

(** ** The command that posts a signup *)

(** X23. The embed of a new signup is what the handler of the buttons
    makes of no signups, under the title of the clan and the event: the
    builder refuses both or returns the same embed.  It returns the
    embed exactly when the title has at most 256 characters, and the
    parser reads no signup from it. *)
Theorem new_signup_is_empty (clan : Clan.t) (eventName : string) :
  DiClanSignup.embed clan eventName
  = DiClanSignupButton.createSignupEmbed (Clan.name clan +:+ " - " +:+ eventName) []
  ∧ match DiClanSignup.embed clan eventName with
    | Ok e =>
        within 1 256 (Clan.name clan +:+ " - " +:+ eventName) = true
        ∧ DiClanSignupButton.parseSignupsFromFields (embed_fields e) = []
    | Throw _ => within 1 256 (Clan.name clan +:+ " - " +:+ eventName) = false
    end.
Proof.
  unfold DiClanSignup.embed, DiClanSignupButton.createSignupEmbed.
  destruct (within 1 256 (Clan.name clan +:+ " - " +:+ eventName)); by split.
Qed.

Lemma split_signup_token (responseId clanId sel : string) :
  colon_free responseId = true → colon_free clanId = true → colon_free sel = true →
  split ":" ("signup" +:+ ":" +:+ responseId +:+ ":" +:+ clanId +:+ ":" +:+ sel)
  = ["signup"; responseId; clanId; sel].
Proof.
  intros Hr Hc Hs.
  rewrite (split_field "signup") by done.
  rewrite (split_field responseId) by done.
  rewrite (split_field clanId) by done.
  by rewrite (split_colon_free sel).
Qed.

(** X24. The buttons of a signup: when the identifiers of the message
    and of the clan hold no colon, the identifiers of the buttons start
    with [signup:] and split into the tag, the message, the clan and the
    selection, one button for each selection. *)
Theorem signup_tokens_round_trip (responseId clanId : string) :
  colon_free responseId = true → colon_free clanId = true →
  map (split ":") (DiClanSignup.customIds responseId clanId)
  = map (fun sel => ["signup"; responseId; clanId; sel]) selections
  ∧ Forall (fun b => startsWith b "signup:" = true)
      (DiClanSignup.customIds responseId clanId).
Proof.
  intros Hr Hc. split.
  - cbv [DiClanSignup.customIds selections DiClanSignupButton.ClassKeys
         DiClanSignupButton.ClassTable map fst app].
    change (clanId +:+ ":cant-make-it") with (clanId +:+ ":" +:+ "cant-make-it").
    change ("signup:" +:+ ?x) with ("signup" +:+ ":" +:+ x).
    by rewrite !split_signup_token.
  - apply Forall_forall. intros b Hb.
    apply elem_of_app in Hb as [Hb|Hb].
    + apply list_elem_of_In, in_map_iff in Hb as (c & <- & _). apply startsWith_app.
    + apply list_elem_of_singleton in Hb as ->. apply startsWith_app.
Qed.

(** The buttons of the message [M1] for [alpha]. *)
Lemma signup_tokens_round_trip_witness :
  map (split ":") (DiClanSignup.customIds "M1" "alpha")
  = map (fun sel => ["signup"; "M1"; "alpha"; sel]) selections
  ∧ Forall (fun b => startsWith b "signup:" = true) (DiClanSignup.customIds "M1" "alpha").
Proof. apply (signup_tokens_round_trip "M1" "alpha"); reflexivity. Defined.


(** ** The grant and the revoke, on every input *)

#[global] Instance only_loses_refl user : Reflexive (only_loses user).
Proof. intros w u. split; [done|]. intros rs ?. by exists rs. Qed.

#[global] Instance only_loses_trans user : Transitive (only_loses user).
Proof.
  intros w1 w2 w3 H12 H23 u. destruct (H12 u) as [Ha Hb], (H23 u) as [Hc Hd].
  split.
  - intros Hn. by rewrite Hc, Ha.
  - intros rs Hrs. destruct (Hb rs Hrs) as (rs' & Hrs' & Hsub).
    destruct (Hd rs' Hrs') as (rs'' & Hrs'' & Hsub').
    exists rs''. split; [done|]. set_solver.
Qed.

Lemma only_loses_record user e w : only_loses user w (record e w).
Proof. intros u. split; [done|]. intros rs ?. by exists rs. Qed.

Lemma only_loses_remove user role w :
  only_loses user w
    (set_members (alter (fun roles => roles ∖ {[role]}) user (guildMembers w)) w).
Proof.
  intros u. cbn. split.
  - intros Hn. by rewrite lookup_alter_ne.
  - intros rs Hrs. destruct (decide (user = u)) as [->|Hn].
    + rewrite lookup_alter_eq, Hrs. cbn. eexists. split; [done|]. set_solver.
    + rewrite lookup_alter_ne by done. by exists rs.
Qed.

(** A relation that the console lines, the answers and the calls that
    change no role keep, and that adding a role to the target keeps, is
    kept by a grant. *)
Lemma invariant_grant (R : World → World → Prop) `{!Reflexive R, !Transitive R}
    (i : CommandInteraction) :
  (∀ e w, no_role_call e = true → R w (record e w)) →
  (∀ b role w, R w (record (Called (RolesAdd (option_user i) role) b) w)) →
  (∀ role w,
     R w (set_members
            (alter (fun roles => roles ∪ {[role]}) (option_user i) (guildMembers w)) w)) →
  invariant R (ClanGrantAccess.execute i).
Proof.
  intros Hlog Hany Hadd.
  unfold ClanGrantAccess.execute, ClanGrantAccess.fetch_target,
    ClanJoinRequest.fetch_text_channel, members_fetch, roles_add,
    channels_fetch, channel_send, reply.
  walk; first [exact _ | reflexivity | by apply Hlog | apply Hany | apply Hadd].
Qed.

(** The same for a revoke, with the removal of a role of the target. *)
Lemma invariant_revoke (R : World → World → Prop) `{!Reflexive R, !Transitive R}
    (i : CommandInteraction) :
  (∀ e w, no_role_call e = true → R w (record e w)) →
  (∀ b role w, R w (record (Called (RolesRemove (option_user i) role) b) w)) →
  (∀ role w,
     R w (set_members
            (alter (fun roles => roles ∖ {[role]}) (option_user i) (guildMembers w)) w)) →
  invariant R (ClanRevokeAccess.execute i).
Proof.
  intros Hlog Hany Hrem.
  unfold ClanRevokeAccess.execute, ClanGrantAccess.fetch_target,
    ClanJoinRequest.fetch_text_channel, members_fetch, roles_remove,
    channels_fetch, channel_send, reply.
  walk; first [exact _ | reflexivity | by apply Hlog | apply Hany | apply Hrem].
Qed.

(** X25. Whatever the command and the world, a grant only reads the
    environment, never removes a role, and changes the roles of nobody
    but the user of the option [user], who can only gain roles. *)
Theorem grant_only_adds_to_target (i : CommandInteraction) (w : World) :
  let w' := (ClanGrantAccess.execute i w).2 in
  same_env w w' ∧ only_gains (option_user i) w w' ∧ logs no_role_removed w w'.
Proof.
  split; [|split].
  - apply (invariant_grant same_env); by intros.
  - apply (invariant_grant (only_gains _)); intros.
    + apply only_gains_record.
    + apply only_gains_record.
    + apply only_gains_add.
  - apply (invariant_grant (logs no_role_removed)); intros.
    + apply logs_record. by destruct e as [[] ?| |].
    + by apply logs_record.
    + apply logs_set_members.
Qed.

(** X26. Whatever the command and the world, a revoke only reads the
    environment, never adds a role, and changes the roles of nobody but
    the user of the option [user], who can only lose roles. *)
Theorem revoke_only_takes_from_target (i : CommandInteraction) (w : World) :
  let w' := (ClanRevokeAccess.execute i w).2 in
  same_env w w' ∧ only_loses (option_user i) w w' ∧ logs no_role_added w w'.
Proof.
  split; [|split].
  - apply (invariant_revoke same_env); by intros.
  - apply (invariant_revoke (only_loses _)); intros.
    + apply only_loses_record.
    + apply only_loses_record.
    + apply only_loses_remove.
  - apply (invariant_revoke (logs no_role_added)); intros.
    + apply logs_record. by destruct e as [[] ?| |].
    + by apply logs_record.
    + apply logs_set_members.
Qed.


(** ** The clicks the handlers turn away *)

(** X27. A decision button clicked outside a guild: the handler writes
    a line to the console, answers that the action can only be performed
    in a server, and adds answers and console lines only: nobody is
    fetched and no role is changed. *)
Theorem click_outside_guild_rejected w i userId clanId action clan :
  well_formed_token (customId i) userId clanId action →
  configured w clanId clan →
  guild i = false →
  let w' := (ClanRequestButton.execute (ButtonClick i) w).2 in
  guildMembers w' = guildMembers w
  ∧ ∃ evs,
      trace w'
      = trace w
          ++ [ConsoleError "Button interaction was not used in a guild";
              attempted w (Reply ClanRequestButton.NotInGuild true)]
          ++ evs
      ∧ forallb reply_or_log evs = true.
Proof.
  intros (Hs & Hu & Hc & Ha) (config & Hl & Hf) Hg. unfold ClanRequestButton.execute.
  rewrite (split_cons_startsWith _ _ Hs); [|done]. cbn [negb].
  unfold ClanRequestButton.handle. rewrite Hs. cbn [lookup list_lookup].
  rewrite !truthy_field_Some by done. cbn [negb orb default id].
  unfold try_catch, bind. rewrite (load_clans_ok _ _ Hl), Hf, Hg. cbn [negb].
  destruct w as [cf nw gm ch rf tr].
  cbv [ClanRequestButton.unexpected]. run_handler.
  destruct (rf (Reply ClanRequestButton.NotInGuild true)) eqn:E1.
  - destruct (rf (Reply ClanRequestButton.UnexpectedError true)); close_run.
  - close_run.
Qed.

(** The scenario, with the approve button of [U1] clicked in a direct
    message. *)
Lemma click_outside_guild_rejected_witness :
  let w := Scenario.world Scenario.nothing in
  let i :=
    {| customId := "cr:U1:alpha:a"; user_id := "U2"; user_tag := "U2";
       guild := false; member_roles := None;
       message_id := "M1"; message_content := "Request"; message_embeds := [] |} in
  let w' := (ClanRequestButton.execute (ButtonClick i) w).2 in
  guildMembers w' = guildMembers w
  ∧ ∃ evs,
      trace w'
      = [ConsoleError "Button interaction was not used in a guild";
         Called (Reply "This action can only be performed in a server." true) true]
          ++ evs
      ∧ forallb reply_or_log evs = true.
Proof.
  apply (click_outside_guild_rejected (Scenario.world Scenario.nothing)
           {| customId := "cr:U1:alpha:a"; user_id := "U2"; user_tag := "U2";
              guild := false; member_roles := None;
              message_id := "M1"; message_content := "Request"; message_embeds := [] |}
           "U1" "alpha" "a" Scenario.clan); settle.
Defined.

(** X28. A pending request clicked by a responder the platform does not
    fetch, because the call is rejected or the responder is no member of
    the guild: the failure is logged, the responder is answered that the
    permissions could not be verified, and the handler adds answers and
    console lines only: the requesting user is not fetched and no role
    is changed. *)
Theorem unverifiable_responder_rejected w i userId action clan :
  pending w i userId action clan →
  refuses w (MembersFetch (user_id i)) = true ∨ guildMembers w !! user_id i = None →
  let w' := (ClanRequestButton.execute (ButtonClick i) w).2 in
  guildMembers w' = guildMembers w
  ∧ ∃ evs,
      trace w'
      = trace w
          ++ [Called (MembersFetch (user_id i)) false;
              ConsoleError "Failed to fetch approver member:";
              attempted w (Reply ClanRequestButton.VerifyFailed true)]
          ++ evs
      ∧ forallb reply_or_log evs = true.
Proof.
  intros Hp Hno. rewrite (execute_pending _ _ _ _ _ Hp).
  unfold try_catch, ClanRequestButton.verify_approver, try_else, members_fetch, platform.
  destruct w as [cf nw gm ch rf tr]. cbn in Hno.
  cbv [ClanRequestButton.unexpected]. run_handler.
  destruct Hno as [Hno|Hno]; rewrite Hno; [|destruct (rf (MembersFetch (user_id i)))].
  all: destruct (rf (Reply ClanRequestButton.VerifyFailed true)) eqn:E1;
    [destruct (rf (Reply ClanRequestButton.UnexpectedError true))|]; close_run.
Qed.

(** The scenario, with a responder [U9] who is not in the guild. *)
Lemma unverifiable_responder_rejected_witness :
  let w := Scenario.world Scenario.nothing in
  let i := Scenario.click "cr:U1:alpha:a" "U9" "M1" {[ "R2" ]} in
  let w' := (ClanRequestButton.execute (ButtonClick i) w).2 in
  guildMembers w' = guildMembers w
  ∧ ∃ evs,
      trace w'
      = [Called (MembersFetch "U9") false;
         ConsoleError "Failed to fetch approver member:";
         Called (Reply "Failed to verify your permissions. Please try again." true) true] ++ evs
      ∧ forallb reply_or_log evs = true.
Proof.
  apply (unverifiable_responder_rejected (Scenario.world Scenario.nothing)
           (Scenario.click "cr:U1:alpha:a" "U9" "M1" {[ "R2" ]}) "U1" "a" Scenario.clan);
    [settle|right; settle].
Defined.

Lemma startsWith_cr_signup (s : string) :
  startsWith s "cr:" = true → startsWith s "signup:" = false.
Proof.
  destruct s as [|c s]; [done|]. cbn [startsWith].
  intros [Hc _]%andb_true_iff. apply Ascii.eqb_eq in Hc as <-. done.
Qed.

(** X29. The two handlers of button clicks share no button: whatever
    the interaction and the world, at most one of them acts; the other
    returns at once and leaves the world as it is.  An interaction that
    is no button click is left alone by both. *)
Theorem one_handler_per_click (interaction : Interaction) (w : World) :
  (ClanRequestButton.execute interaction w = (Ok tt, w)
   ∨ DiClanSignupButton.execute interaction w = (Ok tt, w))
  ∧ (match interaction with ButtonClick _ => False | _ => True end →
     ClanRequestButton.execute interaction w = (Ok tt, w)
     ∧ DiClanSignupButton.execute interaction w = (Ok tt, w)).
Proof.
  split.
  - destruct interaction as [i|i|]; [|by left..].
    unfold ClanRequestButton.execute, DiClanSignupButton.execute.
    destruct (startsWith (customId i) "cr:") eqn:E; [|by left].
    right. by rewrite (startsWith_cr_signup _ E).
  - by destruct interaction.
Qed.

(** A command is no button click. *)
Lemma one_handler_per_click_witness :
  ClanRequestButton.execute
    (ChatInputCommand (Scenario.command "U1" ∅ "U1")) (Scenario.world Scenario.nothing)
  = (Ok tt, Scenario.world Scenario.nothing)
  ∧ DiClanSignupButton.execute
      (ChatInputCommand (Scenario.command "U1" ∅ "U1")) (Scenario.world Scenario.nothing)
    = (Ok tt, Scenario.world Scenario.nothing).
Proof.
  exact (proj2 (one_handler_per_click
                  (ChatInputCommand (Scenario.command "U1" ∅ "U1"))
                  (Scenario.world Scenario.nothing)) I).
Defined.
